(** * Mirador: annotation hit-testing, viewport synchronisation and
      thumbnail resolution

    A shallow embedding of [OpenSeadragonViewer] (the component that mounts
    the deep-zoom viewer, forwards its viewport and resolves clicks and
    pointer moves to annotations) and of the thumbnail resolver exercised by
    [ThumbnailFactory.test.js].

    JavaScript numbers are embedded as rationals ([Q]): every finite double
    is a rational, and comparisons and [Math.round] are exact on them.  Sums
    and differences are not: [a + b] and [a - b] are the exact result rounded
    to the nearest double, the even one of two nearest ([toDouble]).  NaN is
    left out, and so are infinite inputs; a sum that overflows is embedded
    as [2 ^ 1024] with its sign, which compares with every double as the
    infinity does.  Calls on collaborators (the redux action creators handed
    in as props, the OpenSeadragon viewer) are embedded as a log of
    [Effect]s, in call order. *)

From Stdlib Require Import ZArith QArith Qround Qminmax List String Bool Lia.
From Stdlib Require Import DecimalString Permutation Sorted Finite Lqa Qabs Qpower.
Import ListNotations.

Set Implicit Arguments.

(** ** Data model *)

Definition number := Q.

(** [{ x, y }] as produced by [viewport.pointFromPixel]. *)
Record Point := { point_x : number; point_y : number }.

(** An annotation resource, as far as the viewer reads it: [id], [targetId],
    and the two selectors, each of which may be absent (falsy). *)
Record Resource := {
  res_id : string;
  res_targetId : string;
  svgSelector : option string;
  fragmentSelector : option (number * number * number * number)
}.

(** An annotation list (or search-result list): [{ id, resources }]. *)
Record AnnotationList := {
  list_id : string;
  resources : list Resource
}.

Record Canvas := { canvas_id : string }.

(** [{ x, y, zoom }], the viewport state owned by the application. *)
Record ViewportState := { vp_x : number; vp_y : number; vp_zoom : number }.

(** The target values of the three springs of the viewer's viewport:
    [viewport.centerSpringX.target.value] and so on. *)
Record OsdViewport := {
  centerSpringX : number;
  centerSpringY : number;
  zoomSpring : number
}.

(** An info response: [{ id, json }], where [json] may be missing and
    [json['@id']] may be undefined. *)
Record InfoResponse := {
  ir_id : string;
  ir_json : option (option string)
}.

Record NonTiledImage := { img_id : string }.

(** Calls made on collaborators, in the order the code makes them. *)
Inductive Effect :=
| PreventDefaultAction
| SelectAnnotation (windowId targetId id : string)
| DeselectAnnotation (windowId targetId id : string)
| HoverAnnotation (windowId : string) (annotationIds : list string)
| UpdateViewport (windowId : string) (v : ViewportState)
| ResetUpdateCanvas
| ForceRedraw
| ViewerClose
| AddAllImageSources (zoomAfterAdd : bool)
| RefreshTileProperties
| PanTo (v : ViewportState) (immediately : bool)
| ZoomTo (zoom : number) (refPoint : ViewportState) (immediately : bool)
| CreateViewer
| CreateCanvasOverlay
| AddHandler (eventName : string)
| SetMoveHandler
| FitBounds (x y w h : number) (immediately : bool)
| CallUpdateCanvas
| RemoveAllHandlers.

(** ** lodash *)

(** [xor(a, b)]: the unique values that are in exactly one of the arrays,
    those of [a] first. *)
Definition difference (a b : list string) : list string :=
  filter (fun i => negb (existsb (String.eqb i) b)) a.

Definition xor (a b : list string) : list string :=
  nodup string_dec (difference a b ++ difference b a).

(** [isEqual] on arrays of strings. *)
Definition isEqual_ids (a b : list string) : bool :=
  if list_eq_dec string_dec a b then true else false.

(** [sortBy(collection, key)]: a stable sort in ascending order of the key. *)
Section SortBy.
Variable A : Type.
Variable key : A -> Z.

Fixpoint insert_by (x : A) (l : list A) : list A :=
  match l with
  | [] => [x]
  | y :: l' => if (key x <=? key y)%Z then x :: l else y :: insert_by x l'
  end.

Fixpoint sortBy (l : list A) : list A :=
  match l with
  | [] => []
  | x :: l' => insert_by x (sortBy l')
  end.
End SortBy.

(** ** JavaScript built-ins *)

(** [Math.round]: the nearest integer, a tie going up. *)
Definition round_half_up (x : Q) : Z := Qfloor (x + (1 # 2)).

Definition Math_round (x : number) : number := inject_Z (round_half_up x).

(** Double precision (IEEE 754 binary64): 53 significant bits, the least
    positive double [2 ^ -1074], the greatest [(2 ^ 53 - 1) * 2 ^ 971].

    [ilog2 a] is the integer part of the binary logarithm of a positive
    [a]. *)
Definition ilog2 (a : Q) : Z :=
  if Qle_bool 1 a then Z.log2 (Qfloor a) else (- Z.log2_up (Qceiling (/ a)))%Z.

(** The nearest integer, the even one when two are nearest. *)
Definition roundHalfEven (t : Q) : Z :=
  let f := Qfloor t in
  match (t - inject_Z f ?= 1 # 2)%Q with
  | Lt => f
  | Gt => (f + 1)%Z
  | Eq => if Z.even f then f else (f + 1)%Z
  end.

(** [2 ^ 53]: the integers up to it in magnitude are doubles, and the
    significand of a double is below it. *)
Definition pow53 : Z := Eval vm_compute in (2 ^ 53)%Z.

(** The double nearest to [x], the one with the even significand when two
    are nearest: [x] is scaled so that its significand has 53 bits (fewer
    below [2 ^ -1022], where the doubles are [2 ^ -1074] apart), the
    significand is rounded, and a result past the greatest double is the
    infinity, embedded as [2 ^ 1024] with the sign of [x]. *)
Definition nearestDouble (x : Q) : Q :=
  let e := Z.max (ilog2 (Qabs x) - 52) (-1074) in
  let m := roundHalfEven (x * Qpower 2 (- e)) in
  if ((971 <? e) || ((e =? 971) && (Z.abs m =? pow53)))%Z
  then inject_Z (Z.sgn m * 2 ^ 1024)
  else inject_Z m * Qpower 2 e.

(** The rounding of a result.  An integer up to [2 ^ 53] in magnitude is a
    double and is taken as it is, which spares its evaluation the scaling;
    the value is that of [nearestDouble] in every case
    ([toDouble_nearestDouble]). *)
Definition toDouble (x : Q) : Q :=
  let n := Qfloor x in
  if Qeq_bool (inject_Z n) x && (Z.abs n <=? pow53)%Z then inject_Z n
  else nearestDouble x.

(** [a + b] and [a - b] on numbers. *)
Definition add (a b : number) : number := toDouble (a + b).
Definition sub (a b : number) : number := toDouble (a - b).

(** Whether a rational is a double (or the embedding of an infinity): a
    sum that [isDouble] is exact. *)
Definition isDouble (x : Q) : Prop := toDouble x == x.

(** [for (let i = lo; i <= hi; i += 1) body], threading the variables the
    body assigns. *)
Definition Zrange (lo hi : Z) : list Z :=
  map (fun i => (lo + Z.of_nat i)%Z) (seq 0 (Z.to_nat (hi - lo + 1))).

Definition for_loop {S : Type} (lo hi : Z) (body : Z -> S -> S) (init : S) : S :=
  fold_left (fun acc i => body i acc) (Zrange lo hi) init.

(** ** OpenSeadragonViewer *)

Section OpenSeadragonViewer.

(** [new CanvasAnnotationDisplay({ resource }).svgPaths]: the paths of an
    SVG selector. *)
Variable svgPaths : string -> list string.
(** [context2d.isPointInPath(new Path2D(path), x, y)]. *)
Variable isPointInPath : string -> number -> number -> bool.
(** [viewport.pointFromPixel]. *)
Variable pointFromPixel : Point -> Point.
(** [canvasWorld.layers], compared with [isEqual]. *)
Variable Layers : Type.
Variable isEqual_layers : Layers -> Layers -> bool.

(** The part of [CanvasWorld] the viewer calls. *)
Record CanvasWorld := {
  canvasAtPoint : Point -> option Canvas;
  canvasToWorldCoordinates : string -> number * number * number * number;
  worldBounds : number * number * number * number;
  canvasIds : list string;
  layers : Layers
}.

Record Props := {
  annotations : list AnnotationList;
  canvasWorld : CanvasWorld;
  drawAnnotations : bool;
  drawSearchAnnotations : bool;
  hoveredAnnotationIds : list string;
  infoResponses : list InfoResponse;
  nonTiledImages : list NonTiledImage;
  searchAnnotations : list AnnotationList;
  selectedAnnotationId : option string;
  viewer : option ViewportState;
  windowId : string
}.

Variable props : Props.

(** [isAnnotationAtPoint(resource, canvas, point)]: the point is moved into
    the canvas's own coordinates; an SVG selector is tried before a fragment
    selector, and a resource with neither contains nothing.  The two
    differences and the two sums are those of numbers: they round. *)
Definition isAnnotationAtPoint (resource : Resource) (canvas : Canvas)
    (point : Point) : bool :=
  let '(canvasX, canvasY, _, _) :=
    canvasToWorldCoordinates (canvasWorld props) (canvas_id canvas) in
  let relativeX := sub (point_x point) canvasX in
  let relativeY := sub (point_y point) canvasY in
  match svgSelector resource with
  | Some svg =>
      existsb (fun path => isPointInPath path relativeX relativeY) (svgPaths svg)
  | None =>
      match fragmentSelector resource with
      | Some (x, y, w, h) =>
          Qle_bool x relativeX && Qle_bool relativeX (add x w)
          && Qle_bool y relativeY && Qle_bool relativeY (add y h)
      | None => false
      end
  end.

(** [annotationsAtPoint(canvas, point)]: the resources of both kinds of
    lists that target the canvas and contain the point, in list order. *)
Definition annotationsAtPoint (canvas : Canvas) (point : Point) : list Resource :=
  let lists := annotations props ++ searchAnnotations props in
  filter
    (fun resource =>
       if negb (String.eqb (canvas_id canvas) (res_targetId resource)) then false
       else isAnnotationAtPoint resource canvas point)
    (List.concat (map resources lists)).

(** [toggleAnnotation(targetId, id)]. *)
Definition toggleAnnotation (targetId id : string) : list Effect :=
  match selectedAnnotationId props with
  | Some sel =>
      if String.eqb sel id then [DeselectAnnotation (windowId props) targetId id]
      else [SelectAnnotation (windowId props) targetId id]
  | None => [SelectAnnotation (windowId props) targetId id]
  end.

(** [{ anno, score }]. *)
Record Scored := { anno : Resource; score : Z }.

(** [annosWithClickScore(offset)(anno)], the closure of [onCanvasClick]: the
    two nested loops over the offsets count the points inside the
    annotation.  The offsets are integers (the code passes 50, 150 and
    500), on which the counting of the loops is exact; [point.x + xOffset]
    is a sum of numbers, and rounds. *)
Definition annosWithClickScore (canvas : Canvas) (point : Point) (offset : Z)
    (a : Resource) : Scored :=
  let score :=
    for_loop (-1 * offset) offset (fun xOffset score =>
      for_loop (-1 * offset) offset (fun yOffset score =>
        if isAnnotationAtPoint a canvas
             {| point_x := add (point_x point) (inject_Z xOffset);
                point_y := add (point_y point) (inject_Z yOffset) |}
        then (score + 1)%Z else score) score) 0%Z in
  {| anno := a; score := score |}.

(** [this.toggleAnnotation(s.anno.targetId, s.anno.id)]. *)
Definition toggleScored (s : Scored) : list Effect :=
  toggleAnnotation (res_targetId (anno s)) (res_id (anno s)).

(** [onCanvasClick], given the click position in web pixels.  A list of at
    least two candidates stays that long through [map] and [sortBy], so the
    reads of [annosWithScore[0]] and [annosWithScore[1]] are defined; the
    last branch of each inner [match] is never taken. *)
Definition onCanvasClick (webPosition : Point) : list Effect :=
  let point := pointFromPixel webPosition in
  match canvasAtPoint (canvasWorld props) point with
  | None => []
  | Some canvas =>
      let annos := annotationsAtPoint canvas point in
      match annos with
      | [] => []
      | [a] => PreventDefaultAction :: toggleAnnotation (res_targetId a) (res_id a)
      | _ =>
          PreventDefaultAction ::
          match sortBy score (map (annosWithClickScore canvas point 50) annos) with
          | s0 :: s1 :: _ =>
              if negb (score s0 =? score s1)%Z then toggleScored s0
              else
                match sortBy score (map (annosWithClickScore canvas point 150) annos) with
                | t0 :: t1 :: _ =>
                    if negb (score t0 =? score t1)%Z then toggleScored t0
                    else
                      match sortBy score
                              (map (annosWithClickScore canvas point 500) annos) with
                      | u0 :: _ => toggleScored u0
                      | [] => []
                      end
                | _ => []
                end
          | _ => []
          end
      end
  end.

(** [onCanvasMouseMove], given the pointer position in web pixels. *)
Definition onCanvasMouseMove (webPosition : Point) : list Effect :=
  let point := pointFromPixel webPosition in
  match canvasAtPoint (canvasWorld props) point with
  | None => []
  | Some canvas =>
      let annos := annotationsAtPoint canvas point in
      if (0 <? List.length (xor (hoveredAnnotationIds props) (map res_id annos)))%nat
      then [HoverAnnotation (windowId props) (map res_id annos)]
      else []
  end.

(** [onViewportChange]: forwards the viewer's pose to the application. *)
Definition onViewportChange (viewport : OsdViewport) : list Effect :=
  [UpdateViewport (windowId props)
     {| vp_x := Math_round (centerSpringX viewport);
        vp_y := Math_round (centerSpringY viewport);
        vp_zoom := zoomSpring viewport |}].

(** [l.every((a, index) => f(a, prev[index]))] and the same with [some];
    [prev[index]] is undefined past the end of [prev]. *)
Fixpoint every_indexed {A B : Type} (f : A -> option B -> bool)
    (l : list A) (prev : list B) : bool :=
  match l with
  | [] => true
  | a :: l' => f a (hd_error prev) && every_indexed f l' (tl prev)
  end.

Fixpoint some_indexed {A B : Type} (f : A -> option B -> bool)
    (l : list A) (prev : list B) : bool :=
  match l with
  | [] => false
  | a :: l' => f a (hd_error prev) || some_indexed f l' (tl prev)
  end.

(** [annotationsMatch] (static): whether the annotations are those of the
    previous props. *)
Definition annotationsMatch (currentAnnotations prevAnnotations : list AnnotationList)
    : bool :=
  if ((List.length currentAnnotations =? 0) && (List.length prevAnnotations =? 0))%nat
  then true
  else if negb (List.length currentAnnotations =? List.length prevAnnotations)%nat
  then false
  else
    every_indexed
      (fun annotation prevAnnotation =>
         match prevAnnotation with
         | None => false
         | Some prevA =>
             let newIds := map res_id (resources annotation) in
             let prevIds := map res_id (resources prevA) in
             if ((List.length newIds =? 0) && (List.length prevIds =? 0))%nat then true
             else if negb (List.length newIds =? List.length prevIds)%nat then false
             else String.eqb (list_id annotation) (list_id prevA)
                  && isEqual_ids newIds prevIds
         end)
      currentAnnotations prevAnnotations.

(** [===] on values that are a string or undefined. *)
Definition eqb_undefinable (a b : option string) : bool :=
  match a, b with
  | Some x, Some y => String.eqb x y
  | None, None => true
  | _, _ => false
  end.

(** [infoResponsesMatch(prevInfoResponses)]. *)
Definition infoResponsesMatch (prevInfoResponses : list InfoResponse) : bool :=
  let infoResponses := infoResponses props in
  if ((List.length infoResponses =? 0) && (List.length prevInfoResponses =? 0))%nat
  then true
  else if negb (List.length infoResponses =? List.length prevInfoResponses)%nat
  then false
  else
    some_indexed
      (fun infoResponse prevInfoResponse =>
         match prevInfoResponse with
         | None => false
         | Some prevI =>
             match ir_json infoResponse with
             | None => false
             | Some atId =>
                 eqb_undefinable atId
                   (match ir_json prevI with Some prevAtId => prevAtId | None => None end)
             end
         end)
      infoResponses prevInfoResponses.

(** [nonTiledImagedMatch(prevNonTiledImages)]. *)
Definition nonTiledImagedMatch (prevNonTiledImages : list NonTiledImage) : bool :=
  let nonTiledImages := nonTiledImages props in
  if ((List.length nonTiledImages =? 0) && (List.length prevNonTiledImages =? 0))%nat
  then true
  else
    some_indexed
      (fun image prevImage =>
         match prevImage with
         | None => false
         | Some prevI => String.eqb (img_id image) (img_id prevI)
         end)
      nonTiledImages prevNonTiledImages.

(** The component's own mutable state: the flag set while the viewer
    animates. *)
Record Component := { osdUpdating : bool }.

(** [componentDidUpdate(prevProps)], with [this.viewer.viewport] as it is at
    the call. *)
Definition componentDidUpdate (this : Component) (viewport : OsdViewport)
    (prevProps : Props) : list Effect :=
  let annotationsUpdated :=
    negb (annotationsMatch (annotations props) (annotations prevProps)) in
  let searchAnnotationsUpdated :=
    negb (annotationsMatch (searchAnnotations props) (searchAnnotations prevProps)) in
  let hoveredAnnotationsUpdated :=
    (0 <? List.length (xor (hoveredAnnotationIds props)
                           (hoveredAnnotationIds prevProps)))%nat in
  let selectedAnnotationsUpdated :=
    negb (eqb_undefinable (selectedAnnotationId props)
                          (selectedAnnotationId prevProps)) in
  let redrawAnnotations :=
    negb (Bool.eqb (drawAnnotations props) (drawAnnotations prevProps))
    || negb (Bool.eqb (drawSearchAnnotations props) (drawSearchAnnotations prevProps)) in
  (if searchAnnotationsUpdated || annotationsUpdated || selectedAnnotationsUpdated
      || hoveredAnnotationsUpdated || redrawAnnotations
   then [ResetUpdateCanvas; ForceRedraw] else [])
  ++
  (if negb (infoResponsesMatch (infoResponses prevProps))
      || negb (nonTiledImagedMatch (nonTiledImages prevProps))
   then
     let canvasesChanged :=
       negb (isEqual_ids (canvasIds (canvasWorld props))
                         (canvasIds (canvasWorld prevProps))) in
     [ViewerClose;
      AddAllImageSources
        (canvasesChanged || match viewer props with Some _ => false | None => true end)]
   else if negb (isEqual_layers (layers (canvasWorld props))
                                (layers (canvasWorld prevProps)))
   then [RefreshTileProperties]
   else
     match viewer props with
     | Some v =>
         if negb (osdUpdating this) then
           (if negb (Qeq_bool (vp_x v) (centerSpringX viewport))
               || negb (Qeq_bool (vp_y v) (centerSpringY viewport))
            then [PanTo v false] else [])
           ++
           (if negb (Qeq_bool (vp_zoom v) (zoomSpring viewport))
            then [ZoomTo (vp_zoom v) v false] else [])
         else []
     | None => []
     end).

(** [componentDidMount], with whether [this.ref.current] is there: the
    viewer and its overlay are made, the handlers registered, the canvas
    callback set, the viewer brought to the viewport state (at once) when
    there is one, and the image sources added. *)
Definition componentDidMount (refCurrent : bool) : list Effect :=
  if negb refCurrent then []
  else
    [CreateViewer; CreateCanvasOverlay;
     AddHandler "update-viewport";
     AddHandler "animation-start";
     AddHandler "animation-finish";
     AddHandler "animation-finish";
     AddHandler "canvas-click";
     SetMoveHandler;
     ResetUpdateCanvas]
    ++ match viewer props with
       | Some v => [PanTo v true; ZoomTo (vp_zoom v) v true]
       | None => []
       end
    ++ [AddAllImageSources (match viewer props with Some _ => false | None => true end)].

(** [onUpdateViewport]: calls [this.updateCanvas], whatever it is bound to
    (nothing before the component is mounted, the canvas callback after). *)
Definition onUpdateViewport : list Effect := [CallUpdateCanvas].

(** [componentWillUnmount]. *)
Definition componentWillUnmount : list Effect := [RemoveAllHandlers].

(** [zoomToWorld(immediately = true)], which the children of the component
    are handed and [addAllImageSources] calls when the sources are in. *)
Definition zoomToWorld (immediately : option bool) : list Effect :=
  let '(x, y, w, h) := worldBounds (canvasWorld props) in
  [FitBounds x y w h (match immediately with Some b => b | None => true end)].

End OpenSeadragonViewer.

Arguments isAnnotationAtPoint svgPaths isPointInPath {Layers} props resource canvas point.
Arguments annotationsAtPoint svgPaths isPointInPath {Layers} props canvas point.
Arguments annosWithClickScore svgPaths isPointInPath {Layers} props canvas point offset a.
Arguments onCanvasClick svgPaths isPointInPath pointFromPixel {Layers} props webPosition.
Arguments onCanvasMouseMove svgPaths isPointInPath pointFromPixel {Layers} props webPosition.

(** ** The viewer's event handlers as a machine

    [componentDidMount] registers: on [update-viewport],
    [onUpdateViewport]; on [animation-start], set the flag; on
    [animation-finish], first [onViewportChange], then clear the flag; on
    [canvas-click], [onCanvasClick]; as move handler, [onCanvasMouseMove].
    React calls [componentDidMount], then [componentDidUpdate] with the
    previous props, and [componentWillUnmount]; [zoomToWorld] is called by
    the children and when the image sources are in.  Each event comes with
    the props current at that time. *)
Section Machine.
Variable svgPaths : string -> list string.
Variable isPointInPath : string -> number -> number -> bool.
Variable pointFromPixel : Point -> Point.
Variable Layers : Type.
Variable isEqual_layers : Layers -> Layers -> bool.

Inductive Event :=
| AnimationStart
| AnimationFinish (viewport : OsdViewport)
| CanvasClick (webPosition : Point)
| MouseMove (webPosition : Point)
| DidUpdate (viewport : OsdViewport) (prevProps : Props Layers)
| Mount (refCurrent : bool)
| ZoomToWorld (immediately : option bool)
| UpdateViewportFired
| Unmount.

Definition dispatch (this : Component) (props : Props Layers) (e : Event)
    : Component * list Effect :=
  match e with
  | AnimationStart => ({| osdUpdating := true |}, [])
  | AnimationFinish viewport =>
      ({| osdUpdating := false |}, onViewportChange props viewport)
  | CanvasClick webPosition =>
      (this, onCanvasClick svgPaths isPointInPath pointFromPixel props webPosition)
  | MouseMove webPosition =>
      (this, onCanvasMouseMove svgPaths isPointInPath pointFromPixel props webPosition)
  | DidUpdate viewport prevProps =>
      (this, componentDidUpdate isEqual_layers props this viewport prevProps)
  | Mount refCurrent => (this, componentDidMount props refCurrent)
  | ZoomToWorld immediately => (this, zoomToWorld props immediately)
  | UpdateViewportFired => (this, onUpdateViewport)
  | Unmount => (this, componentWillUnmount)
  end.

(** A run: the component after a sequence of events, and the effects of
    each step, in order. *)
Fixpoint run (this : Component) (events : list (Props Layers * Event))
    : Component * list (list Effect) :=
  match events with
  | [] => (this, [])
  | (props, e) :: rest =>
      let '(this', effects) := dispatch this props e in
      let '(final, log) := run this' rest in
      (final, effects :: log)
  end.
End Machine.

(** ** ThumbnailFactory *)

Module ThumbnailFactory.

(** Modelled from the spec: [ThumbnailFactory.js] is not among the sources,
    only its test suite is.  The conformance level of an image service;
    [Unrecognized] is a profile the resolver does not know. *)
Inductive ServiceProfile := Level0 | Level1 | Level2 | Unrecognized.

(** Modelled from the spec: an IIIF Image API service, with its base
    identifier and its level. *)
Record ImageService := { service_id : string; profile : ServiceProfile }.

(** Modelled from the spec: an image (or thumbnail) resource: its id, its
    declared dimensions when it has them, and its first image service when
    it has one. *)
Record ImageResource := {
  image_id : string;
  image_width : option Z;
  image_height : option Z;
  service : option ImageService
}.

(** Modelled from the spec: a canvas, with its thumbnail and its images. *)
Record CanvasResource := {
  canvas_thumbnail : option ImageResource;
  canvas_images : list ImageResource
}.

(** Modelled from the spec: a manifest, with its thumbnail, its start canvas
    and its canvases. *)
Record ManifestResource := {
  manifest_thumbnail : option ImageResource;
  startCanvas : option CanvasResource;
  canvases : list CanvasResource
}.

(** Modelled from the spec: a collection, with its thumbnail and its member
    manifests. *)
Record CollectionResource := {
  collection_thumbnail : option ImageResource;
  manifests : list ManifestResource
}.

(** Modelled from the spec: the resource node of a thumbnail request, a
    tagged union of the four kinds. *)
Inductive ResourceNode :=
| ImageNode (image : ImageResource) (thumbnail : option ImageResource)
| CanvasNode (canvas : CanvasResource)
| ManifestNode (manifest : ManifestResource)
| CollectionNode (collection : CollectionResource).

(** Modelled from the spec: the constraints [{ maxWidth?, maxHeight? }]. *)
Record Constraints := { maxWidth : option Z; maxHeight : option Z }.

(** Modelled from the spec: the result [{ url, width, height }]; a dimension
    that was not resolved is absent. *)
Record Thumbnail := { url : string; width : option Z; height : option Z }.

(** A number in a URL, in decimal. *)
Definition show (n : Z) : string := NilZero.string_of_int (Z.to_int n).

(** Modelled from the spec: the floor on the size of a thumbnail request. *)
Definition minDimension : Z := 120.

Definition hasService (r : ImageResource) : bool :=
  match service r with Some _ => true | None => false end.

(** Modelled from the spec: step 1 of the resolver for a canvas: its
    thumbnail where it has one, else its first image. *)
Definition canvasLeaf (c : CanvasResource) : option ImageResource :=
  match canvas_thumbnail c with
  | Some t => Some t
  | None => hd_error (canvas_images c)
  end.

(** Modelled from the spec: step 1 for a manifest: its thumbnail, else its
    start canvas where one is set, else its first canvas. *)
Definition manifestLeaf (m : ManifestResource) : option ImageResource :=
  match manifest_thumbnail m with
  | Some t => Some t
  | None =>
      match startCanvas m with
      | Some c => canvasLeaf c
      | None => match canvases m with c :: _ => canvasLeaf c | [] => None end
      end
  end.

(** Modelled from the spec: step 1 for any node; a collection falls back to
    its first manifest.  For an image resource the test suite adds that its
    own image service goes before a thumbnail that has none, and a thumbnail
    with a service before that. *)
Definition resolveLeaf (node : ResourceNode) : option ImageResource :=
  match node with
  | ImageNode image thumbnail =>
      match thumbnail with
      | Some t =>
          if hasService t then Some t
          else if hasService image then Some image
          else Some t
      | None => Some image
      end
  | CanvasNode c => canvasLeaf c
  | ManifestNode m => manifestLeaf m
  | CollectionNode c =>
      match collection_thumbnail c with
      | Some t => Some t
      | None => match manifests c with m :: _ => manifestLeaf m | [] => None end
      end
  end.

(** Modelled from the spec: step 2, a static image is returned as declared. *)
Definition staticImageUrl (r : ImageResource) : Thumbnail :=
  {| url := image_id r; width := image_width r; height := image_height r |}.

(** Modelled from the spec: best fit inside [w] by [h] of an image of [ow]
    by [oh]: the scale is the lesser of the two ratios, and each resolved
    dimension is the scaled one, rounded. *)
Definition bestFit (w h ow oh : Z) : Z * Z :=
  let scale := Qmin (inject_Z w / inject_Z ow) (inject_Z h / inject_Z oh) in
  (round_half_up (scale * inject_Z ow), round_half_up (scale * inject_Z oh)).

(** Modelled from the spec: the size parameter and the resolved width and
    height that the constraints give for an image of [ow] by [oh]; with no
    constraint at all, the bounded default [,120]. *)
Definition targetSize (c : Constraints) (ow oh : Z) : string * (Z * Z) :=
  match maxWidth c, maxHeight c with
  | Some w, None =>
      ((show w ++ ",")%string,
       (w, round_half_up (inject_Z w * inject_Z oh / inject_Z ow)))
  | None, Some h =>
      (("," ++ show h)%string,
       (round_half_up (inject_Z h * inject_Z ow / inject_Z oh), h))
  | Some w, Some h => (("!" ++ show w ++ "," ++ show h)%string, bestFit w h ow oh)
  | None, None =>
      (("," ++ show minDimension)%string,
       (round_half_up (inject_Z minDimension * inject_Z ow / inject_Z oh),
        minDimension))
  end.

(** Modelled from the spec: the minimum-size floor: a target whose width and
    height are both below the floor becomes the best fit inside the floor. *)
Definition withFloor (target : string * (Z * Z)) (ow oh : Z) : string * (Z * Z) :=
  let '(_, (w, h)) := target in
  if ((w <? minDimension) && (h <? minDimension))%Z
  then (("!" ++ show minDimension ++ "," ++ show minDimension)%string,
        bestFit minDimension minDimension ow oh)
  else target.

(** Modelled from the spec: the size parameter of an image that does not
    declare both of its dimensions: there is nothing to scale, so it is
    built from the constraints alone. *)
Definition sizeOnly (c : Constraints) : string :=
  match maxWidth c, maxHeight c with
  | Some w, None => (show w ++ ",")%string
  | None, Some h => ("," ++ show h)%string
  | Some w, Some h => ("!" ++ show w ++ "," ++ show h)%string
  | None, None => ("," ++ show minDimension)%string
  end.

(** Modelled from the spec: the URL
    [{serviceId}/full/{size}/0/default.jpg]. *)
Definition iiifUrl (s : ImageService) (size : string) : string :=
  (service_id s ++ "/full/" ++ size ++ "/0/default.jpg")%string.

(** Modelled from the spec: steps 2 to 4 on the resolved leaf.  For a
    level 0 service the constraints are ignored and the URL is the base
    identifier of the service, with no width or height resolved: these are
    the words of the spec.  (The two level 0 tests of the test suite expect
    another URL, the id of the image resource itself, and say nothing of
    width and height.)  An unrecognized profile falls back to the static
    image. *)
Definition leafThumbnail (r : ImageResource) (c : Constraints) : Thumbnail :=
  match service r with
  | None => staticImageUrl r
  | Some s =>
      match profile s with
      | Level0 => {| url := service_id s; width := None; height := None |}
      | Unrecognized => staticImageUrl r
      | Level1 | Level2 =>
          match image_width r, image_height r with
          | Some ow, Some oh =>
              let '(size, (w, h)) := withFloor (targetSize c ow oh) ow oh in
              {| url := iiifUrl s size; width := Some w; height := Some h |}
          | _, _ =>
              {| url := iiifUrl s (sizeOnly c); width := None; height := None |}
          end
      end
  end.

(** Modelled from the spec: [getThumbnail(resource, iiifOpts)]; [None] is the
    empty result of a resource graph with nothing to show. *)
Definition getThumbnail (node : ResourceNode) (iiifOpts : Constraints)
    : option Thumbnail :=
  option_map (fun r => leafThumbnail r iiifOpts) (resolveLeaf node).

(** The fixtures of the test suite. *)
Definition test_url : string := "http://example.com".

(** [iiifService(url, props, serviceProps)] of the test suite: a resource of
    id [arbitrary-url] with one service of id [url]. *)
Definition iiifService (url : string) (dims : option (Z * Z)) (p : ServiceProfile)
    : ImageResource :=
  {| image_id := "arbitrary-url";
     image_width := option_map fst dims;
     image_height := option_map snd dims;
     service := Some {| service_id := url; profile := p |} |}.

Definition iiifLevel0Service := iiifService test_url None Level0.
Definition iiifLevel1Service := iiifService test_url (Some (1000, 2000)%Z) Level1.
Definition iiifLevel2Service := iiifService test_url (Some (1000, 2000)%Z) Level2.

(** [createSubject({ '@id': 'xyz', '@type': 'Whatever', thumbnail }, iiifOpts)]
    of the test suite: a resource that has its thumbnail and nothing else. *)
Definition createSubject (thumbnail : ImageResource) (iiifOpts : Constraints)
    : option Thumbnail :=
  getThumbnail
    (CanvasNode {| canvas_thumbnail := Some thumbnail; canvas_images := [] |})
    iiifOpts.

Definition noConstraints : Constraints := {| maxWidth := None; maxHeight := None |}.

End ThumbnailFactory.

Arguments AnimationStart {Layers}.
Arguments AnimationFinish {Layers} viewport.
Arguments CanvasClick {Layers} webPosition.
Arguments MouseMove {Layers} webPosition.
Arguments Mount {Layers} refCurrent.
Arguments ZoomToWorld {Layers} immediately.
Arguments UpdateViewportFired {Layers}.
Arguments Unmount {Layers}.

(** ** The disambiguation policy in the specification's terms *)

Section Locality.
Variable svgPaths : string -> list string.
Variable isPointInPath : string -> number -> number -> bool.
Variable Layers : Type.
Variable props : Props Layers.
Variable canvas : Canvas.
Variable point : Point.

(** The sample points: the unit grid of offsets [(dx, dy)] with
    [-r <= dx <= r] and [-r <= dy <= r]. *)
Definition sampleGrid (r : Z) : list (Z * Z) :=
  list_prod (Zrange (- r) r) (Zrange (- r) r).

Definition offsetBy (d : Z * Z) : Point :=
  {| point_x := add (point_x point) (inject_Z (fst d));
     point_y := add (point_y point) (inject_Z (snd d)) |}.

(** The locality score of a candidate: the number of sample points that,
    added to the clicked point (as numbers are added), fall inside its
    shape. *)
Definition localityScore (r : Z) (a : Resource) : Z :=
  Z.of_nat
    (List.length
       (filter (fun d => isAnnotationAtPoint svgPaths isPointInPath props a canvas
                           (offsetBy d))
               (sampleGrid r))).
End Locality.

(** Whether the sample at offset [d] from the coordinate [p] of the click
    is within a rectangle from [lo], of extent [extent], on a canvas whose
    world offset is [origin]: the test of [isAnnotationAtPoint] on one
    axis. *)
Definition offsetInside (lo extent origin p : number) (d : Z) : bool :=
  let relative := sub (add p (inject_Z d)) origin in
  Qle_bool lo relative && Qle_bool relative (add lo extent).

(** The scores in ascending order, and whether the two lowest differ. *)
Definition ascending (scores : list Z) : list Z := sortBy (fun z => z) scores.

Definition lowestTwoDiffer (scores : list Z) : bool :=
  match ascending scores with
  | a :: b :: _ => negb (a =? b)%Z
  | _ => false
  end.


(** The candidate with the lowest score, the first in list order among equals. *)
Fixpoint lowestScoring (scoreOf : Resource -> Z) (annos : list Resource)
    : option Resource :=
  match annos with
  | [] => None
  | a :: rest =>
      match lowestScoring scoreOf rest with
      | None => Some a
      | Some b => if (scoreOf a <=? scoreOf b)%Z then Some a else Some b
      end
  end.

(** The radius that decides: the first of 50 and 150 at which the two lowest
    scores differ, else 500. *)
Definition decidingRadius (scoresAt : Z -> list Z) : Z :=
  if lowestTwoDiffer (scoresAt 50%Z) then 50%Z
  else if lowestTwoDiffer (scoresAt 150%Z) then 150%Z
  else 500%Z.

(** Every resource of the annotation lists and the search-result lists. *)
Definition allResources {Layers : Type} (props : Props Layers) : list Resource :=
  List.concat (map resources (annotations props ++ searchAnnotations props)).

(** The ids of the annotations at a point. *)
Definition idsAtPoint (svgPaths : string -> list string)
    (isPointInPath : string -> number -> number -> bool)
    {Layers : Type} (props : Props Layers) (canvas : Canvas) (point : Point)
    : list string :=
  map res_id (annotationsAtPoint svgPaths isPointInPath props canvas point).

(** The calls that move the external viewer's viewport. *)
Definition isViewportCommand (e : Effect) : bool :=
  match e with
  | PanTo _ _ | ZoomTo _ _ _ => true
  | _ => false
  end.

(** Those and [fitBounds]: every call that sets the viewport. *)
Definition setsViewport (e : Effect) : bool :=
  match e with
  | PanTo _ _ | ZoomTo _ _ _ | FitBounds _ _ _ _ _ => true
  | _ => false
  end.

(** [n] is an integer nearest to [x]: no integer is closer. *)
Definition isNearestInteger (x : number) (n : Z) : Prop :=
  forall m : Z, Qabs (x - inject_Z n) <= Qabs (x - inject_Z m).

(** The props once the application has stored hovered ids. *)
Definition withHovered {Layers : Type} (props : Props Layers) (ids : list string)
    : Props Layers :=
  {| annotations := annotations props;
     canvasWorld := canvasWorld props;
     drawAnnotations := drawAnnotations props;
     drawSearchAnnotations := drawSearchAnnotations props;
     hoveredAnnotationIds := ids;
     infoResponses := infoResponses props;
     nonTiledImages := nonTiledImages props;
     searchAnnotations := searchAnnotations props;
     selectedAnnotationId := selectedAnnotationId props;
     viewer := viewer props;
     windowId := windowId props |}.

(** ** Sample data *)

Module Sample.

Definition svgPaths (_ : string) : list string := [].
Definition isPointInPath (_ : string) (_ _ : number) : bool := false.
Definition pointFromPixel (p : Point) : Point := p.

Definition page : Canvas := {| canvas_id := "canvas-1" |}.

(** One canvas of 1000 by 1000 at the origin of the world; points left of
    it are on no canvas. *)
Definition world : CanvasWorld unit :=
  {| canvasAtPoint := fun p => if Qle_bool 0 (point_x p) then Some page else None;
     canvasToWorldCoordinates := fun _ => (0, 0, 1000, 1000);
     worldBounds := (0, 0, 1000, 1000);
     canvasIds := ["canvas-1"%string];
     layers := tt |}.

Definition rectangle (id : string) (x y w h : Z) : Resource :=
  {| res_id := id;
     res_targetId := "canvas-1";
     svgSelector := None;
     fragmentSelector := Some (inject_Z x, inject_Z y, inject_Z w, inject_Z h) |}.

Definition big : Resource := rectangle "big" 0 0 100 100.
Definition small : Resource := rectangle "small" 40 40 20 20.
Definition bare : Resource :=
  {| res_id := "bare"; res_targetId := "canvas-1";
     svgSelector := None; fragmentSelector := None |}.

Definition propsWith (rs : list Resource) (hovered : list string) : Props unit :=
  {| annotations := [{| list_id := "list-1"; resources := rs |}];
     canvasWorld := world;
     drawAnnotations := true;
     drawSearchAnnotations := true;
     hoveredAnnotationIds := hovered;
     infoResponses := [];
     nonTiledImages := [];
     searchAnnotations := [];
     selectedAnnotationId := None;
     viewer := Some {| vp_x := 10; vp_y := 20; vp_zoom := 1 # 2 |};
     windowId := "window-1" |}.

Definition nested : Props unit := propsWith [big; small] [].
Definition withBare : Props unit := propsWith [bare; small] [].

Definition centre : Point := {| point_x := 50; point_y := 50 |}.
Definition outside : Point := {| point_x := -5; point_y := 50 |}.

(** Where the doubles are 2 apart: a rectangle from [2 ^ 53 + 2], one unit
    wide, and the next double to the right of its left border. *)
Definition far : Resource := rectangle "far" 9007199254740994 0 1 10.
Definition farAway : Props unit := propsWith [far] [].
Definition farPoint : Point := {| point_x := 9007199254740996; point_y := 5 |}.

(** A click a hair to the right of the corner shared by two rectangles. *)
Definition corner1 : Resource := rectangle "corner-1" 0 0 50 49.
Definition corner2 : Resource := rectangle "corner-2" (-1000) 0 2000 24.
Definition corners : Props unit := propsWith [corner1; corner2] [].
Definition hair : Point := {| point_x := 1 # 1152921504606846976; point_y := 0 |}.
Definition corner3 : Resource := rectangle "corner-3" 0 0 10 19.
Definition corner4 : Resource := rectangle "corner-4" 0 0 20 9.
Definition evenCorners : Props unit := propsWith [corner3; corner4] [].

Definition pose : OsdViewport :=
  {| centerSpringX := 7 # 2; centerSpringY := 20; zoomSpring := 1 # 3 |}.

End Sample.

(** ** JavaScript values

    The values that JSON-LD documents, action payloads and the fields of a
    window hold. *)

Module Js.

#[local] Unset Elimination Schemes.
Inductive Value :=
| VUndefined
| VNull
| VBool (b : bool)
| VNumber (n : number)
| VString (s : string)
| VArray (items : list Value)
| VObject (fields : list (string * Value)).
#[local] Set Elimination Schemes.

(** What [!v] negates and [v && ...] tests. *)
Definition truthy (v : Value) : bool :=
  match v with
  | VUndefined | VNull => false
  | VBool b => b
  | VNumber n => negb (Qeq_bool n 0)
  | VString s => negb (String.eqb s "")
  | VArray _ | VObject _ => true
  end.

(** [v === s] for a string [s]. *)
Definition isString (s : string) (v : Value) : bool :=
  match v with
  | VString s' => String.eqb s' s
  | _ => false
  end.

(** [fields[k]] of an object given by its fields, each key once. *)
Fixpoint lookup (k : string) (fields : list (string * Value)) : Value :=
  match fields with
  | [] => VUndefined
  | (k', v) :: rest => if String.eqb k' k then v else lookup k rest
  end.

(** [v[k]] for a truthy [v] and a key [k] that no prototype defines: the
    field of an object, undefined on anything else. *)
Definition prop (v : Value) (k : string) : Value :=
  match v with
  | VObject fields => lookup k fields
  | _ => VUndefined
  end.

(** [new Array(v)]: an array of [v] empty slots when [v] is a number, which
    must then be an integer from 0 to 2^32 - 1 (a RangeError otherwise, here
    [None]), and the one-element array [[v]] for any other value.  An empty
    slot reads as undefined. *)
Definition newArray (v : Value) : option (list Value) :=
  match v with
  | VNumber n =>
      if Qeq_bool (inject_Z (Qfloor n)) n
         && (0 <=? Qfloor n)%Z && (Qfloor n <? 2 ^ 32)%Z
      then Some (repeat VUndefined (Z.to_nat (Qfloor n)))
      else None
  | _ => Some [v]
  end.

(** [flatten(array)] of lodash: one level. *)
Definition flatten (array : list Value) : list Value :=
  flat_map (fun v => match v with VArray items => items | _ => [v] end) array.

End Js.

(** ** windowsReducer

    The reducer over the windows of the workspace.  A window is a JavaScript
    object read field by field, a field that is not there reading as
    undefined; the state is a plain object that maps window ids to windows.
    Spreading an object keeps every field, and spreading undefined gives the
    empty object.  An access that raises a TypeError is the outcome
    [Throws].

    [state[w]] looks [w] up in the state and then in [Object.prototype]: for
    a [w] that is no key of the state but one of the names every object
    inherits ([constructor], [toString], ...), it is not undefined but a
    function (for [__proto__], the prototype itself): a truthy value with
    no field to spread and none of the fields the reducer reads.  The
    functions of immutable ([updateIn], [removeIn]) look at the keys of the
    state only.  Two things are left out: the empty array that
    [IMPORT_MIRADOR_STATE] falls back to is taken as the state without
    windows (an array inherits more names), and a window stored under the
    key [__proto__] is taken as any other (a copy made by immutable assigns
    it, which sets the prototype of the copy). *)

Module Windows.
Import Js.

Definition Obj := string -> Value.
Definition State := string -> option Obj.

(** [{}] and [{ ...o, [k]: v }]. *)
Definition emptyObj : Obj := fun _ => VUndefined.

Definition setField (k : string) (v : Value) (o : Obj) : Obj :=
  fun k' => if String.eqb k' k then v else o k'.

(** The names that [Object.prototype] defines. *)
Definition objectPrototypeKeys : list string :=
  ["constructor"; "hasOwnProperty"; "isPrototypeOf"; "propertyIsEnumerable";
   "toLocaleString"; "toString"; "valueOf"; "__proto__";
   "__defineGetter__"; "__defineSetter__"; "__lookupGetter__";
   "__lookupSetter__"]%string.

Definition inheritedKey (w : string) : bool :=
  existsb (String.eqb w) objectPrototypeKeys.

(** [{ ...state[w] }]: the fields of window [w], none when there is no such
    window (undefined and an inherited function alike have none). *)
Definition spread (state : State) (w : string) : Obj :=
  match state w with
  | Some o => o
  | None => emptyObj
  end.

(** [{ ...state, [w]: o }]. *)
Definition setWindow (w : string) (o : Obj) (state : State) : State :=
  fun w' => if String.eqb w' w then Some o else state w'.

(** [removeIn(state, [w])] of immutable. *)
Definition removeIn (state : State) (w : string) : State :=
  fun w' => if String.eqb w' w then None else state w'.

(** [merge(orig, payload)] of immutable on plain objects: the fields of the
    payload, in order, over those of [orig]. *)
Definition merge (orig : Obj) (payload : list (string * Value)) : Obj :=
  fold_left (fun o kv => setField (fst kv) (snd kv) o) payload orig.

(** The actions, each with the fields the reducer reads of it. *)
Inductive Action :=
| ADD_WINDOW (id : string) (window : Obj)
| MAXIMIZE_WINDOW (windowId : string)
| MINIMIZE_WINDOW (windowId : string)
| UPDATE_WINDOW (id : string) (payload : list (string * Value))
| REMOVE_WINDOW (windowId : string)
| TOGGLE_WINDOW_SIDE_BAR (windowId : string)
| SET_WINDOW_VIEW_TYPE (windowId : string) (viewType : Value)
| SET_WINDOW_SIDE_BAR_PANEL (windowId : string) (panelType : Value)
| UPDATE_WINDOW_POSITION (windowId : string) (x y : Value)
| SET_WINDOW_SIZE (windowId : string) (height width x y : Value)
| SET_CANVAS (windowId : string) (canvasId visibleCanvases : Value)
| ADD_COMPANION_WINDOW (windowId id : string) (position content : Value)
| UPDATE_COMPANION_WINDOW (windowId : string) (position : Value)
| REMOVE_COMPANION_WINDOW (windowId id : string)
| SELECT_CONTENT_SEARCH_ANNOTATION (windowId : string) (canvasId annotationId : Value)
| SELECT_CONTENT_SEARCH_ANNOTATIONS (windowId : string) (annotationsBySearch : list Value)
| SELECT_ANNOTATION (windowId : string) (annotationId : Value)
| DESELECT_ANNOTATION (windowId : string)
| HOVER_ANNOTATION (windowId : string) (annotationId : Value)
| TOGGLE_ANNOTATION_DISPLAY (windowId : string)
| IMPORT_MIRADOR_STATE (windows : option State)
| REQUEST_SEARCH (windowId : string)
| OTHER_ACTION.

Inductive Outcome :=
| Returns (state : State)
| Throws.

(** [state[w].companionWindowIds.concat([id])]: an array gets the id at its
    end, a string gets it appended, anything else has no [concat]. *)
Definition concatId (v : Value) (id : string) : option Value :=
  match v with
  | VArray l => Some (VArray (l ++ [VString id]))
  | VString s => Some (VString (s ++ id))
  | _ => None
  end.

(** [state[w].companionWindowIds.filter(i => i !== id)]: only an array has
    [filter]. *)
Definition filterId (v : Value) (id : string) : option Value :=
  match v with
  | VArray l => Some (VArray (filter (fun i => negb (isString id i)) l))
  | _ => None
  end.

(** [windowsReducer(state, action)].  Where a case reads a field of
    [state[w]] outside a spread, a [w] that is not there makes it raise,
    unless [w] is an inherited name: then the field reads as undefined, and
    [.concat] or [.filter] of it raise.  [SET_CANVAS] tests [state[w]] and
    then updates through immutable, which finds no key [w] for an inherited
    name and raises in [merge], as [UPDATE_WINDOW] does for any key that is
    not there. *)
Definition windowsReducer (state : State) (action : Action) : Outcome :=
  match action with
  | ADD_WINDOW id window => Returns (setWindow id window state)
  | MAXIMIZE_WINDOW w =>
      Returns (setWindow w (setField "maximized" (VBool true) (spread state w)) state)
  | MINIMIZE_WINDOW w =>
      Returns (setWindow w (setField "maximized" (VBool false) (spread state w)) state)
  | UPDATE_WINDOW id payload =>
      match state id with
      | Some orig => Returns (setWindow id (merge orig payload) state)
      | None => Throws
      end
  | REMOVE_WINDOW w => Returns (removeIn state w)
  | TOGGLE_WINDOW_SIDE_BAR w =>
      match state w with
      | Some o =>
          Returns (setWindow w
                     (setField "sideBarOpen" (VBool (negb (truthy (o "sideBarOpen"%string)))) o)
                     state)
      | None =>
          if inheritedKey w
          then Returns (setWindow w (setField "sideBarOpen" (VBool true) emptyObj) state)
          else Throws
      end
  | SET_WINDOW_VIEW_TYPE w viewType =>
      Returns (setWindow w (setField "view" viewType (spread state w)) state)
  | SET_WINDOW_SIDE_BAR_PANEL w panelType =>
      Returns (setWindow w (setField "sideBarPanel" panelType (spread state w)) state)
  | UPDATE_WINDOW_POSITION w x y =>
      Returns (setWindow w (setField "y" y (setField "x" x (spread state w))) state)
  | SET_WINDOW_SIZE w height width x y =>
      Returns (setWindow w
                 (setField "y" y
                    (setField "x" x
                       (setField "width" width
                          (setField "height" height (spread state w)))))
                 state)
  | SET_CANVAS w canvasId visibleCanvases =>
      match state w with
      | None => if inheritedKey w then Throws else Returns state
      | Some orig =>
          Returns (setWindow w
                     (merge orig
                        [("canvasId"%string, canvasId);
                         ("visibleCanvases"%string,
                          if truthy visibleCanvases then visibleCanvases else VArray [])])
                     state)
      end
  | ADD_COMPANION_WINDOW w id position content =>
      match state w with
      | None => Throws
      | Some o =>
          match concatId (o "companionWindowIds"%string) id with
          | None => Throws
          | Some ids =>
              let o' := setField "companionWindowIds" ids o in
              Returns (setWindow w
                         (if isString "left" position
                          then setField "sideBarPanel" content
                                 (setField "companionAreaOpen" (VBool true) o')
                          else o')
                         state)
          end
      end
  | UPDATE_COMPANION_WINDOW w position =>
      if negb (isString "left" position) then Returns state
      else Returns (setWindow w
                      (setField "companionAreaOpen" (VBool true) (spread state w)) state)
  | REMOVE_COMPANION_WINDOW w id =>
      match state w with
      | None => Throws
      | Some o =>
          match filterId (o "companionWindowIds"%string) id with
          | None => Throws
          | Some ids => Returns (setWindow w (setField "companionWindowIds" ids o) state)
          end
      end
  | SELECT_CONTENT_SEARCH_ANNOTATION w canvasId annotationId =>
      Returns (setWindow w
                 (setField "selectedContentSearchAnnotation" annotationId
                    (setField "canvasId" canvasId (spread state w)))
                 state)
  | SELECT_CONTENT_SEARCH_ANNOTATIONS w annotationsBySearch =>
      Returns (setWindow w
                 (setField "selectedContentSearchAnnotation"
                    (hd VUndefined annotationsBySearch) (spread state w))
                 state)
  | SELECT_ANNOTATION w annotationId =>
      Returns (setWindow w (setField "selectedAnnotationId" annotationId (spread state w))
                 state)
  | DESELECT_ANNOTATION w =>
      Returns (setWindow w (setField "selectedAnnotationId" VUndefined (spread state w))
                 state)
  | HOVER_ANNOTATION w annotationId =>
      Returns (setWindow w (setField "hoveredAnnotationId" annotationId (spread state w))
                 state)
  | TOGGLE_ANNOTATION_DISPLAY w =>
      match state w with
      | Some o =>
          Returns (setWindow w
                     (setField "highlightAllAnnotations"
                        (VBool (negb (truthy (o "highlightAllAnnotations"%string)))) o)
                     state)
      | None =>
          if inheritedKey w
          then Returns (setWindow w
                          (setField "highlightAllAnnotations" (VBool true) emptyObj)
                          state)
          else Throws
      end
  | IMPORT_MIRADOR_STATE windows =>
      match windows with
      | Some imported => Returns imported
      | None => Returns (fun _ => None)
      end
  | REQUEST_SEARCH w =>
      Returns (setWindow w (setField "suggestedSearches" VUndefined (spread state w)) state)
  | OTHER_ACTION => Returns state
  end.

(** Dispatching one action after another; a throw ends the sequence. *)
Fixpoint reduceAll (state : State) (actions : list Action) : Outcome :=
  match actions with
  | [] => Returns state
  | a :: rest =>
      match windowsReducer state a with
      | Returns state' => reduceAll state' rest
      | Throws => Throws
      end
  end.

(** The window an action names, and the fields of it that the action
    writes; an action that puts a whole window, takes one away or replaces
    the state has no list of fields. *)
Definition target (a : Action) : option string :=
  match a with
  | ADD_WINDOW id _ | UPDATE_WINDOW id _ => Some id
  | MAXIMIZE_WINDOW w | MINIMIZE_WINDOW w | REMOVE_WINDOW w
  | TOGGLE_WINDOW_SIDE_BAR w | SET_WINDOW_VIEW_TYPE w _
  | SET_WINDOW_SIDE_BAR_PANEL w _ | UPDATE_WINDOW_POSITION w _ _
  | SET_WINDOW_SIZE w _ _ _ _ | SET_CANVAS w _ _ | ADD_COMPANION_WINDOW w _ _ _
  | UPDATE_COMPANION_WINDOW w _ | REMOVE_COMPANION_WINDOW w _
  | SELECT_CONTENT_SEARCH_ANNOTATION w _ _ | SELECT_CONTENT_SEARCH_ANNOTATIONS w _
  | SELECT_ANNOTATION w _ | DESELECT_ANNOTATION w | HOVER_ANNOTATION w _
  | TOGGLE_ANNOTATION_DISPLAY w | REQUEST_SEARCH w => Some w
  | IMPORT_MIRADOR_STATE _ | OTHER_ACTION => None
  end.

Definition written (a : Action) : option (list string) :=
  match a with
  | ADD_WINDOW _ _ | REMOVE_WINDOW _ | IMPORT_MIRADOR_STATE _ => None
  | UPDATE_WINDOW _ payload => Some (map fst payload)
  | MAXIMIZE_WINDOW _ | MINIMIZE_WINDOW _ => Some ["maximized"%string]
  | TOGGLE_WINDOW_SIDE_BAR _ => Some ["sideBarOpen"%string]
  | SET_WINDOW_VIEW_TYPE _ _ => Some ["view"%string]
  | SET_WINDOW_SIDE_BAR_PANEL _ _ => Some ["sideBarPanel"%string]
  | UPDATE_WINDOW_POSITION _ _ _ => Some ["x"; "y"]%string
  | SET_WINDOW_SIZE _ _ _ _ _ => Some ["height"; "width"; "x"; "y"]%string
  | SET_CANVAS _ _ _ => Some ["canvasId"; "visibleCanvases"]%string
  | ADD_COMPANION_WINDOW _ _ _ _ =>
      Some ["companionWindowIds"; "companionAreaOpen"; "sideBarPanel"]%string
  | UPDATE_COMPANION_WINDOW _ _ => Some ["companionAreaOpen"%string]
  | REMOVE_COMPANION_WINDOW _ _ => Some ["companionWindowIds"%string]
  | SELECT_CONTENT_SEARCH_ANNOTATION _ _ _ =>
      Some ["canvasId"; "selectedContentSearchAnnotation"]%string
  | SELECT_CONTENT_SEARCH_ANNOTATIONS _ _ => Some ["selectedContentSearchAnnotation"%string]
  | SELECT_ANNOTATION _ _ | DESELECT_ANNOTATION _ => Some ["selectedAnnotationId"%string]
  | HOVER_ANNOTATION _ _ => Some ["hoveredAnnotationId"%string]
  | TOGGLE_ANNOTATION_DISPLAY _ => Some ["highlightAllAnnotations"%string]
  | REQUEST_SEARCH _ => Some ["suggestedSearches"%string]
  | OTHER_ACTION => Some []
  end.


(** The actions that write named fields of window [w] from values of their
    own: not those that put, merge into or take away a whole window, nor
    those for another window. *)
Definition writesFieldsOf (w : string) (a : Action) : bool :=
  match a with
  | ADD_WINDOW _ _ | UPDATE_WINDOW _ _ | REMOVE_WINDOW _ | IMPORT_MIRADOR_STATE _ => false
  | _ => match target a with
         | Some w' => String.eqb w' w
         | None => true
         end
  end.

(** Whether a window is there with an array of companion window ids. *)
Definition hasCompanionIds (state : State) (w : string) : Prop :=
  exists o ids, state w = Some o /\ o "companionWindowIds"%string = VArray ids.

End Windows.

(** ** MiradorCanvas *)

Module MiradorCanvas.
Import Js.

(** A service of an image resource, as far as the class reads it: its [id]. *)
Record Service := { svc_id : Value }.

(** An image resource, with its services ([getServices()]). *)
Record ImageResource := { services : list Service }.

(** The wrapped canvas: its [id], the [otherContent] and [annotations] of
    its JSON-LD, and the image resources that the getter [imageResources]
    collects from it. *)
Record Wrapped := {
  mc_id : string;
  jsonld_otherContent : Value;
  jsonld_annotations : Value;
  mc_imageResources : list ImageResource
}.

(** The filter and the map of [annotationListUris]. *)
Definition isAnnotationListRef (otherContent : Value) : bool :=
  truthy otherContent
  && match otherContent with
     | VString _ => true
     | _ => isString "sc:AnnotationList" (prop otherContent "@type")
     end.

Definition uriOfRef (otherContent : Value) : Value :=
  match otherContent with
  | VString _ => otherContent
  | _ => prop otherContent "@id"
  end.

(** [get annotationListUris()]; [None] when [new Array] raises. *)
Definition annotationListUris (c : Wrapped) : option (list Value) :=
  option_map (fun a => map uriOfRef (filter isAnnotationListRef (flatten a)))
             (newArray (jsonld_otherContent c)).

(** [get canvasAnnotationPages()]. *)
Definition isAnnotationPage (annotations : Value) : bool :=
  truthy annotations && isString "AnnotationPage" (prop annotations "type").

Definition canvasAnnotationPages (c : Wrapped) : option (list Value) :=
  option_map (fun a => filter isAnnotationPage (flatten a))
             (newArray (jsonld_annotations c)).

(** The calls of [processAnnotations] on its two callbacks. *)
Inductive Call :=
| FetchAnnotation (canvasId : string) (uri : Value)
| ReceiveAnnotation (canvasId : string) (id : Value) (annotation : Value).

(** The canvas id a call carries. *)
Definition callCanvas (call : Call) : string :=
  match call with
  | FetchAnnotation canvasId _ => canvasId
  | ReceiveAnnotation canvasId _ _ => canvasId
  end.

Definition processPage (canvasId : string) (annotation : Value) : Call :=
  if negb (truthy (prop annotation "items"))
  then FetchAnnotation canvasId (prop annotation "id")
  else ReceiveAnnotation canvasId (prop annotation "id") annotation.

(** [processAnnotations(fetchAnnotation, receiveAnnotation)]: the calls made,
    and whether the method returned ([false] when a getter raised; the calls
    made before that stay made). *)
Definition processAnnotations (c : Wrapped) : list Call * bool :=
  match annotationListUris c with
  | None => ([], false)
  | Some uris =>
      let fetched := map (FetchAnnotation (mc_id c)) uris in
      match canvasAnnotationPages c with
      | None => (fetched, false)
      | Some pages => (fetched ++ map (processPage (mc_id c)) pages, true)
      end
  end.

(** [get iiifImageResources()]. *)
Definition hasServiceId (r : ImageResource) : bool :=
  match services r with
  | s :: _ => truthy (svc_id s)
  | [] => false
  end.

Definition iiifImageResources (c : Wrapped) : list ImageResource :=
  filter hasServiceId (mc_imageResources c).

(** [get imageServiceIds()]: [r.getServices()[0].id] of each; reading [id]
    of a first service that is not there raises ([None]). *)
Fixpoint firstServiceIds (rs : list ImageResource) : option (list Value) :=
  match rs with
  | [] => Some []
  | r :: rest =>
      match services r, firstServiceIds rest with
      | s :: _, Some ids => Some (svc_id s :: ids)
      | _, _ => None
      end
  end.

Definition imageServiceIds (c : Wrapped) : option (list Value) :=
  firstServiceIds (iiifImageResources c).

(** [get imageResource()]: the first image resource, undefined without one. *)
Definition imageResource (c : Wrapped) : option ImageResource :=
  hd_error (mc_imageResources c).

End MiradorCanvas.

(** ** CompanionWindow

    What [render] puts in the header of a companion window: the style of the
    panel and the buttons, each with the key of its label and what a click
    on it calls. *)

Module CompanionWindow.

Record Props := {
  cw_id : string;
  cw_windowId : string;
  cw_position : option string;
  cw_isDisplayed : bool;
  cw_updateCompanionWindow : bool;
  cw_size_width : option number;
  cw_titleControls : bool
}.

Inductive Handler :=
| UpdateCompanionWindow (windowId id position : string)
| OnCloseClick.

Record Button := { ariaLabel : string; onClick : Handler }.

Inductive Orientation := Horizontal | Vertical.

Record Rendered := {
  display : option string;
  order : option Z;
  orientation : Orientation;
  small : bool;
  buttons : list Button;
  showsTitleControls : bool
}.

Definition positionIs (p : string) (position : option string) : bool :=
  match position with
  | Some q => String.eqb q p
  | None => false
  end.

Definition render (props : Props) : Rendered :=
  let position := cw_position props in
  {| display := if cw_isDisplayed props then None else Some "none"%string;
     order := if positionIs "left" position then Some (-1)%Z else None;
     orientation := if positionIs "bottom" position then Horizontal else Vertical;
     small := match cw_size_width props with
              | Some width => negb (Qle_bool 370 width)
              | None => false
              end;
     buttons :=
       if positionIs "left" position then
         if cw_updateCompanionWindow props
         then [{| ariaLabel := "openInCompanionWindow";
                  onClick := UpdateCompanionWindow (cw_windowId props) (cw_id props)
                               "right" |}]
         else []
       else
         (if cw_updateCompanionWindow props
          then [{| ariaLabel := if positionIs "bottom" position
                                then "moveCompanionWindowToRight"
                                else "moveCompanionWindowToBottom";
                   onClick := UpdateCompanionWindow (cw_windowId props) (cw_id props)
                                (if positionIs "bottom" position
                                 then "right" else "bottom") |}]
          else [])
         ++ [{| ariaLabel := "closeCompanionWindow"; onClick := OnCloseClick |}];
     showsTitleControls := cw_titleControls props |}.

(** The props after the window was moved to a position. *)
Definition moved (props : Props) (position : string) : Props :=
  {| cw_id := cw_id props;
     cw_windowId := cw_windowId props;
     cw_position := Some position;
     cw_isDisplayed := cw_isDisplayed props;
     cw_updateCompanionWindow := cw_updateCompanionWindow props;
     cw_size_width := cw_size_width props;
     cw_titleControls := cw_titleControls props |}.

End CompanionWindow.

(** ** More of the viewer's props and sample data *)

(** The props with other annotation lists and search-result lists. *)
Definition withLists {Layers : Type} (props : Props Layers)
    (lists searchLists : list AnnotationList) : Props Layers :=
  {| annotations := lists;
     canvasWorld := canvasWorld props;
     drawAnnotations := drawAnnotations props;
     drawSearchAnnotations := drawSearchAnnotations props;
     hoveredAnnotationIds := hoveredAnnotationIds props;
     infoResponses := infoResponses props;
     nonTiledImages := nonTiledImages props;
     searchAnnotations := searchLists;
     selectedAnnotationId := selectedAnnotationId props;
     viewer := viewer props;
     windowId := windowId props |}.

(** The props with another viewport state. *)
Definition withViewer {Layers : Type} (props : Props Layers)
    (v : option ViewportState) : Props Layers :=
  {| annotations := annotations props;
     canvasWorld := canvasWorld props;
     drawAnnotations := drawAnnotations props;
     drawSearchAnnotations := drawSearchAnnotations props;
     hoveredAnnotationIds := hoveredAnnotationIds props;
     infoResponses := infoResponses props;
     nonTiledImages := nonTiledImages props;
     searchAnnotations := searchAnnotations props;
     selectedAnnotationId := selectedAnnotationId props;
     viewer := v;
     windowId := windowId props |}.

(** The viewport state that [onViewportChange] forwards for a pose. *)
Definition forwardedState (viewport : OsdViewport) : ViewportState :=
  {| vp_x := Math_round (centerSpringX viewport);
     vp_y := Math_round (centerSpringY viewport);
     vp_zoom := zoomSpring viewport |}.

(** Whether a number is an integer. *)
Definition isInteger (x : number) : bool := Qeq_bool (Math_round x) x.

(** The flag after a sequence of events: what the last animation event left. *)
Definition flagAfter {Layers : Type} (flag : bool)
    (events : list (Props Layers * Event Layers)) : bool :=
  fold_left
    (fun b pe =>
       match snd pe with
       | AnimationStart => true
       | AnimationFinish _ => false
       | _ => b
       end)
    events flag.

Module Sample2.

(** The canvas of [Sample], moved by (300, 200) in the world. *)
Definition movedWorld : CanvasWorld unit :=
  {| canvasAtPoint := fun _ => Some Sample.page;
     canvasToWorldCoordinates := fun _ => (300, 200, 1000, 1000);
     worldBounds := (300, 200, 1000, 1000);
     canvasIds := ["canvas-1"%string];
     layers := tt |}.

Definition movedProps : Props unit :=
  {| annotations := annotations Sample.nested;
     canvasWorld := movedWorld;
     drawAnnotations := true;
     drawSearchAnnotations := true;
     hoveredAnnotationIds := [];
     infoResponses := [];
     nonTiledImages := [];
     searchAnnotations := [];
     selectedAnnotationId := None;
     viewer := None;
     windowId := "window-1" |}.

Definition movedCentre : Point := {| point_x := 350; point_y := 250 |}.

(** A rectangle of negative width. *)
Definition inverted : Resource := Sample.rectangle "inverted" 60 40 (-20) 20.

(** A rectangle of width -1 where the doubles are 4 apart, and a point of
    its left border. *)
Definition collapsed : Resource :=
  Sample.rectangle "collapsed" 18014398509481984 0 (-1) 10.
Definition onTheBorder : Point := {| point_x := 18014398509481984; point_y := 5 |}.

(** A pose at the viewport state of [Sample.nested]. *)
Definition restPose : OsdViewport :=
  {| centerSpringX := 10; centerSpringY := 20; zoomSpring := 1 # 2 |}.

(** Props whose one info response is still without its [json]. *)
Definition loading : Props unit :=
  {| annotations := [];
     canvasWorld := Sample.world;
     drawAnnotations := true;
     drawSearchAnnotations := true;
     hoveredAnnotationIds := [];
     infoResponses := [{| ir_id := "info-1"; ir_json := None |}];
     nonTiledImages := [];
     searchAnnotations := [];
     selectedAnnotationId := None;
     viewer := None;
     windowId := "window-1" |}.

(** The props of [Sample.nested] holding what was forwarded for
    [Sample.pose]. *)
Definition forwarded : Props unit :=
  withViewer Sample.nested (Some (forwardedState Sample.pose)).

(** A window with one companion window and its side bar open, and the state
    that holds it. *)
Definition window1 : Windows.Obj :=
  Windows.setField "companionWindowIds" (Js.VArray [Js.VString "cw-1"])
    (Windows.setField "sideBarOpen" (Js.VBool true) Windows.emptyObj).

Definition workspace : Windows.State :=
  Windows.setWindow "window-1" window1 (fun _ => None).

(** A companion window on the right. *)
Definition companion : CompanionWindow.Props :=
  {| CompanionWindow.cw_id := "cw-1";
     CompanionWindow.cw_windowId := "window-1";
     CompanionWindow.cw_position := Some "right"%string;
     CompanionWindow.cw_isDisplayed := true;
     CompanionWindow.cw_updateCompanionWindow := true;
     CompanionWindow.cw_size_width := Some 235;
     CompanionWindow.cw_titleControls := false |}.

End Sample2.

(** * Properties *)

(** ** Double precision *)

Lemma Qle_bool_ext (a a' b b' : Q) :
  a == a' -> b == b' -> Qle_bool a b = Qle_bool a' b'.
Proof.
  intros Ha Hb.
  destruct (Qle_bool a b) eqn:H1, (Qle_bool a' b') eqn:H2; try reflexivity.
  - apply Qle_bool_iff in H1. rewrite Ha, Hb in H1. apply Qle_bool_iff in H1. congruence.
  - apply Qle_bool_iff in H2. rewrite <- Ha, <- Hb in H2. apply Qle_bool_iff in H2.
    congruence.
Qed.

Lemma ilog2_comp (a b : Q) : a == b -> ilog2 a = ilog2 b.
Proof.
  intros Hab. unfold ilog2.
  rewrite (Qle_bool_ext (Qeq_refl 1) Hab), (Qfloor_comp _ _ Hab),
    (Qceiling_comp _ _ (Qinv_comp _ _ Hab)).
  reflexivity.
Qed.

Lemma roundHalfEven_comp (s t : Q) : s == t -> roundHalfEven s = roundHalfEven t.
Proof.
  intros Hst. unfold roundHalfEven. rewrite (Qfloor_comp _ _ Hst).
  assert (Hcmp : (s - inject_Z (Qfloor t) ?= 1 # 2) = (t - inject_Z (Qfloor t) ?= 1 # 2))
    by (rewrite Hst; reflexivity).
  rewrite Hcmp. reflexivity.
Qed.

Lemma nearestDouble_comp (x y : Q) : x == y -> nearestDouble x == nearestDouble y.
Proof.
  intros Hxy. unfold nearestDouble.
  assert (He : ilog2 (Qabs x) = ilog2 (Qabs y))
    by (apply ilog2_comp; rewrite Hxy; reflexivity).
  rewrite He.
  set (e := Z.max (ilog2 (Qabs y) - 52) (-1074)).
  assert (Hm : roundHalfEven (x * 2 ^ (- e)) = roundHalfEven (y * 2 ^ (- e)))
    by (apply roundHalfEven_comp; rewrite Hxy; reflexivity).
  rewrite Hm. reflexivity.
Qed.

Lemma roundHalfEven_integer (t : Q) (n : Z) : t == inject_Z n -> roundHalfEven t = n.
Proof.
  intros Ht. rewrite (roundHalfEven_comp Ht). unfold roundHalfEven.
  rewrite Qfloor_Z.
  assert (Hcmp : (inject_Z n - inject_Z n ?= 1 # 2) = Lt).
  { assert (H0 : inject_Z n - inject_Z n == 0) by ring. rewrite H0. reflexivity. }
  rewrite Hcmp. reflexivity.
Qed.

Lemma pow2_cancel (e : Z) : 2 ^ (- e) * 2 ^ e == 1.
Proof.
  rewrite <- Qpower_plus by (intros H; discriminate H).
  replace (- e + e)%Z with 0%Z by lia. reflexivity.
Qed.

(** A number whose significand, at its own scale, is an integer is its own
    nearest double. *)
Lemma nearestDouble_exact (x : Q) (n : Z) :
  let e := Z.max (ilog2 (Qabs x) - 52) (-1074) in
  (e < 971)%Z ->
  x * 2 ^ (- e) == inject_Z n ->
  nearestDouble x == x.
Proof.
  intros e He Hn. unfold nearestDouble. fold e.
  rewrite (roundHalfEven_integer Hn).
  assert (H1 : (971 <? e)%Z = false) by (apply Z.ltb_ge; lia).
  assert (H2 : (e =? 971)%Z = false) by (apply Z.eqb_neq; lia).
  rewrite H1, H2. cbn [orb andb].
  rewrite <- Hn, <- Qmult_assoc, pow2_cancel. ring.
Qed.

Lemma ilog2_integer (z : Z) : (1 <= z)%Z -> ilog2 (inject_Z z) = Z.log2 z.
Proof.
  intros Hz. unfold ilog2.
  assert (H : Qle_bool 1 (inject_Z z) = true).
  { apply Qle_bool_iff. change 1 with (inject_Z 1). rewrite <- Zle_Qle. exact Hz. }
  rewrite H, Qfloor_Z. reflexivity.
Qed.

(** Every integer up to [2 ^ 53] in magnitude is its own nearest double. *)
Lemma nearestDouble_integer (z : Z) :
  (Z.abs z <= 2 ^ 53)%Z -> nearestDouble (inject_Z z) == inject_Z z.
Proof.
  intros Hz.
  destruct (Z.eq_dec z 0) as [-> | Hnz]; [vm_compute; reflexivity|].
  assert (Habs : Qabs (inject_Z z) == inject_Z (Z.abs z)).
  { unfold Qabs, inject_Z. simpl. reflexivity. }
  assert (Hlog : ilog2 (Qabs (inject_Z z)) = Z.log2 (Z.abs z)).
  { rewrite (ilog2_comp Habs). apply ilog2_integer. lia. }
  assert (Hk : (0 <= Z.log2 (Z.abs z) <= 53)%Z).
  { split; [apply Z.log2_nonneg|].
    change 53%Z with (Z.log2 (2 ^ 53)). apply Z.log2_le_mono. exact Hz. }
  set (k := Z.log2 (Z.abs z)) in *.
  destruct (Z.eq_dec k 53) as [Hk53 | Hk53].
  - assert (Hz' : Z.abs z = (2 ^ 53)%Z).
    { pose proof (Z.log2_spec (Z.abs z) ltac:(lia)) as [Hlo _]. fold k in Hlo.
      rewrite Hk53 in Hlo. lia. }
    apply (nearestDouble_exact (x := inject_Z z) (n := z / 2)).
    + rewrite Hlog. fold k. lia.
    + rewrite Hlog. fold k. rewrite Hk53. change (Z.max (53 - 52) (-1074)) with 1%Z.
      assert (Hev : z = (2 * (z / 2))%Z).
      { assert (Hcases : z = (2 ^ 53)%Z \/ z = (- 2 ^ 53)%Z) by lia.
        destruct Hcases as [-> | ->]; vm_compute; reflexivity. }
      rewrite Hev at 1. rewrite inject_Z_mult.
      change (Qpower 2 (- (1))) with (1 # 2). change (inject_Z 2) with 2. ring.
  - apply (nearestDouble_exact (x := inject_Z z) (n := z * 2 ^ (52 - k))).
    + rewrite Hlog. fold k. lia.
    + rewrite Hlog. fold k.
      replace (Z.max (k - 52) (-1074)) with (k - 52)%Z by lia.
      replace (- (k - 52))%Z with (52 - k)%Z by lia.
      rewrite inject_Z_mult, Zpower_Qpower by lia. reflexivity.
Qed.

(** The integer that [roundHalfEven] gives is within one half of [t]. *)
Lemma roundHalfEven_near (t : Q) : Qabs (inject_Z (roundHalfEven t) - t) <= 1 # 2.
Proof.
  unfold roundHalfEven. cbv zeta.
  pose proof (Qfloor_le t) as Hlo. pose proof (Qlt_floor t) as Hhi.
  rewrite inject_Z_plus in Hhi. change (inject_Z 1) with 1 in Hhi.
  set (f := Qfloor t) in *.
  assert (Hup : inject_Z (f + 1) == inject_Z f + 1)
    by (rewrite inject_Z_plus; reflexivity).
  apply Qabs_Qle_condition.
  destruct (t - inject_Z f ?= 1 # 2) eqn:Hcmp.
  - apply Qeq_alt in Hcmp. destruct (Z.even f); rewrite ?Hup; split; lra.
  - apply Qlt_alt in Hcmp. split; lra.
  - apply Qgt_alt in Hcmp. rewrite Hup. split; lra.
Qed.

Lemma pow2_pos (e : Z) : 0 < 2 ^ e.
Proof. apply Qpower_0_lt. reflexivity. Qed.

(** Short of an overflow, the nearest double is a multiple of the unit of the
    scale of [x] and is within half a unit of [x]. *)
Lemma nearestDouble_error (x : Q) :
  let e := Z.max (ilog2 (Qabs x) - 52) (-1074) in
  (e < 971)%Z ->
  (exists m : Z, nearestDouble x == inject_Z m * 2 ^ e) /\
  Qabs (nearestDouble x - x) <= (1 # 2) * 2 ^ e.
Proof.
  intros e He. unfold nearestDouble. fold e.
  assert (H1 : (971 <? e)%Z = false) by (apply Z.ltb_ge; lia).
  assert (H2 : (e =? 971)%Z = false) by (apply Z.eqb_neq; lia).
  rewrite H1, H2. cbn [orb andb].
  set (m := roundHalfEven (x * 2 ^ (- e))).
  split; [exists m; reflexivity|].
  pose proof (roundHalfEven_near (x * 2 ^ (- e))) as Hnear. fold m in Hnear.
  pose proof (pow2_pos e) as Hpos.
  assert (Heq : inject_Z m * 2 ^ e - x == (inject_Z m - x * 2 ^ (- e)) * 2 ^ e).
  { assert (Hc := pow2_cancel e).
    setoid_replace x with (x * (2 ^ (- e) * 2 ^ e)) at 1 by (rewrite Hc; ring).
    ring. }
  rewrite Heq, Qabs_Qmult, (Qabs_pos (2 ^ e)) by (apply Qlt_le_weak, Hpos).
  apply Qmult_le_compat_r; [exact Hnear | apply Qlt_le_weak, Hpos].
Qed.

Lemma pow2_Z (k : Z) : (0 <= k)%Z -> inject_Z (2 ^ k) == 2 ^ k.
Proof. intros Hk. rewrite Zpower_Qpower by exact Hk. reflexivity. Qed.

(** [ilog2 a] is the exponent of the power of 2 at or below [a]. *)
Lemma ilog2_spec (a : Q) : 0 < a -> 2 ^ ilog2 a <= a /\ a < 2 ^ (ilog2 a + 1).
Proof.
  intros Ha. unfold ilog2. destruct (Qle_bool 1 a) eqn:Hone.
  - apply Qle_bool_iff in Hone.
    assert (Hn : (1 <= Qfloor a)%Z).
    { change 1%Z with (Qfloor 1). apply Qfloor_resp_le. exact Hone. }
    destruct (Z.log2_spec (Qfloor a) ltac:(lia)) as [Hlo Hhi].
    pose proof (Z.log2_nonneg (Qfloor a)) as Hk.
    set (k := Z.log2 (Qfloor a)) in *.
    split.
    + rewrite <- pow2_Z by exact Hk. apply Qle_trans with (inject_Z (Qfloor a)).
      * rewrite <- Zle_Qle. exact Hlo.
      * apply Qfloor_le.
    + rewrite <- pow2_Z by lia. apply Qlt_le_trans with (inject_Z (Qfloor a + 1)).
      * apply Qlt_floor.
      * rewrite <- Zle_Qle. replace (Z.succ k) with (k + 1)%Z in Hhi by lia. lia.
  - assert (Hlt : a < 1).
    { apply Qnot_le_lt. intros Hle. apply Qle_bool_iff in Hle. congruence. }
    assert (Hne : ~ a == 0) by (intros H0; rewrite H0 in Ha; discriminate Ha).
    assert (Hinv : 1 < / a).
    { apply Qlt_shift_inv_l; [exact Ha|]. rewrite Qmult_1_l. exact Hlt. }
    assert (Hc : (1 < Qceiling (/ a))%Z).
    { rewrite Zlt_Qlt. apply Qlt_le_trans with (/ a); [exact Hinv | apply Qle_ceiling]. }
    destruct (Z.log2_up_spec (Qceiling (/ a)) Hc) as [Hlo Hhi].
    assert (Hj : (0 < Z.log2_up (Qceiling (/ a)))%Z) by (apply Z.log2_up_pos; exact Hc).
    set (j := Z.log2_up (Qceiling (/ a))) in *.
    assert (Hup : / a <= 2 ^ j).
    { apply Qle_trans with (inject_Z (Qceiling (/ a))); [apply Qle_ceiling|].
      rewrite <- pow2_Z by lia. rewrite <- Zle_Qle. exact Hhi. }
    assert (Hdown : 2 ^ (j - 1) < / a).
    { apply Qle_lt_trans with (inject_Z (Qceiling (/ a) - 1)); [| apply Qceiling_lt].
      rewrite <- pow2_Z by lia. rewrite <- Zle_Qle.
      replace (Z.pred j) with (j - 1)%Z in Hlo by lia. lia. }
    split.
    + rewrite Qpower_opp. apply Qle_shift_inv_r; [apply pow2_pos|].
      rewrite <- (Qmult_inv_r a Hne). apply Qmult_le_l; assumption.
    + replace (- j + 1)%Z with (- (j - 1))%Z by lia.
      rewrite Qpower_opp. apply Qlt_shift_inv_l; [apply pow2_pos|].
      rewrite <- (Qmult_inv_r a Hne). apply Qmult_lt_l; assumption.
Qed.

(** The significand that [nearestDouble] rounds to has at most 53 bits (it
    is [2 ^ 53] where the rounding carries into the next power of 2). *)
Lemma nearestDouble_significand (x : Q) :
  let e := Z.max (ilog2 (Qabs x) - 52) (-1074) in
  (Z.abs (roundHalfEven (x * 2 ^ (- e))) <= 2 ^ 53)%Z.
Proof.
  intros e. set (t := x * 2 ^ (- e)).
  assert (Hbound : Qabs t < inject_Z (2 ^ 53)).
  { unfold t. rewrite Qabs_Qmult, (Qabs_pos (2 ^ (- e))) by (apply Qlt_le_weak, pow2_pos).
    destruct (Qeq_dec (Qabs x) 0) as [H0 | Hne].
    - rewrite H0, Qmult_0_l. reflexivity.
    - assert (Ha : 0 < Qabs x).
      { pose proof (Qabs_nonneg x) as Hnn. apply Qle_lteq in Hnn as [Hlt | Heq];
          [exact Hlt | exfalso; apply Hne; symmetry; exact Heq]. }
      destruct (ilog2_spec Ha) as [_ Hhi].
      set (k := ilog2 (Qabs x)) in *.
      apply Qlt_le_trans with (2 ^ (k + 1) * 2 ^ (- e)).
      + apply Qmult_lt_r; [apply pow2_pos | exact Hhi].
      + rewrite <- Qpower_plus by (intros H; discriminate H).
        rewrite pow2_Z by lia. apply Qpower_le_compat_l; [lia | discriminate]. }
  pose proof (roundHalfEven_near t) as Hnear.
  set (m := roundHalfEven t) in *.
  apply Qabs_Qle_condition in Hnear as [Hn1 Hn2].
  assert (Ht : - inject_Z (2 ^ 53) < t /\ t < inject_Z (2 ^ 53)).
  { split.
    - pose proof (Qle_Qabs (- t)) as H. rewrite Qabs_opp in H. lra.
    - pose proof (Qle_Qabs t) as H. lra. }
  destruct Ht as [Ht1 Ht2].
  assert (Hm1 : inject_Z m < inject_Z (2 ^ 53 + 1)).
  { rewrite inject_Z_plus. change (inject_Z 1) with 1. lra. }
  assert (Hm2 : inject_Z (- (2 ^ 53) - 1) < inject_Z m).
  { unfold Z.sub. rewrite inject_Z_plus, inject_Z_opp. change (inject_Z (- (1))) with (- (1)).
    lra. }
  rewrite <- Zlt_Qlt in Hm1, Hm2. lia.
Qed.

(** [nearestDouble x] is a double next to [x]: short of an overflow it is
    [m * 2 ^ e] for a significand [m] of at most 53 bits ([2 ^ 53] where
    the rounding carries) at the scale [e] of [x], which is no less than
    -1074, and it is within half a unit [2 ^ e] of [x]. *)
Lemma nearestDouble_spec (x : Q) :
  let e := Z.max (ilog2 (Qabs x) - 52) (-1074) in
  (e < 971)%Z ->
  exists m : Z,
    (Z.abs m <= 2 ^ 53)%Z /\ (-1074 <= e)%Z /\
    nearestDouble x == inject_Z m * 2 ^ e /\
    Qabs (nearestDouble x - x) <= (1 # 2) * 2 ^ e.
Proof.
  intros e He. exists (roundHalfEven (x * 2 ^ (- e))).
  split; [apply nearestDouble_significand|]. split; [lia|].
  destruct (nearestDouble_error x He) as [_ Herr]. split; [| exact Herr].
  unfold nearestDouble. fold e.
  assert (H1 : (971 <? e)%Z = false) by (apply Z.ltb_ge; lia).
  assert (H2 : (e =? 971)%Z = false) by (apply Z.eqb_neq; lia).
  rewrite H1, H2. reflexivity.
Qed.

(** Known values: one tenth; the ties at [2 ^ 53 + 1] and [2 ^ 53 + 3], which
    go to the even significand; the sum of one tenth and two tenths, which
    is not three tenths; the least positive double and the tie below it;
    the overflow. *)
Example nearestDouble_known_values :
  nearestDouble (1 # 10) == 3602879701896397 # 36028797018963968 /\
  nearestDouble 9007199254740993 == 9007199254740992 /\
  nearestDouble 9007199254740995 == 9007199254740996 /\
  add (toDouble (1 # 10)) (toDouble (2 # 10))
  == 5404319552844596 # 18014398509481984 /\
  toDouble (3 # 10) == 5404319552844595 # 18014398509481984 /\
  nearestDouble (2 ^ (-1074)) == 2 ^ (-1074) /\
  nearestDouble (2 ^ (-1075)) == 0 /\
  nearestDouble (3 * 2 ^ (-1075)) == 2 ^ (-1073) /\
  nearestDouble (inject_Z (2 ^ 1024 - 2 ^ 970 - 1)) == inject_Z ((2 ^ 53 - 1) * 2 ^ 971) /\
  nearestDouble (inject_Z (2 ^ 1024 - 2 ^ 970)) == inject_Z (2 ^ 1024).
Proof.
  split; [vm_compute; reflexivity|]. split; [vm_compute; reflexivity|].
  split; [vm_compute; reflexivity|]. split; [vm_compute; reflexivity|].
  split; [vm_compute; reflexivity|]. split; [vm_compute; reflexivity|].
  split; [vm_compute; reflexivity|]. split; [vm_compute; reflexivity|].
  split; [vm_compute; reflexivity|]. vm_compute. reflexivity.
Qed.

(** The rounding of a result is the nearest double. *)
Lemma toDouble_nearestDouble (x : Q) : toDouble x == nearestDouble x.
Proof.
  unfold toDouble. cbv zeta.
  destruct (Qeq_bool (inject_Z (Qfloor x)) x) eqn:Hint; [| reflexivity].
  destruct (Z.abs (Qfloor x) <=? pow53)%Z eqn:Hsmall; [| reflexivity].
  cbn [andb]. apply Qeq_bool_iff in Hint. apply Z.leb_le in Hsmall.
  rewrite <- (nearestDouble_comp Hint). symmetry.
  apply nearestDouble_integer. exact Hsmall.
Qed.

Lemma toDouble_comp (x y : Q) : x == y -> toDouble x == toDouble y.
Proof.
  intros Hxy. rewrite !toDouble_nearestDouble. apply nearestDouble_comp. exact Hxy.
Qed.

(** Every integer up to [2 ^ 53] in magnitude is a double. *)
Lemma toDouble_integer (z : Z) : (Z.abs z <= 2 ^ 53)%Z -> isDouble (inject_Z z).
Proof.
  intros Hz. unfold isDouble. rewrite toDouble_nearestDouble.
  apply nearestDouble_integer. exact Hz.
Qed.

(** ** Loops and the sample grid *)

Lemma In_Zrange (lo hi d : Z) : In d (Zrange lo hi) <-> (lo <= d <= hi)%Z.
Proof.
  unfold Zrange. rewrite in_map_iff. split.
  - intros (i & <- & Hi). apply in_seq in Hi. lia.
  - intros Hd. exists (Z.to_nat (d - lo)). split; [lia|].
    apply in_seq. lia.
Qed.

Lemma NoDup_Zrange (lo hi : Z) : NoDup (Zrange lo hi).
Proof.
  unfold Zrange. apply Finite.Injective_map_NoDup.
  - intros i j Hij. lia.
  - apply seq_NoDup.
Qed.

Lemma NoDup_list_prod {A B : Type} (xs : list A) (ys : list B) :
  NoDup xs -> NoDup ys -> NoDup (list_prod xs ys).
Proof.
  intros Hxs Hys. induction Hxs as [|x xs Hx Hxs IH]; simpl; [constructor|].
  apply NoDup_app; [| exact IH |].
  - apply Finite.Injective_map_NoDup; [| exact Hys].
    intros y y' Heq. congruence.
  - intros [x' y'] Hin1 Hin2. apply in_map_iff in Hin1 as (y & Heq & _).
    apply in_prod_iff in Hin2 as [Hin2 _]. congruence.
Qed.

(** Every offset of the square is sampled, and sampled once. *)
Lemma sampleGrid_spec (r : Z) :
  NoDup (sampleGrid r) /\
  forall dx dy, In (dx, dy) (sampleGrid r) <-> (- r <= dx <= r /\ - r <= dy <= r)%Z.
Proof.
  split.
  - unfold sampleGrid. apply NoDup_list_prod; apply NoDup_Zrange.
  - intros dx dy. unfold sampleGrid. rewrite in_prod_iff, !In_Zrange. tauto.
Qed.

Lemma count_loop {A : Type} (f : A -> bool) (l : list A) (s0 : Z) :
  fold_left (fun acc i => if f i then (acc + 1)%Z else acc) l s0
  = (s0 + Z.of_nat (List.length (filter f l)))%Z.
Proof.
  revert s0. induction l as [|a l IH]; intros s0; simpl.
  - lia.
  - rewrite IH. destruct (f a); simpl; lia.
Qed.

Lemma filter_map_length {A B : Type} (g : B -> bool) (h : A -> B) (l : list A) :
  List.length (filter g (map h l)) = List.length (filter (fun a => g (h a)) l).
Proof.
  induction l as [|a l IH]; simpl; [reflexivity|].
  destruct (g (h a)); simpl; rewrite IH; reflexivity.
Qed.

Lemma count_nested_loop (f : Z * Z -> bool) (xs ys : list Z) (s0 : Z) :
  fold_left
    (fun acc x => fold_left (fun acc' y => if f (x, y) then (acc' + 1)%Z else acc') ys acc)
    xs s0
  = (s0 + Z.of_nat (List.length (filter f (list_prod xs ys))))%Z.
Proof.
  revert s0. induction xs as [|x xs IH]; intros s0; simpl.
  - lia.
  - rewrite IH, count_loop, filter_app, length_app, filter_map_length. lia.
Qed.

(** The score the click handler accumulates is the locality score. *)
Lemma annosWithClickScore_spec svgPaths isPointInPath Layers (props : Props Layers)
    canvas point r a :
  annosWithClickScore svgPaths isPointInPath props canvas point r a
  = {| anno := a; score := localityScore svgPaths isPointInPath props canvas point r a |}.
Proof.
  unfold annosWithClickScore, localityScore, sampleGrid, for_loop. f_equal.
  replace (-1 * r)%Z with (- r)%Z by lia.
  rewrite (count_nested_loop
             (fun d => isAnnotationAtPoint svgPaths isPointInPath props a canvas
                         (offsetBy point d))).
  reflexivity.
Qed.

Lemma filter_prod_length {A B : Type} (f : A -> bool) (g : B -> bool)
    (xs : list A) (ys : list B) :
  List.length (filter (fun d => f (fst d) && g (snd d)) (list_prod xs ys))
  = (List.length (filter f xs) * List.length (filter g ys))%nat.
Proof.
  induction xs as [|x xs IH]; simpl; [reflexivity|].
  rewrite filter_app, length_app, IH, filter_map_length. simpl.
  destruct (f x); simpl.
  - reflexivity.
  - assert (Hnone : filter (fun _ : B => false) ys = [])
      by (clear; induction ys as [|y ys IHys]; simpl; [reflexivity | exact IHys]).
    rewrite Hnone. reflexivity.
Qed.

(** The score of a rectangle is the number of sample columns within it
    times the number of sample rows within it. *)
Lemma localityScore_rectangle svgPaths isPointInPath Layers (props : Props Layers)
    canvas point r (a : Resource) x y w h cx cy cw ch :
  svgSelector a = None ->
  fragmentSelector a = Some (x, y, w, h) ->
  canvasToWorldCoordinates (canvasWorld props) (canvas_id canvas) = (cx, cy, cw, ch) ->
  localityScore svgPaths isPointInPath props canvas point r a
  = (Z.of_nat (List.length (filter (offsetInside x w cx (point_x point)) (Zrange (- r) r)))
     * Z.of_nat (List.length (filter (offsetInside y h cy (point_y point))
                                     (Zrange (- r) r))))%Z.
Proof.
  intros Hsvg Hfrag Hworld. unfold localityScore, sampleGrid.
  rewrite <- Nat2Z.inj_mul, <- filter_prod_length. do 2 f_equal.
  apply filter_ext. intros [dx dy].
  unfold isAnnotationAtPoint, offsetBy, offsetInside. rewrite Hworld, Hsvg, Hfrag.
  cbn [point_x point_y fst snd]. rewrite <- !andb_assoc. reflexivity.
Qed.

(** ** Hit-testing *)

Section HitTesting.
Variable svgPaths : string -> list string.
Variable isPointInPath : string -> number -> number -> bool.
Variable Layers : Type.
Variable props : Props Layers.

Lemma annotationsAtPoint_In (r : Resource) canvas point :
  In r (annotationsAtPoint svgPaths isPointInPath props canvas point) <->
  In r (allResources props) /\ canvas_id canvas = res_targetId r /\
  isAnnotationAtPoint svgPaths isPointInPath props r canvas point = true.
Proof.
  unfold annotationsAtPoint, allResources. rewrite filter_In.
  destruct (String.eqb_spec (canvas_id canvas) (res_targetId r)) as [He|Hne]; simpl.
  - tauto.
  - split; [intros [_ Hf]; discriminate | intros (_ & He & _); contradiction].
Qed.

Lemma isAnnotationAtPoint_fragment (r : Resource) canvas point x y w h cx cy cw ch :
  svgSelector r = None ->
  fragmentSelector r = Some (x, y, w, h) ->
  canvasToWorldCoordinates (canvasWorld props) (canvas_id canvas) = (cx, cy, cw, ch) ->
  isAnnotationAtPoint svgPaths isPointInPath props r canvas point = true <->
  (x <= sub (point_x point) cx /\ sub (point_x point) cx <= add x w) /\
  (y <= sub (point_y point) cy /\ sub (point_y point) cy <= add y h).
Proof.
  intros Hsvg Hfrag Hworld. unfold isAnnotationAtPoint.
  rewrite Hworld, Hsvg, Hfrag, !andb_true_iff, !Qle_bool_iff. tauto.
Qed.

(** C2, as the code has it.  A rectangle annotation [[x, y, w, h]] on the
    clicked canvas is among the annotations at a point exactly when the
    point, moved into the canvas's own coordinates by subtracting the
    canvas's world offset, has [x <= px <= x + w] and [y <= py <= y + h],
    the borders included, where the two differences and the two sums are
    those of numbers, rounded to the nearest double.  Where the four of them
    are exact, these are the inequalities of the rationals. *)
Theorem annotationsAtPoint_rectangle (r : Resource) canvas point x y w h cx cy cw ch :
  In r (allResources props) ->
  res_targetId r = canvas_id canvas ->
  svgSelector r = None ->
  fragmentSelector r = Some (x, y, w, h) ->
  canvasToWorldCoordinates (canvasWorld props) (canvas_id canvas) = (cx, cy, cw, ch) ->
  (let px := sub (point_x point) cx in
   let py := sub (point_y point) cy in
   In r (annotationsAtPoint svgPaths isPointInPath props canvas point) <->
   (x <= px /\ px <= add x w) /\ (y <= py /\ py <= add y h)) /\
  (isDouble (point_x point - cx) -> isDouble (point_y point - cy) ->
   isDouble (x + w) -> isDouble (y + h) ->
   let px := point_x point - cx in
   let py := point_y point - cy in
   In r (annotationsAtPoint svgPaths isPointInPath props canvas point) <->
   (x <= px /\ px <= x + w) /\ (y <= py /\ py <= y + h)).
Proof.
  intros Hin Htarget Hsvg Hfrag Hworld.
  assert (Hiff : In r (annotationsAtPoint svgPaths isPointInPath props canvas point) <->
                 (x <= sub (point_x point) cx /\ sub (point_x point) cx <= add x w) /\
                 (y <= sub (point_y point) cy /\ sub (point_y point) cy <= add y h)).
  { rewrite annotationsAtPoint_In,
      (isAnnotationAtPoint_fragment r canvas point Hsvg Hfrag Hworld).
    intuition congruence. }
  split; [exact Hiff|].
  intros Hpx Hpy Hxw Hyh px py. rewrite Hiff. unfold sub, add.
  unfold isDouble in Hpx, Hpy, Hxw, Hyh. rewrite Hpx, Hpy, Hxw, Hyh.
  reflexivity.
Qed.

(** C9.  A resource with neither an SVG selector nor a fragment selector
    contains no point, and so is never among the annotations at a point;
    the test returns [false], it does not fail. *)
Theorem isAnnotationAtPoint_without_selector (r : Resource) :
  svgSelector r = None ->
  fragmentSelector r = None ->
  forall canvas point,
    isAnnotationAtPoint svgPaths isPointInPath props r canvas point = false /\
    ~ In r (annotationsAtPoint svgPaths isPointInPath props canvas point).
Proof.
  intros Hsvg Hfrag canvas point.
  assert (Hfalse : isAnnotationAtPoint svgPaths isPointInPath props r canvas point = false).
  { unfold isAnnotationAtPoint. rewrite Hsvg, Hfrag.
    destruct (canvasToWorldCoordinates _ _) as [[[cx cy] cw] ch]. reflexivity. }
  split; [exact Hfalse|].
  rewrite annotationsAtPoint_In. intros (_ & _ & Htrue). congruence.
Qed.

(** When no resource carries a selector, nothing is hit anywhere. *)
Lemma annotationsAtPoint_all_without_selector canvas point :
  (forall r, In r (allResources props) -> svgSelector r = None /\ fragmentSelector r = None) ->
  annotationsAtPoint svgPaths isPointInPath props canvas point = [].
Proof.
  intros Hall.
  destruct (annotationsAtPoint svgPaths isPointInPath props canvas point)
    as [|r rest] eqn:Hhits; [reflexivity|].
  assert (Hin : In r (annotationsAtPoint svgPaths isPointInPath props canvas point))
    by (rewrite Hhits; left; reflexivity).
  pose proof Hin as Hin'. apply annotationsAtPoint_In in Hin' as (Hres & _ & Htrue).
  destruct (Hall r Hres) as [Hsvg Hfrag].
  unfold isAnnotationAtPoint in Htrue. rewrite Hsvg, Hfrag in Htrue.
  destruct (canvasToWorldCoordinates _ _) as [[[cx cy] cw] ch]. discriminate.
Qed.

End HitTesting.

(** ** Hovering *)

Lemma filter_nil_iff {A : Type} (f : A -> bool) (l : list A) :
  filter f l = [] <-> forall x, In x l -> f x = false.
Proof.
  induction l as [|a l IH]; simpl.
  - split; [intros _ x [] | reflexivity].
  - destruct (f a) eqn:Hfa.
    + split; [discriminate|]. intros H. specialize (H a (or_introl eq_refl)). congruence.
    + rewrite IH. split.
      * intros H x [<-|Hx]; auto.
      * intros H x Hx. apply H. right. exact Hx.
Qed.

Lemma existsb_eqb_In (i : string) (l : list string) :
  existsb (String.eqb i) l = true <-> In i l.
Proof.
  rewrite existsb_exists. split.
  - intros (x & Hx & Heq). apply String.eqb_eq in Heq. subst. exact Hx.
  - intros Hi. exists i. split; [exact Hi | apply String.eqb_refl].
Qed.

Lemma difference_nil (a b : list string) :
  difference a b = [] <-> forall i, In i a -> In i b.
Proof.
  unfold difference. rewrite filter_nil_iff. split; intros H i Hi.
  - specialize (H i Hi). apply negb_false_iff in H. apply existsb_eqb_In. exact H.
  - apply negb_false_iff. apply existsb_eqb_In. auto.
Qed.

Lemma nodup_nil (l : list string) : nodup string_dec l = [] <-> l = [].
Proof.
  split; [| intros ->; reflexivity].
  destruct l as [|x l]; [reflexivity|]. intros Hnil.
  assert (Hin : In x (nodup string_dec (x :: l))) by (apply nodup_In; left; reflexivity).
  rewrite Hnil in Hin. destruct Hin.
Qed.

(** [xor] is empty exactly when the two arrays hold the same set of values. *)
Lemma xor_nil (a b : list string) :
  xor a b = [] <-> forall i, In i a <-> In i b.
Proof.
  unfold xor. rewrite nodup_nil. split.
  - intros H. apply app_eq_nil in H as [Hab Hba].
    rewrite difference_nil in Hab, Hba. split; auto.
  - intros H. rewrite (proj2 (difference_nil a b)), (proj2 (difference_nil b a));
      [reflexivity | |]; intros i; apply H.
Qed.

Lemma xor_length_pos (a b : list string) :
  (0 <? List.length (xor a b))%nat = true <-> ~ (forall i, In i a <-> In i b).
Proof.
  rewrite <- xor_nil. destruct (xor a b) as [|i l]; cbn; split.
  - discriminate.
  - intros H. exfalso. apply H. reflexivity.
  - discriminate.
  - reflexivity.
Qed.

Section Hovering.
Variable svgPaths : string -> list string.
Variable isPointInPath : string -> number -> number -> bool.
Variable pointFromPixel : Point -> Point.
Variable Layers : Type.

Lemma idsAtPoint_withHovered (props : Props Layers) ids canvas point :
  idsAtPoint svgPaths isPointInPath (withHovered props ids) canvas point
  = idsAtPoint svgPaths isPointInPath props canvas point.
Proof. reflexivity. Qed.

Lemma onCanvasMouseMove_cases (props : Props Layers) webPosition canvas :
  canvasAtPoint (canvasWorld props) (pointFromPixel webPosition) = Some canvas ->
  let ids := idsAtPoint svgPaths isPointInPath props canvas (pointFromPixel webPosition) in
  let sameSet := forall i, In i (hoveredAnnotationIds props) <-> In i ids in
  (~ sameSet /\
   onCanvasMouseMove svgPaths isPointInPath pointFromPixel props webPosition
   = [HoverAnnotation (windowId props) ids])
  \/
  (sameSet /\
   onCanvasMouseMove svgPaths isPointInPath pointFromPixel props webPosition = []).
Proof.
  intros Hcanvas ids sameSet. unfold onCanvasMouseMove. rewrite Hcanvas.
  change (map res_id (annotationsAtPoint svgPaths isPointInPath props canvas
                        (pointFromPixel webPosition))) with ids.
  destruct (0 <? List.length (xor (hoveredAnnotationIds props) ids))%nat eqn:Hx.
  - left. split; [apply xor_length_pos; exact Hx | reflexivity].
  - right. split; [| reflexivity].
    destruct (xor (hoveredAnnotationIds props) ids) eqn:Hxor; [| discriminate].
    exact (proj1 (xor_nil _ _) Hxor).
Qed.

(** C5.  On a move over a canvas, [hoverAnnotation] is called, with the ids
    of the annotations at the point, exactly when those ids and the
    hovered ids are not the same set; once the hovered ids are the ones
    notified, a further move that hits the same set notifies nothing. *)
Theorem onCanvasMouseMove_notifies_iff_changed (props : Props Layers) webPosition canvas :
  canvasAtPoint (canvasWorld props) (pointFromPixel webPosition) = Some canvas ->
  let ids := idsAtPoint svgPaths isPointInPath props canvas (pointFromPixel webPosition) in
  let sameSet := forall i, In i (hoveredAnnotationIds props) <-> In i ids in
  (onCanvasMouseMove svgPaths isPointInPath pointFromPixel props webPosition
   = [HoverAnnotation (windowId props) ids] <-> ~ sameSet)
  /\
  (onCanvasMouseMove svgPaths isPointInPath pointFromPixel props webPosition = []
   <-> sameSet)
  /\
  (forall webPosition' canvas',
      canvasAtPoint (canvasWorld props) (pointFromPixel webPosition') = Some canvas' ->
      (forall i,
          In i (idsAtPoint svgPaths isPointInPath props canvas'
                  (pointFromPixel webPosition')) <-> In i ids) ->
      onCanvasMouseMove svgPaths isPointInPath pointFromPixel
        (withHovered props ids) webPosition' = []).
Proof.
  intros Hcanvas ids sameSet.
  assert (Hrepeat : forall webPosition' canvas',
      canvasAtPoint (canvasWorld props) (pointFromPixel webPosition') = Some canvas' ->
      (forall i,
          In i (idsAtPoint svgPaths isPointInPath props canvas'
                  (pointFromPixel webPosition')) <-> In i ids) ->
      onCanvasMouseMove svgPaths isPointInPath pointFromPixel
        (withHovered props ids) webPosition' = []).
  { intros webPosition' canvas' Hcanvas' Hhits.
    destruct (onCanvasMouseMove_cases (withHovered props ids) webPosition'
                (canvas := canvas') Hcanvas') as [[Hdiff' _] | [_ Hquiet']];
      [| exact Hquiet'].
    exfalso. apply Hdiff'. intros i. rewrite idsAtPoint_withHovered.
    change (hoveredAnnotationIds (withHovered props ids)) with ids.
    symmetry. apply Hhits. }
  destruct (onCanvasMouseMove_cases props webPosition Hcanvas)
    as [[Hdiff Hemit] | [Hsame Hquiet]].
  - fold ids in Hemit. rewrite Hemit. split; [|split].
    + split; [intros _; exact Hdiff | reflexivity].
    + split; [discriminate | intros Hs; contradiction].
    + exact Hrepeat.
  - rewrite Hquiet. split; [|split].
    + split; [discriminate | intros Hd; contradiction].
    + split; [intros _; exact Hsame | reflexivity].
    + exact Hrepeat.
Qed.

(** C10.  A move to a point on no canvas returns at once: nothing is
    notified, so whatever the application keeps (the hovered ids among it)
    stays as it was, also when some ids were hovered. *)
Theorem onCanvasMouseMove_off_canvas (props : Props Layers) webPosition :
  canvasAtPoint (canvasWorld props) (pointFromPixel webPosition) = None ->
  onCanvasMouseMove svgPaths isPointInPath pointFromPixel props webPosition = [] /\
  forall (State : Type) (reduce : State -> Effect -> State) (st : State),
    fold_left reduce
      (onCanvasMouseMove svgPaths isPointInPath pointFromPixel props webPosition) st
    = st.
Proof.
  intros Hnone. unfold onCanvasMouseMove. rewrite Hnone. split; reflexivity.
Qed.

End Hovering.

(** ** Sorting by score *)

Section SortByFacts.
Variable A : Type.
Variable key : A -> Z.

Lemma insert_by_length (x : A) (l : list A) :
  List.length (insert_by key x l) = S (List.length l).
Proof.
  induction l as [|y l IH]; simpl; [reflexivity|].
  destruct (key x <=? key y)%Z; simpl; [reflexivity | rewrite IH; reflexivity].
Qed.

Lemma sortBy_length (l : list A) : List.length (sortBy key l) = List.length l.
Proof.
  induction l as [|x l IH]; simpl; [reflexivity|].
  rewrite insert_by_length, IH. reflexivity.
Qed.

Lemma insert_by_perm (x : A) (l : list A) : Permutation (x :: l) (insert_by key x l).
Proof.
  induction l as [|y l IH]; simpl; [reflexivity|].
  destruct (key x <=? key y)%Z; [reflexivity|].
  rewrite perm_swap. apply perm_skip. exact IH.
Qed.

Lemma sortBy_perm (l : list A) : Permutation l (sortBy key l).
Proof.
  induction l as [|x l IH]; simpl; [reflexivity|].
  rewrite <- insert_by_perm. apply perm_skip. exact IH.
Qed.

Lemma insert_by_sorted (x : A) (l : list A) :
  StronglySorted (fun a b => (key a <= key b)%Z) l ->
  StronglySorted (fun a b => (key a <= key b)%Z) (insert_by key x l).
Proof.
  induction 1 as [|y l Hs IH Hy]; simpl.
  - constructor; constructor.
  - destruct (key x <=? key y)%Z eqn:Hle.
    + apply Z.leb_le in Hle. constructor; [constructor; assumption|].
      constructor; [exact Hle|].
      eapply Forall_impl; [| exact Hy]. intros b Hb. simpl in Hb. lia.
    + apply Z.leb_gt in Hle. constructor; [exact IH|].
      apply (Permutation_Forall (insert_by_perm x l)).
      constructor; [lia | exact Hy].
Qed.

Lemma sortBy_sorted (l : list A) :
  StronglySorted (fun a b => (key a <= key b)%Z) (sortBy key l).
Proof.
  induction l as [|x l IH]; simpl; [constructor | apply insert_by_sorted; exact IH].
Qed.

Lemma map_insert_by (x : A) (l : list A) :
  map key (insert_by key x l) = insert_by (fun z => z) (key x) (map key l).
Proof.
  induction l as [|y l IH]; simpl; [reflexivity|].
  destruct (key x <=? key y)%Z; simpl; [reflexivity | rewrite IH; reflexivity].
Qed.

Lemma map_sortBy (l : list A) : map key (sortBy key l) = ascending (map key l).
Proof.
  unfold ascending. induction l as [|x l IH]; simpl; [reflexivity|].
  rewrite map_insert_by, IH. reflexivity.
Qed.
End SortByFacts.

(** [ascending] is what its name says. *)
Lemma ascending_spec (scores : list Z) :
  Permutation scores (ascending scores) /\ StronglySorted Z.le (ascending scores).
Proof.
  split; [apply sortBy_perm | apply (sortBy_sorted (fun z : Z => z))].
Qed.

(** Stability: the head of the sorted candidates is the lowest-scoring one,
    the first in list order among equals. *)
Lemma hd_sortBy_scored (scoreOf : Resource -> Z) (annos : list Resource) :
  hd_error (sortBy score (map (fun a => {| anno := a; score := scoreOf a |}) annos))
  = option_map (fun a => {| anno := a; score := scoreOf a |})
               (lowestScoring scoreOf annos).
Proof.
  induction annos as [|a rest IH]; simpl; [reflexivity|].
  destruct (sortBy score (map (fun a => {| anno := a; score := scoreOf a |}) rest))
    as [|s0 tl]; destruct (lowestScoring scoreOf rest) as [b|]; simpl in IH;
    try discriminate; simpl.
  - reflexivity.
  - injection IH as ->. simpl. destruct (scoreOf a <=? scoreOf b)%Z; reflexivity.
Qed.

Lemma lowestScoring_spec (scoreOf : Resource -> Z) (annos : list Resource) (a : Resource) :
  lowestScoring scoreOf annos = Some a ->
  exists pre post,
    annos = pre ++ a :: post /\
    (forall b, In b pre -> (scoreOf a < scoreOf b)%Z) /\
    (forall b, In b post -> (scoreOf a <= scoreOf b)%Z).
Proof.
  revert a. induction annos as [|x rest IH]; intros a; simpl; [discriminate|].
  destruct (lowestScoring scoreOf rest) as [b|] eqn:Hrest.
  - destruct (IH b eq_refl) as (pre & post & Heq & Hpre & Hpost).
    destruct (scoreOf x <=? scoreOf b)%Z eqn:Hle; intros [= <-].
    + apply Z.leb_le in Hle. exists [], rest. split; [reflexivity|].
      split; [intros c []|]. intros c Hc. rewrite Heq in Hc.
      apply in_app_or in Hc as [Hc | [<- | Hc]].
      * specialize (Hpre c Hc). lia.
      * exact Hle.
      * specialize (Hpost c Hc). lia.
    + apply Z.leb_gt in Hle. exists (x :: pre), post. rewrite Heq.
      split; [reflexivity|]. split; [| exact Hpost].
      intros c [<- | Hc]; [exact Hle | apply Hpre; exact Hc].
  - destruct rest as [|y rest']; [| simpl in Hrest;
      destruct (lowestScoring scoreOf rest'); [destruct (_ <=? _)%Z|]; discriminate].
    intros [= <-]. exists [], []. split; [reflexivity|]. split; intros c [].
Qed.

Lemma lowestScoring_lowest (scoreOf : Resource -> Z) (annos : list Resource) (a : Resource) :
  lowestScoring scoreOf annos = Some a ->
  In a annos /\ forall b, In b annos -> (scoreOf a <= scoreOf b)%Z.
Proof.
  intros Hlow. destruct (lowestScoring_spec _ _ Hlow) as (pre & post & -> & Hpre & Hpost).
  split; [apply in_elt|].
  intros b Hb. apply in_app_or in Hb as [Hb | [<- | Hb]].
  - specialize (Hpre b Hb). lia.
  - lia.
  - apply Hpost. exact Hb.
Qed.

(** ** Disambiguating a click *)

Section Click.
Variable svgPaths : string -> list string.
Variable isPointInPath : string -> number -> number -> bool.
Variable pointFromPixel : Point -> Point.
Variable Layers : Type.
Variable props : Props Layers.
Variable webPosition : Point.
Variable canvas : Canvas.
Variable annos : list Resource.

Hypothesis on_canvas :
  canvasAtPoint (canvasWorld props) (pointFromPixel webPosition) = Some canvas.
Hypothesis hits :
  annotationsAtPoint svgPaths isPointInPath props canvas (pointFromPixel webPosition)
  = annos.
Hypothesis several : (2 <= List.length annos)%nat.

Let scoreAt : Z -> Resource -> Z :=
  localityScore svgPaths isPointInPath props canvas (pointFromPixel webPosition).
Let ranked (r : Z) : list Scored :=
  sortBy score
    (map (annosWithClickScore svgPaths isPointInPath props canvas
            (pointFromPixel webPosition) r) annos).
Let toggle (a : Resource) : list Effect :=
  toggleAnnotation props (res_targetId a) (res_id a).

Lemma onCanvasClick_several :
  onCanvasClick svgPaths isPointInPath pointFromPixel props webPosition
  = PreventDefaultAction ::
    match ranked 50 with
    | s0 :: s1 :: _ =>
        if negb (score s0 =? score s1)%Z then toggleScored props s0
        else
          match ranked 150 with
          | t0 :: t1 :: _ =>
              if negb (score t0 =? score t1)%Z then toggleScored props t0
              else match ranked 500 with
                   | u0 :: _ => toggleScored props u0
                   | [] => []
                   end
          | _ => []
          end
    | _ => []
    end.
Proof.
  unfold onCanvasClick, ranked. cbv zeta. rewrite on_canvas, hits.
  destruct annos as [|a1 [|a2 rest]]; simpl in several; try lia.
  reflexivity.
Qed.

(** The ranking at a radius: it starts with the lowest-scoring candidate,
    has a second entry, and its two first scores are the two lowest. *)
Lemma ranked_shape (r : Z) :
  exists a s1 tl,
    lowestScoring (scoreAt r) annos = Some a /\
    ranked r = {| anno := a; score := scoreAt r a |} :: s1 :: tl /\
    negb (scoreAt r a =? score s1)%Z = lowestTwoDiffer (map (scoreAt r) annos).
Proof.
  assert (Hranked : ranked r
            = sortBy score (map (fun a => {| anno := a; score := scoreAt r a |}) annos)).
  { unfold ranked. f_equal. apply map_ext. intros a.
    apply annosWithClickScore_spec. }
  assert (Hlen : List.length (ranked r) = List.length annos).
  { unfold ranked. rewrite sortBy_length, length_map. reflexivity. }
  assert (Hscores : map score (ranked r) = ascending (map (scoreAt r) annos)).
  { rewrite Hranked, map_sortBy, map_map. reflexivity. }
  pose proof (hd_sortBy_scored (scoreAt r) annos) as Hhd. rewrite <- Hranked in Hhd.
  destruct (ranked r) as [|s0 [|s1 tl]]; simpl in Hlen; try lia.
  simpl in Hhd. destruct (lowestScoring (scoreAt r) annos) as [a|]; [| discriminate].
  injection Hhd as ->. exists a, s1, tl. split; [reflexivity|]. split; [reflexivity|].
  unfold lowestTwoDiffer. rewrite <- Hscores. reflexivity.
Qed.

(** What a click on several annotations selects. *)
Lemma onCanvasClick_selected :
  exists a,
    lowestScoring
      (scoreAt (decidingRadius (fun r => map (scoreAt r) annos))) annos = Some a /\
    onCanvasClick svgPaths isPointInPath pointFromPixel props webPosition
    = PreventDefaultAction :: toggle a.
Proof.
  rewrite onCanvasClick_several. unfold decidingRadius.
  destruct (ranked_shape 50) as (a & s1 & tl & Hlow & -> & <-).
  cbv beta iota. change (score {| anno := a; score := scoreAt 50 a |}) with (scoreAt 50 a).
  destruct (negb (scoreAt 50 a =? score s1)%Z); [exists a; split; [exact Hlow | reflexivity]|].
  clear a s1 tl Hlow.
  destruct (ranked_shape 150) as (a & s1 & tl & Hlow & -> & <-).
  cbv beta iota. change (score {| anno := a; score := scoreAt 150 a |}) with (scoreAt 150 a).
  destruct (negb (scoreAt 150 a =? score s1)%Z); [exists a; split; [exact Hlow | reflexivity]|].
  clear a s1 tl Hlow.
  destruct (ranked_shape 500) as (a & s1 & tl & Hlow & -> & _).
  exists a. split; [exact Hlow | reflexivity].
Qed.

(** C1, as the code has it.  When a click hits several annotations, each
    candidate gets its locality score: the number of grid offsets
    [(dx, dy)], [-r <= dx, dy <= r], whose point [click + (dx, dy)] is
    inside its shape.  The radius goes through 50, 150 and 500 until the
    two lowest scores differ, and the candidate toggled is the one with the
    lowest score at that radius (the first in list order among equals). *)
Theorem onCanvasClick_selects_lowest :
  let r := decidingRadius (fun r => map (scoreAt r) annos) in
  exists a,
    lowestScoring (scoreAt r) annos = Some a /\
    onCanvasClick svgPaths isPointInPath pointFromPixel props webPosition
    = PreventDefaultAction :: toggleAnnotation props (res_targetId a) (res_id a) /\
    In a annos /\
    (forall b, In b annos -> (scoreAt r a <= scoreAt r b)%Z).
Proof.
  intros r. destruct onCanvasClick_selected as (a & Hlow & Hclick).
  exists a. split; [exact Hlow|]. split; [exact Hclick|].
  apply lowestScoring_lowest. exact Hlow.
Qed.


End Click.

(** ** Viewport synchronisation *)

Lemma round_half_up_bounds (x : Q) :
  inject_Z (round_half_up x) <= x + (1 # 2) /\ x + (1 # 2) < inject_Z (round_half_up x) + 1.
Proof.
  unfold round_half_up. split; [apply Qfloor_le|].
  pose proof (Qlt_floor (x + (1 # 2))) as H. rewrite inject_Z_plus in H. exact H.
Qed.

Lemma round_half_up_nearest (x : Q) : isNearestInteger x (round_half_up x).
Proof.
  intros m. destruct (round_half_up_bounds x) as [Hlo Hhi].
  set (n := round_half_up x) in *.
  assert (Hn : Qabs (x - inject_Z n) <= 1 # 2).
  { apply Qabs_Qle_condition. split; lra. }
  destruct (Z.lt_trichotomy m n) as [Hlt | [-> | Hgt]].
  - assert (Hm : inject_Z m <= inject_Z n - 1).
    { setoid_replace (inject_Z n - 1) with (inject_Z (n - 1)).
      - rewrite <- Zle_Qle. lia.
      - unfold Z.sub. rewrite inject_Z_plus. reflexivity. }
    pose proof (Qle_Qabs (x - inject_Z m)). lra.
  - apply Qle_refl.
  - assert (Hm : inject_Z n + 1 <= inject_Z m).
    { setoid_replace (inject_Z n + 1) with (inject_Z (n + 1)).
      - rewrite <- Zle_Qle. lia.
      - rewrite inject_Z_plus. reflexivity. }
    pose proof (Qle_Qabs (- (x - inject_Z m))) as Habs. rewrite Qabs_opp in Habs. lra.
Qed.

Section ViewportSync.
Variable svgPaths : string -> list string.
Variable isPointInPath : string -> number -> number -> bool.
Variable pointFromPixel : Point -> Point.
Variable Layers : Type.
Variable isEqual_layers : Layers -> Layers -> bool.

Local Abbreviation dispatch' := (dispatch svgPaths isPointInPath pointFromPixel isEqual_layers).
Local Abbreviation run' := (run svgPaths isPointInPath pointFromPixel isEqual_layers).

(** C8.  On [animation-finish] the application receives one viewport
    update: its [x] and [y] are [Math.round] of the targets of the two
    centre springs, each an integer nearest to the target, and its zoom is
    the zoom target as it is.  Nothing else is called: the handler only
    reads the viewer, whose own values stay at full precision. *)
Theorem onViewportChange_rounds (this : Component) (props : Props Layers)
    (viewport : OsdViewport) :
  let forwarded :=
    {| vp_x := Math_round (centerSpringX viewport);
       vp_y := Math_round (centerSpringY viewport);
       vp_zoom := zoomSpring viewport |} in
  onViewportChange props viewport = [UpdateViewport (windowId props) forwarded] /\
  snd (dispatch' this props (AnimationFinish viewport))
  = [UpdateViewport (windowId props) forwarded] /\
  exists nx ny : Z,
    vp_x forwarded = inject_Z nx /\ isNearestInteger (centerSpringX viewport) nx /\
    vp_y forwarded = inject_Z ny /\ isNearestInteger (centerSpringY viewport) ny.
Proof.
  intros forwarded. split; [reflexivity|]. split; [reflexivity|].
  exists (round_half_up (centerSpringX viewport)), (round_half_up (centerSpringY viewport)).
  repeat split; apply round_half_up_nearest.
Qed.

Lemma componentDidUpdate_while_updating (props prevProps : Props Layers)
    (this : Component) (viewport : OsdViewport) :
  osdUpdating this = true ->
  Forall (fun e => isViewportCommand e = false)
         (componentDidUpdate isEqual_layers props this viewport prevProps).
Proof.
  intros Hflag. unfold componentDidUpdate. cbv zeta. rewrite Hflag.
  apply Forall_app. split.
  - match goal with |- Forall _ (if ?c then _ else _) => destruct c end;
      repeat constructor.
  - destruct (negb (infoResponsesMatch props (infoResponses prevProps))
              || negb (nonTiledImagedMatch props (nonTiledImages prevProps)));
      [repeat constructor|].
    destruct (negb (isEqual_layers (layers (canvasWorld props))
                                   (layers (canvasWorld prevProps))));
      [repeat constructor|].
    destruct (viewer props); constructor.
Qed.

Lemma run_app (this : Component) (l1 l2 : list (Props Layers * Event Layers)) :
  fst (run' this (l1 ++ l2)) = fst (run' (fst (run' this l1)) l2).
Proof.
  revert this. induction l1 as [|[props e] l1 IH]; intros this; simpl; [reflexivity|].
  destruct (dispatch' this props e) as [this' effects].
  specialize (IH this').
  destruct (run' this' (l1 ++ l2)) as [final log].
  destruct (run' this' l1) as [final1 log1]. exact IH.
Qed.

Lemma run_keeps_updating (this : Component) (events : list (Props Layers * Event Layers)) :
  osdUpdating this = true ->
  Forall (fun pe => forall v, snd pe <> AnimationFinish v) events ->
  osdUpdating (fst (run' this events)) = true.
Proof.
  intros Hflag Hno. revert this Hflag.
  induction Hno as [|[props e] events He Hno IH]; intros this Hflag; simpl;
    [exact Hflag|].
  assert (Hstep : osdUpdating (fst (dispatch' this props e)) = true).
  { destruct e; simpl; try exact Hflag; try reflexivity.
    exfalso. exact (He viewport eq_refl). }
  destruct (dispatch' this props e) as [this' effects].
  specialize (IH this' Hstep).
  destruct (run' this' events) as [final log]. exact IH.
Qed.

(** C7.  From an [animation-start] until the next [animation-finish] the
    flag [osdUpdating] is set, and a [componentDidUpdate] that runs then
    calls neither [panTo] nor [zoomTo]. *)
Theorem componentDidUpdate_suppressed_while_animating (this0 : Component)
    (before during : list (Props Layers * Event Layers)) (startProps props : Props Layers)
    (viewport : OsdViewport) (prevProps : Props Layers) :
  Forall (fun pe => forall v, snd pe <> AnimationFinish v) during ->
  let this := fst (run' this0 (before ++ (startProps, AnimationStart) :: during)) in
  osdUpdating this = true /\
  Forall (fun e => isViewportCommand e = false)
         (componentDidUpdate isEqual_layers props this viewport prevProps) /\
  Forall (fun e => isViewportCommand e = false)
         (snd (dispatch' this props (DidUpdate viewport prevProps))).
Proof.
  intros Hduring this.
  assert (Hflag : osdUpdating this = true).
  { subst this. rewrite run_app. simpl.
    destruct (run' {| osdUpdating := true |} during) as [final log] eqn:Hrun.
    simpl. change final with (fst (final, log)). rewrite <- Hrun.
    apply run_keeps_updating; [reflexivity | exact Hduring]. }
  split; [exact Hflag|].
  split; apply componentDidUpdate_while_updating; exact Hflag.
Qed.

End ViewportSync.

(** ** Thumbnails *)

Section Thumbnails.
Import ThumbnailFactory.

(** The expectations of the test suite that the model covers: those on
    static images and on level 1 and level 2 services. *)
Example test_thumbnail_and_metadata :
  createSubject {| image_id := test_url; image_width := Some 50%Z;
                   image_height := Some 70%Z; service := None |} noConstraints
  = Some {| url := test_url; width := Some 50%Z; height := Some 70%Z |}.
Proof. reflexivity. Qed.

Example test_service_of_the_thumbnail :
  option_map url (createSubject iiifLevel1Service noConstraints)
  = Some "http://example.com/full/,120/0/default.jpg"%string.
Proof. reflexivity. Qed.

Example test_static_resource :
  option_map url
    (createSubject {| image_id := test_url; image_width := None;
                      image_height := None; service := None |}
                   {| maxWidth := Some 50%Z; maxHeight := None |})
  = Some test_url.
Proof. reflexivity. Qed.

Example test_level1 :
  createSubject iiifLevel1Service {| maxWidth := Some 150%Z; maxHeight := None |}
  = Some {| url := "http://example.com/full/150,/0/default.jpg";
            width := Some 150%Z; height := Some 300%Z |}.
Proof. reflexivity. Qed.

Example test_level2 :
  createSubject iiifLevel2Service {| maxWidth := Some 150%Z; maxHeight := Some 200%Z |}
  = Some {| url := "http://example.com/full/!150,200/0/default.jpg";
            width := Some 100%Z; height := Some 200%Z |}.
Proof. reflexivity. Qed.

Example test_image_service_before_plain_thumbnail :
  option_map url
    (getThumbnail
       (ImageNode {| image_id := "xyz"; image_width := Some 1000%Z;
                     image_height := Some 2000%Z;
                     service := Some {| service_id := test_url; profile := Level1 |} |}
                  (Some {| image_id := "some-url"; image_width := Some 50%Z;
                           image_height := Some 70%Z; service := None |}))
       noConstraints)
  = Some "http://example.com/full/,120/0/default.jpg"%string.
Proof. reflexivity. Qed.

(** The two level 0 tests are not among them.  On the fixture of the first
    (lines 54-56) the model, which has the words of the spec, gives the id
    of the service, where the test expects the id of the image resource. *)
Example test_level0_expects_another_url :
  option_map url
    (createSubject iiifLevel0Service {| maxWidth := Some 50%Z; maxHeight := None |})
  = Some "http://example.com"%string /\
  image_id iiifLevel0Service = "arbitrary-url"%string.
Proof. split; reflexivity. Qed.

(** C3.  Asked for at most 100 by 100 of an image of 1000 by 2000 behind a
    level 2 service, the resolver applies the floor of 120: the URL is
    [{serviceId}/full/!120,120/0/default.jpg] and the resolved size is 60 by
    120, in the ratio 1:2 of the image.  Without the floor the request would
    be [!100,100], of 50 by 100. *)
Theorem getThumbnail_minimum_size (node : ResourceNode) (leaf : ImageResource)
    (serviceId : string) :
  resolveLeaf node = Some leaf ->
  service leaf = Some {| service_id := serviceId; profile := Level2 |} ->
  image_width leaf = Some 1000%Z ->
  image_height leaf = Some 2000%Z ->
  let iiifOpts := {| maxWidth := Some 100%Z; maxHeight := Some 100%Z |} in
  getThumbnail node iiifOpts
  = Some {| url := (serviceId ++ "/full/!120,120/0/default.jpg")%string;
            width := Some 60%Z; height := Some 120%Z |} /\
  targetSize iiifOpts 1000 2000 = ("!100,100"%string, (50, 100)%Z) /\
  (60 * 2000 = 120 * 1000)%Z.
Proof.
  intros Hleaf Hservice Hwidth Hheight iiifOpts.
  split; [| split; reflexivity].
  unfold getThumbnail. rewrite Hleaf. simpl. unfold leafThumbnail.
  rewrite Hservice, Hwidth, Hheight. reflexivity.
Qed.

End Thumbnails.

(** ** The properties at the sample data *)



(** A click in the middle of two nested rectangles selects the inner one,
    441 sample points of which are inside at radius 50, and not the outer
    one, which has all 10201 of them. *)
Lemma onCanvasClick_selects_not_the_highest :
  annotationsAtPoint Sample.svgPaths Sample.isPointInPath Sample.nested
    Sample.page Sample.centre = [Sample.big; Sample.small] /\
  onCanvasClick Sample.svgPaths Sample.isPointInPath Sample.pointFromPixel
    Sample.nested Sample.centre
  = [PreventDefaultAction; SelectAnnotation "window-1" "canvas-1" "small"] /\
  localityScore Sample.svgPaths Sample.isPointInPath Sample.nested
    Sample.page Sample.centre 50 Sample.small = 441%Z /\
  localityScore Sample.svgPaths Sample.isPointInPath Sample.nested
    Sample.page Sample.centre 50 Sample.big = 10201%Z /\
  ~ (forall b, In b [Sample.big; Sample.small] ->
       (localityScore Sample.svgPaths Sample.isPointInPath Sample.nested
          Sample.page Sample.centre 50 b
        <= localityScore Sample.svgPaths Sample.isPointInPath Sample.nested
             Sample.page Sample.centre 50 Sample.small)%Z).
Proof.
  assert (Hsmall : localityScore Sample.svgPaths Sample.isPointInPath Sample.nested
                     Sample.page Sample.centre 50 Sample.small = 441%Z)
    by (vm_compute; reflexivity).
  assert (Hbig : localityScore Sample.svgPaths Sample.isPointInPath Sample.nested
                   Sample.page Sample.centre 50 Sample.big = 10201%Z)
    by (vm_compute; reflexivity).
  split; [vm_compute; reflexivity|]. split; [vm_compute; reflexivity|].
  split; [exact Hsmall|]. split; [exact Hbig|].
  intros Hhighest. specialize (Hhighest Sample.big (or_introl eq_refl)).
  rewrite Hsmall, Hbig in Hhighest. lia.
Qed.

(** Of two candidates, the second is the one selected when it scores less
    at radius 50. *)
Lemma onCanvasClick_second_of_two svgPaths isPointInPath pointFromPixel Layers
    (props : Props Layers) webPosition canvas (a b : Resource) :
  canvasAtPoint (canvasWorld props) (pointFromPixel webPosition) = Some canvas ->
  annotationsAtPoint svgPaths isPointInPath props canvas (pointFromPixel webPosition)
  = [a; b] ->
  (localityScore svgPaths isPointInPath props canvas (pointFromPixel webPosition) 50 b
   < localityScore svgPaths isPointInPath props canvas (pointFromPixel webPosition) 50 a)%Z ->
  onCanvasClick svgPaths isPointInPath pointFromPixel props webPosition
  = PreventDefaultAction :: toggleAnnotation props (res_targetId b) (res_id b).
Proof.
  intros Hcanvas Hhits Hlt.
  destruct (onCanvasClick_selected svgPaths isPointInPath pointFromPixel props
              webPosition Hcanvas Hhits) as (c & Hlow & ->); [simpl; lia|].
  unfold decidingRadius in Hlow. cbn [map] in Hlow.
  set (scoreAt := localityScore svgPaths isPointInPath props canvas
                    (pointFromPixel webPosition)) in *.
  assert (Hdiffer : lowestTwoDiffer [scoreAt 50%Z a; scoreAt 50%Z b] = true).
  { unfold lowestTwoDiffer, ascending. cbn [sortBy insert_by].
    destruct (Z.leb_spec (scoreAt 50%Z a) (scoreAt 50%Z b)) as [Hle | _]; [lia|].
    apply negb_true_iff, Z.eqb_neq. lia. }
  rewrite Hdiffer in Hlow. cbn [lowestScoring] in Hlow.
  destruct (Z.leb_spec (scoreAt 50%Z a) (scoreAt 50%Z b)) as [Hle | _]; [lia|].
  injection Hlow as <-. reflexivity.
Qed.

(** The sample points are sums of numbers.  For a click [2 ^ -60] right of
    the corner of a rectangle 50 wide, the sample at offset 50 is the double
    50, on the right border: 51 columns of 50 points count, where the
    rationals would give 50 columns.  The other rectangle has 101 columns of
    25 points, and is the one selected. *)
Example onCanvasClick_samples_round :
  add (1 # 1152921504606846976) 50 == 50 /\
  localityScore Sample.svgPaths Sample.isPointInPath Sample.corners
    Sample.page Sample.hair 50 Sample.corner1 = 2550%Z /\
  localityScore Sample.svgPaths Sample.isPointInPath Sample.corners
    Sample.page Sample.hair 50 Sample.corner2 = 2525%Z /\
  onCanvasClick Sample.svgPaths Sample.isPointInPath Sample.pointFromPixel
    Sample.corners Sample.hair
  = [PreventDefaultAction; SelectAnnotation "window-1" "canvas-1" "corner-2"].
Proof.
  assert (H1 : localityScore Sample.svgPaths Sample.isPointInPath Sample.corners
                 Sample.page Sample.hair 50 Sample.corner1 = 2550%Z).
  { rewrite (localityScore_rectangle Sample.svgPaths Sample.isPointInPath Sample.corners
               Sample.page Sample.hair 50 Sample.corner1
               (cw := 1000) (ch := 1000) eq_refl eq_refl eq_refl).
    vm_compute. reflexivity. }
  assert (H2 : localityScore Sample.svgPaths Sample.isPointInPath Sample.corners
                 Sample.page Sample.hair 50 Sample.corner2 = 2525%Z).
  { rewrite (localityScore_rectangle Sample.svgPaths Sample.isPointInPath Sample.corners
               Sample.page Sample.hair 50 Sample.corner2
               (cw := 1000) (ch := 1000) eq_refl eq_refl eq_refl).
    vm_compute. reflexivity. }
  split; [vm_compute; reflexivity|]. split; [exact H1|]. split; [exact H2|].
  rewrite (onCanvasClick_second_of_two Sample.svgPaths Sample.isPointInPath
             Sample.pointFromPixel Sample.corners Sample.hair (canvas := Sample.page)
             (a := Sample.corner1) (b := Sample.corner2)).
  - reflexivity.
  - reflexivity.
  - vm_compute. reflexivity.
  - unfold Sample.pointFromPixel. rewrite H1, H2. reflexivity.
Qed.

(** Two rectangles of 200 points each over the rationals: with the sums
    rounded, the one 10 wide has 11 columns of 20 points and the one 20 wide
    21 columns of 10; they do not tie, and the second is selected at
    radius 50. *)
Example onCanvasClick_no_tie_when_rounded :
  localityScore Sample.svgPaths Sample.isPointInPath Sample.evenCorners
    Sample.page Sample.hair 50 Sample.corner3 = 220%Z /\
  localityScore Sample.svgPaths Sample.isPointInPath Sample.evenCorners
    Sample.page Sample.hair 50 Sample.corner4 = 210%Z /\
  onCanvasClick Sample.svgPaths Sample.isPointInPath Sample.pointFromPixel
    Sample.evenCorners Sample.hair
  = [PreventDefaultAction; SelectAnnotation "window-1" "canvas-1" "corner-4"].
Proof.
  assert (H1 : localityScore Sample.svgPaths Sample.isPointInPath Sample.evenCorners
                 Sample.page Sample.hair 50 Sample.corner3 = 220%Z).
  { rewrite (localityScore_rectangle Sample.svgPaths Sample.isPointInPath
               Sample.evenCorners Sample.page Sample.hair 50 Sample.corner3
               (cw := 1000) (ch := 1000) eq_refl eq_refl eq_refl).
    vm_compute. reflexivity. }
  assert (H2 : localityScore Sample.svgPaths Sample.isPointInPath Sample.evenCorners
                 Sample.page Sample.hair 50 Sample.corner4 = 210%Z).
  { rewrite (localityScore_rectangle Sample.svgPaths Sample.isPointInPath
               Sample.evenCorners Sample.page Sample.hair 50 Sample.corner4
               (cw := 1000) (ch := 1000) eq_refl eq_refl eq_refl).
    vm_compute. reflexivity. }
  split; [exact H1|]. split; [exact H2|].
  rewrite (onCanvasClick_second_of_two Sample.svgPaths Sample.isPointInPath
             Sample.pointFromPixel Sample.evenCorners Sample.hair (canvas := Sample.page)
             (a := Sample.corner3) (b := Sample.corner4)).
  - reflexivity.
  - reflexivity.
  - vm_compute. reflexivity.
  - unfold Sample.pointFromPixel. rewrite H1, H2. reflexivity.
Qed.

Lemma onCanvasClick_selects_lowest_witness :
  let scoreAt :=
    localityScore Sample.svgPaths Sample.isPointInPath Sample.nested
      Sample.page Sample.centre in
  let r := decidingRadius (fun r => map (scoreAt r) [Sample.big; Sample.small]) in
  exists a,
    lowestScoring (scoreAt r) [Sample.big; Sample.small] = Some a /\
    onCanvasClick Sample.svgPaths Sample.isPointInPath Sample.pointFromPixel
      Sample.nested Sample.centre
    = PreventDefaultAction
      :: toggleAnnotation Sample.nested (res_targetId a) (res_id a) /\
    In a [Sample.big; Sample.small] /\
    (forall b, In b [Sample.big; Sample.small] -> (scoreAt r a <= scoreAt r b)%Z).
Proof.
  apply (onCanvasClick_selects_lowest Sample.svgPaths Sample.isPointInPath
           Sample.pointFromPixel Sample.nested Sample.centre (canvas := Sample.page)).
  - reflexivity.
  - vm_compute. reflexivity.
  - simpl. lia.
Defined.

Lemma annotationsAtPoint_rectangle_witness :
  In Sample.small
     (annotationsAtPoint Sample.svgPaths Sample.isPointInPath Sample.nested
        Sample.page Sample.centre) <->
  (40 <= 50 - 0 /\ 50 - 0 <= 40 + 20) /\ (40 <= 50 - 0 /\ 50 - 0 <= 40 + 20).
Proof.
  refine (proj2 (annotationsAtPoint_rectangle Sample.svgPaths Sample.isPointInPath
                   Sample.nested Sample.small Sample.page Sample.centre
                   (cw := 1000) (ch := 1000) _ _ _ _ _) _ _ _ _).
  - simpl. tauto.
  - reflexivity.
  - reflexivity.
  - reflexivity.
  - reflexivity.
  - vm_compute. reflexivity.
  - vm_compute. reflexivity.
  - vm_compute. reflexivity.
  - vm_compute. reflexivity.
Defined.

(** Read over the rationals, the inequalities fail where a sum rounds: the
    rectangle [[2 ^ 53 + 2, 0, 1, 10]] has its right border at
    [2 ^ 53 + 3], which is no double; the sum is [2 ^ 53 + 4], and the
    point with [x = 2 ^ 53 + 4] is inside. *)
Lemma annotationsAtPoint_rectangle_rounded :
  In Sample.far
     (annotationsAtPoint Sample.svgPaths Sample.isPointInPath Sample.farAway
        Sample.page Sample.farPoint) /\
  add 9007199254740994 1 == 9007199254740996 /\
  ~ ((9007199254740994 <= 9007199254740996 - 0
      /\ 9007199254740996 - 0 <= 9007199254740994 + 1)
     /\ (0 <= 5 - 0 /\ 5 - 0 <= 0 + 10)).
Proof.
  split; [vm_compute; left; reflexivity|].
  split; [vm_compute; reflexivity|].
  intros [[_ Hright] _]. vm_compute in Hright. apply Hright. reflexivity.
Qed.

Lemma isAnnotationAtPoint_without_selector_witness :
  isAnnotationAtPoint Sample.svgPaths Sample.isPointInPath Sample.withBare
    Sample.bare Sample.page Sample.centre = false /\
  ~ In Sample.bare
      (annotationsAtPoint Sample.svgPaths Sample.isPointInPath Sample.withBare
         Sample.page Sample.centre).
Proof.
  apply (isAnnotationAtPoint_without_selector Sample.svgPaths Sample.isPointInPath
           Sample.withBare Sample.bare); reflexivity.
Defined.

Lemma onCanvasMouseMove_notifies_iff_changed_witness :
  onCanvasMouseMove Sample.svgPaths Sample.isPointInPath Sample.pointFromPixel
    Sample.nested Sample.centre
  = [HoverAnnotation "window-1" ["big"; "small"]%string] /\
  onCanvasMouseMove Sample.svgPaths Sample.isPointInPath Sample.pointFromPixel
    (withHovered Sample.nested ["big"; "small"]%string) Sample.centre = [].
Proof.
  destruct (onCanvasMouseMove_notifies_iff_changed Sample.svgPaths Sample.isPointInPath
              Sample.pointFromPixel Sample.nested Sample.centre
              (canvas := Sample.page) eq_refl) as (Hemit & _ & Hrepeat).
  split.
  - apply Hemit. intros Hsame. apply (Hsame "big"%string). vm_compute. tauto.
  - apply (Hrepeat Sample.centre Sample.page eq_refl). intros i. reflexivity.
Defined.

Lemma onCanvasMouseMove_off_canvas_witness :
  canvasAtPoint Sample.world (Sample.pointFromPixel Sample.outside) = None /\
  onCanvasMouseMove Sample.svgPaths Sample.isPointInPath Sample.pointFromPixel
    (Sample.propsWith [Sample.big; Sample.small] ["big"%string]) Sample.outside = [].
Proof.
  split; [reflexivity|].
  apply (onCanvasMouseMove_off_canvas Sample.svgPaths Sample.isPointInPath
           Sample.pointFromPixel
           (Sample.propsWith [Sample.big; Sample.small] ["big"%string]) Sample.outside).
  reflexivity.
Defined.


Lemma componentDidUpdate_suppressed_while_animating_witness :
  let this :=
    fst (run Sample.svgPaths Sample.isPointInPath Sample.pointFromPixel
           (fun _ _ : unit => true) {| osdUpdating := false |}
           ([] ++ (Sample.nested, AnimationStart)
               :: [(Sample.nested, MouseMove Sample.centre)])) in
  osdUpdating this = true /\
  Forall (fun e => isViewportCommand e = false)
         (componentDidUpdate (fun _ _ : unit => true) Sample.nested this
            Sample.pose Sample.nested) /\
  Forall (fun e => isViewportCommand e = false)
         (snd (dispatch Sample.svgPaths Sample.isPointInPath Sample.pointFromPixel
                 (fun _ _ : unit => true) this Sample.nested
                 (DidUpdate Sample.pose Sample.nested))).
Proof.
  apply (componentDidUpdate_suppressed_while_animating Sample.svgPaths
           Sample.isPointInPath Sample.pointFromPixel (fun _ _ : unit => true)
           {| osdUpdating := false |} []
           (during := [(Sample.nested, MouseMove Sample.centre)])
           Sample.nested Sample.nested Sample.pose Sample.nested).
  constructor; [| constructor]. intros v. simpl. discriminate.
Defined.

(** Outside an animation the same update does reconcile: the branch is live. *)
Example componentDidUpdate_reconciles_when_idle :
  componentDidUpdate (fun _ _ : unit => true) Sample.nested {| osdUpdating := false |}
    Sample.pose Sample.nested
  = [PanTo {| vp_x := 10; vp_y := 20; vp_zoom := 1 # 2 |} false;
     ZoomTo (1 # 2) {| vp_x := 10; vp_y := 20; vp_zoom := 1 # 2 |} false].
Proof. reflexivity. Qed.

Lemma getThumbnail_minimum_size_witness :
  ThumbnailFactory.createSubject ThumbnailFactory.iiifLevel2Service
    {| ThumbnailFactory.maxWidth := Some 100%Z; ThumbnailFactory.maxHeight := Some 100%Z |}
  = Some {| ThumbnailFactory.url := "http://example.com/full/!120,120/0/default.jpg";
            ThumbnailFactory.width := Some 60%Z;
            ThumbnailFactory.height := Some 120%Z |}.
Proof.
  apply (getThumbnail_minimum_size
           (ThumbnailFactory.CanvasNode
              {| ThumbnailFactory.canvas_thumbnail :=
                   Some ThumbnailFactory.iiifLevel2Service;
                 ThumbnailFactory.canvas_images := [] |})
           (leaf := ThumbnailFactory.iiifLevel2Service)
           (serviceId := ThumbnailFactory.test_url)); reflexivity.
Defined.

(** * Further properties *)

(** ** Comparing props *)

Lemma every_indexed_iff {A B : Type} (f : A -> option B -> bool) (l : list A)
    (prev : list B) :
  every_indexed f l prev = true <->
  forall i a, nth_error l i = Some a -> f a (nth_error prev i) = true.
Proof.
  revert prev. induction l as [|x l IH]; intros prev; simpl.
  - split; [intros _ [|i] a; discriminate | reflexivity].
  - rewrite andb_true_iff, IH. split.
    + intros [Hx Hl] [|i] a Hnth; simpl in Hnth.
      * injection Hnth as <-. destruct prev; exact Hx.
      * specialize (Hl i a Hnth). destruct prev; simpl in *;
          [destruct i; exact Hl | exact Hl].
    + intros H. split.
      * specialize (H 0%nat x eq_refl). destruct prev; exact H.
      * intros i a Hnth. specialize (H (S i) a Hnth).
        destruct prev; simpl in *; [destruct i; exact H | exact H].
Qed.

Lemma some_indexed_iff {A B : Type} (f : A -> option B -> bool) (l : list A)
    (prev : list B) :
  some_indexed f l prev = true <->
  exists i a, nth_error l i = Some a /\ f a (nth_error prev i) = true.
Proof.
  revert prev. induction l as [|x l IH]; intros prev; simpl.
  - split; [discriminate | intros ([|i] & a & Hnth & _); discriminate].
  - rewrite orb_true_iff, IH. split.
    + intros [Hx | (i & a & Hnth & Hf)].
      * exists 0%nat, x. split; [reflexivity|]. destruct prev; exact Hx.
      * exists (S i), a. split; [exact Hnth|].
        destruct prev; simpl in *; [destruct i; exact Hf | exact Hf].
    + intros ([|i] & a & Hnth & Hf); simpl in Hnth.
      * injection Hnth as <-. left. destruct prev; exact Hf.
      * right. exists i, a. split; [exact Hnth|].
        destruct prev; simpl in *; [destruct i; exact Hf | exact Hf].
Qed.

Lemma isEqual_ids_true (a b : list string) : isEqual_ids a b = true <-> a = b.
Proof.
  unfold isEqual_ids. destruct (list_eq_dec string_dec a b); split; congruence.
Qed.

Lemma eqb_undefinable_true (a b : option string) :
  eqb_undefinable a b = true <-> a = b.
Proof.
  destruct a as [x|], b as [y|]; simpl; try (split; congruence).
  rewrite String.eqb_eq. split; congruence.
Qed.

Lemma length_zero_eqb {A : Type} (l : list A) :
  (List.length l =? 0)%nat = true <-> l = [].
Proof. destruct l; simpl; split; congruence. Qed.

(** X1.  [annotationsMatch] holds exactly when the two arrays have the same
    length and, position by position, the lists have resources of the same
    ids in the same order and, unless they have no resources, the same id.
    Nothing else of a list or of a resource is compared. *)
Theorem annotationsMatch_iff (currentAnnotations prevAnnotations : list AnnotationList) :
  annotationsMatch currentAnnotations prevAnnotations = true <->
  List.length currentAnnotations = List.length prevAnnotations /\
  forall i a p,
    nth_error currentAnnotations i = Some a ->
    nth_error prevAnnotations i = Some p ->
    map res_id (resources a) = map res_id (resources p) /\
    (resources a <> [] -> list_id a = list_id p).
Proof.
  unfold annotationsMatch.
  destruct ((List.length currentAnnotations =? 0)%nat
            && (List.length prevAnnotations =? 0)%nat) eqn:Hempty.
  - apply andb_true_iff in Hempty as [Hc Hp].
    apply length_zero_eqb in Hc, Hp. subst. split; [| reflexivity].
    intros _. split; [reflexivity|]. intros [|i] a p; discriminate.
  - destruct (List.length currentAnnotations =? List.length prevAnnotations)%nat eqn:Hlen;
      simpl.
    + apply Nat.eqb_eq in Hlen. rewrite every_indexed_iff. split.
      * intros H. split; [exact Hlen|]. intros i a p Ha Hp.
        specialize (H i a Ha). rewrite Hp in H.
        destruct ((List.length (map res_id (resources a)) =? 0)%nat
                  && (List.length (map res_id (resources p)) =? 0)%nat) eqn:Hnone.
        -- apply andb_true_iff in Hnone as [Hna Hnp].
           apply length_zero_eqb in Hna, Hnp. rewrite Hna, Hnp.
           split; [reflexivity|]. intros Hne. destruct (resources a); [congruence | discriminate].
        -- destruct (List.length (map res_id (resources a))
                     =? List.length (map res_id (resources p)))%nat; simpl in H;
             [| discriminate].
           apply andb_true_iff in H as [Hid Hids].
           apply String.eqb_eq in Hid. apply isEqual_ids_true in Hids.
           split; [exact Hids | intros _; exact Hid].
      * intros [_ H] i a Ha.
        destruct (nth_error prevAnnotations i) as [p|] eqn:Hp.
        -- destruct (H i a p Ha Hp) as [Hids Hid].
           destruct ((List.length (map res_id (resources a)) =? 0)%nat
                     && (List.length (map res_id (resources p)) =? 0)%nat) eqn:Hnone;
             [reflexivity|].
           rewrite Hids, Nat.eqb_refl. simpl.
           apply andb_true_iff. split; [| apply isEqual_ids_true; reflexivity].
           apply String.eqb_eq. apply Hid. intros Hnil.
           rewrite <- Hids, Hnil in Hnone. discriminate.
        -- apply nth_error_None in Hp.
           assert (i < List.length currentAnnotations)%nat
             by (apply nth_error_Some; congruence).
           lia.
    + apply Nat.eqb_neq in Hlen. split; [discriminate | intros [Heq _]; contradiction].
Qed.

Section ComparingProps.
Variable Layers : Type.
Variable props : Props Layers.

(** X2.  [infoResponsesMatch] holds exactly when both arrays are empty or
    they have the same length and, at some position, the current response
    has its [json] and the [@id] of it is the [@id] of the previous one:
    one position is enough. *)
Theorem infoResponsesMatch_iff (prevInfoResponses : list InfoResponse) :
  infoResponsesMatch props prevInfoResponses = true <->
  (infoResponses props = [] /\ prevInfoResponses = []) \/
  (List.length (infoResponses props) = List.length prevInfoResponses /\
   exists i cur prev atId,
     nth_error (infoResponses props) i = Some cur /\
     nth_error prevInfoResponses i = Some prev /\
     ir_json cur = Some atId /\
     atId = match ir_json prev with Some prevAtId => prevAtId | None => None end).
Proof.
  unfold infoResponsesMatch. cbv zeta.
  destruct ((List.length (infoResponses props) =? 0)%nat
            && (List.length prevInfoResponses =? 0)%nat) eqn:Hempty.
  - apply andb_true_iff in Hempty as [Hc Hp]. apply length_zero_eqb in Hc, Hp.
    split; [intros _; left; split; assumption | reflexivity].
  - assert (Hnot : ~ (infoResponses props = [] /\ prevInfoResponses = [])).
    { intros [Hc Hp]. rewrite Hc, Hp in Hempty. discriminate. }
    destruct (List.length (infoResponses props) =? List.length prevInfoResponses)%nat
      eqn:Hlen; simpl.
    + apply Nat.eqb_eq in Hlen. rewrite some_indexed_iff. split.
      * intros (i & cur & Hcur & Hf). right. split; [exact Hlen|].
        destruct (nth_error prevInfoResponses i) as [prev|] eqn:Hprev; [| discriminate].
        destruct (ir_json cur) as [atId|] eqn:Hjson; [| discriminate].
        apply eqb_undefinable_true in Hf.
        exists i, cur, prev, atId. repeat split; assumption.
      * intros [Hboth | (_ & i & cur & prev & atId & Hcur & Hprev & Hjson & Heq)];
          [contradiction|].
        exists i, cur. split; [exact Hcur|]. rewrite Hprev, Hjson.
        apply eqb_undefinable_true. exact Heq.
    + apply Nat.eqb_neq in Hlen. split; [discriminate|].
      intros [Hboth | (Heq & _)]; contradiction.
Qed.

(** X3.  [nonTiledImagedMatch] holds exactly when both arrays are empty or,
    at some position, the two images have the same id; the lengths are not
    compared. *)
Theorem nonTiledImagedMatch_iff (prevNonTiledImages : list NonTiledImage) :
  nonTiledImagedMatch props prevNonTiledImages = true <->
  (nonTiledImages props = [] /\ prevNonTiledImages = []) \/
  exists i image prev,
    nth_error (nonTiledImages props) i = Some image /\
    nth_error prevNonTiledImages i = Some prev /\
    img_id image = img_id prev.
Proof.
  unfold nonTiledImagedMatch. cbv zeta.
  destruct ((List.length (nonTiledImages props) =? 0)%nat
            && (List.length prevNonTiledImages =? 0)%nat) eqn:Hempty.
  - apply andb_true_iff in Hempty as [Hc Hp]. apply length_zero_eqb in Hc, Hp.
    split; [intros _; left; split; assumption | reflexivity].
  - rewrite some_indexed_iff. split.
    + intros (i & image & Himage & Hf). right.
      destruct (nth_error prevNonTiledImages i) as [prev|] eqn:Hprev; [| discriminate].
      apply String.eqb_eq in Hf. exists i, image, prev. repeat split; assumption.
    + intros [[Hc Hp] | (i & image & prev & Himage & Hprev & Hid)].
      * rewrite Hc, Hp in Hempty. discriminate.
      * exists i, image. split; [exact Himage|]. rewrite Hprev.
        apply String.eqb_eq. exact Hid.
Qed.

End ComparingProps.

(** ** Updates of the component *)

Lemma annotationsMatch_refl (l : list AnnotationList) : annotationsMatch l l = true.
Proof.
  unfold annotationsMatch.
  destruct ((List.length l =? 0)%nat && (List.length l =? 0)%nat); [reflexivity|].
  rewrite Nat.eqb_refl. simpl. apply every_indexed_iff. intros i a Ha. rewrite Ha.
  destruct ((List.length (map res_id (resources a)) =? 0)%nat
            && (List.length (map res_id (resources a)) =? 0)%nat); [reflexivity|].
  rewrite Nat.eqb_refl, String.eqb_refl. simpl. apply isEqual_ids_true. reflexivity.
Qed.

Lemma xor_same_set (a b : list string) :
  (forall i, In i a <-> In i b) -> (0 <? List.length (xor a b))%nat = false.
Proof.
  intros Hsame. apply xor_nil in Hsame. rewrite Hsame. reflexivity.
Qed.

Section Updates.
Variable Layers : Type.
Variable isEqual_layers : Layers -> Layers -> bool.
Variable props : Props Layers.

Lemma infoResponsesMatch_self :
  infoResponses props = [] \/
  (exists r atId, In r (infoResponses props) /\ ir_json r = Some atId) ->
  infoResponsesMatch props (infoResponses props) = true.
Proof.
  intros Hinfo. unfold infoResponsesMatch. cbv zeta.
  destruct ((List.length (infoResponses props) =? 0)%nat
            && (List.length (infoResponses props) =? 0)%nat) eqn:Hempty; [reflexivity|].
  rewrite Nat.eqb_refl. simpl. apply some_indexed_iff.
  destruct Hinfo as [Hnil | (r & atId & Hin & Hjson)].
  - rewrite Hnil in Hempty. discriminate.
  - apply In_nth_error in Hin as [i Hi]. exists i, r. split; [exact Hi|].
    rewrite Hi, Hjson. apply eqb_undefinable_true. reflexivity.
Qed.

Lemma infoResponsesMatch_without_json (prevInfoResponses : list InfoResponse) :
  infoResponses props <> [] ->
  (forall r, In r (infoResponses props) -> ir_json r = None) ->
  infoResponsesMatch props prevInfoResponses = false.
Proof.
  intros Hsome Hnone. unfold infoResponsesMatch. cbv zeta.
  destruct ((List.length (infoResponses props) =? 0)%nat
            && (List.length prevInfoResponses =? 0)%nat) eqn:Hempty.
  - apply andb_true_iff in Hempty as [Hc _]. apply length_zero_eqb in Hc. contradiction.
  - destruct (negb (List.length (infoResponses props)
                    =? List.length prevInfoResponses)%nat); [reflexivity|].
    destruct (some_indexed _ (infoResponses props) prevInfoResponses) eqn:Hany;
      [| reflexivity].
    apply some_indexed_iff in Hany as (i & cur & Hcur & Hf).
    apply nth_error_In in Hcur. rewrite (Hnone cur Hcur) in Hf.
    destruct (nth_error prevInfoResponses i); discriminate.
Qed.

Lemma nonTiledImagedMatch_self : nonTiledImagedMatch props (nonTiledImages props) = true.
Proof.
  unfold nonTiledImagedMatch. cbv zeta.
  destruct (nonTiledImages props) as [|image rest]; [reflexivity|].
  simpl. rewrite String.eqb_refl. reflexivity.
Qed.

(** X4.  An update that changes nothing does nothing.  When the previous
    props differ from the current ones at most in the order or the repeats
    of the hovered ids, the layers compare equal, the info responses are
    none or one of them has its [json], and the application's viewport is
    absent, or the viewer is animating, or the viewport is where the viewer
    is, [componentDidUpdate] calls nothing at all. *)
Theorem componentDidUpdate_without_change (this : Component) (viewport : OsdViewport)
    (prevHovered : list string) :
  (forall i, In i (hoveredAnnotationIds props) <-> In i prevHovered) ->
  isEqual_layers (layers (canvasWorld props)) (layers (canvasWorld props)) = true ->
  (infoResponses props = [] \/
   exists r atId, In r (infoResponses props) /\ ir_json r = Some atId) ->
  match viewer props with
  | None => True
  | Some v =>
      osdUpdating this = true \/
      (vp_x v == centerSpringX viewport /\ vp_y v == centerSpringY viewport /\
       vp_zoom v == zoomSpring viewport)
  end ->
  componentDidUpdate isEqual_layers props this viewport (withHovered props prevHovered)
  = [].
Proof.
  intros Hhover Hlayers Hinfo Hviewer. unfold componentDidUpdate. cbv zeta.
  change (annotations (withHovered props prevHovered)) with (annotations props).
  change (searchAnnotations (withHovered props prevHovered)) with (searchAnnotations props).
  change (hoveredAnnotationIds (withHovered props prevHovered)) with prevHovered.
  change (selectedAnnotationId (withHovered props prevHovered))
    with (selectedAnnotationId props).
  change (drawAnnotations (withHovered props prevHovered)) with (drawAnnotations props).
  change (drawSearchAnnotations (withHovered props prevHovered))
    with (drawSearchAnnotations props).
  change (infoResponses (withHovered props prevHovered)) with (infoResponses props).
  change (nonTiledImages (withHovered props prevHovered)) with (nonTiledImages props).
  change (canvasWorld (withHovered props prevHovered)) with (canvasWorld props).
  rewrite !annotationsMatch_refl, (xor_same_set _ _ Hhover),
    (proj2 (eqb_undefinable_true _ _) eq_refl), !Bool.eqb_reflx.
  rewrite (infoResponsesMatch_self Hinfo), nonTiledImagedMatch_self, Hlayers.
  simpl. destruct (viewer props) as [v|]; [| reflexivity].
  destruct Hviewer as [Hflag | (Hx & Hy & Hz)].
  - rewrite Hflag. reflexivity.
  - apply Qeq_bool_iff in Hx, Hy, Hz. rewrite Hx, Hy, Hz.
    destruct (osdUpdating this); reflexivity.
Qed.

(** X5.  As long as there are info responses and none of them has its
    [json], every update closes the viewer and adds all image sources again,
    whatever the previous props were, and the viewport is not reconciled. *)
Theorem componentDidUpdate_closes_without_json (this : Component)
    (viewport : OsdViewport) (prevProps : Props Layers) :
  infoResponses props <> [] ->
  (forall r, In r (infoResponses props) -> ir_json r = None) ->
  exists redraw zoomAfterAdd,
    componentDidUpdate isEqual_layers props this viewport prevProps
    = redraw ++ [ViewerClose; AddAllImageSources zoomAfterAdd] /\
    (redraw = [] \/ redraw = [ResetUpdateCanvas; ForceRedraw]).
Proof.
  intros Hsome Hnone.
  assert (Hmatch : infoResponsesMatch props (infoResponses prevProps) = false)
    by (apply infoResponsesMatch_without_json; assumption).
  unfold componentDidUpdate. cbv zeta. rewrite Hmatch. simpl.
  match goal with
  | |- exists _ _, (if ?c then _ else _) ++ _ = _ /\ _ => destruct c
  end; eexists; eexists; (split; [reflexivity|]); [right | left]; reflexivity.
Qed.

End Updates.

(** ** More on hit-testing and on clicks *)

Lemma length_Zrange (lo hi : Z) : List.length (Zrange lo hi) = Z.to_nat (hi - lo + 1).
Proof. unfold Zrange. rewrite length_map, length_seq. reflexivity. Qed.

Lemma filter_length_bound {A : Type} (f : A -> bool) (l : list A) :
  (List.length (filter f l) <= List.length l)%nat.
Proof.
  induction l as [|a l IH]; simpl; [lia|]. destruct (f a); simpl; lia.
Qed.

Lemma toggleAnnotation_cases {Layers : Type} (props : Props Layers) (targetId id : string) :
  toggleAnnotation props targetId id
  = [if eqb_undefinable (selectedAnnotationId props) (Some id)
     then DeselectAnnotation (windowId props) targetId id
     else SelectAnnotation (windowId props) targetId id].
Proof.
  unfold toggleAnnotation. destruct (selectedAnnotationId props) as [sel|]; simpl;
    [destruct (String.eqb sel id)|]; reflexivity.
Qed.

Section MoreHitTesting.
Variable svgPaths : string -> list string.
Variable isPointInPath : string -> number -> number -> bool.
Variable Layers : Type.

(** X6.  The annotations at a point are those of the annotation lists
    followed by those of the search-result lists: the two kinds of lists are
    tested the same way and on their own. *)
Theorem annotationsAtPoint_lists_then_search (props : Props Layers)
    (lists searchLists : list AnnotationList) (canvas : Canvas) (point : Point) :
  annotationsAtPoint svgPaths isPointInPath (withLists props lists searchLists)
    canvas point
  = annotationsAtPoint svgPaths isPointInPath (withLists props lists []) canvas point
    ++ annotationsAtPoint svgPaths isPointInPath (withLists props [] searchLists)
         canvas point.
Proof.
  unfold annotationsAtPoint. cbv zeta.
  change (annotations (withLists props lists searchLists)) with lists.
  change (searchAnnotations (withLists props lists searchLists)) with searchLists.
  change (annotations (withLists props lists [])) with lists.
  change (searchAnnotations (withLists props lists [])) with (@nil AnnotationList).
  change (annotations (withLists props [] searchLists)) with (@nil AnnotationList).
  change (searchAnnotations (withLists props [] searchLists)) with searchLists.
  rewrite app_nil_r, map_app, concat_app, filter_app. reflexivity.
Qed.

(** X7.  Whether a rectangle contains a point depends on the coordinates of
    the point within the canvas only: with the canvas elsewhere in the
    world and the point moved along with it, the answer is the same. *)
Theorem isAnnotationAtPoint_translation (props props' : Props Layers) (r : Resource)
    (canvas : Canvas) (point point' : Point) cx cy cw ch cx' cy' cw' ch' :
  svgSelector r = None ->
  canvasToWorldCoordinates (canvasWorld props) (canvas_id canvas) = (cx, cy, cw, ch) ->
  canvasToWorldCoordinates (canvasWorld props') (canvas_id canvas) = (cx', cy', cw', ch') ->
  point_x point' - cx' == point_x point - cx ->
  point_y point' - cy' == point_y point - cy ->
  isAnnotationAtPoint svgPaths isPointInPath props' r canvas point'
  = isAnnotationAtPoint svgPaths isPointInPath props r canvas point.
Proof.
  intros Hsvg Hworld Hworld' Hx Hy. unfold isAnnotationAtPoint.
  rewrite Hworld, Hworld', Hsvg.
  destruct (fragmentSelector r) as [[[[x y] w] h]|]; [| reflexivity].
  apply toDouble_comp in Hx, Hy. fold (sub (point_x point') cx') in Hx.
  fold (sub (point_x point) cx) in Hx. fold (sub (point_y point') cy') in Hy.
  fold (sub (point_y point) cy) in Hy.
  rewrite (Qle_bool_ext (Qeq_refl x) Hx), (Qle_bool_ext Hx (Qeq_refl (add x w))),
    (Qle_bool_ext (Qeq_refl y) Hy), (Qle_bool_ext Hy (Qeq_refl (add y h))).
  reflexivity.
Qed.

(** X8.  A rectangle of negative width whose right border [x + w] is
    computed exactly, or of negative height whose lower border [y + h] is,
    contains no point.  (A sum that rounds can bring the border back to
    [x]: see [negative_extent_rounded_away].) *)
Theorem isAnnotationAtPoint_negative_extent (props : Props Layers) (r : Resource)
    x y w h :
  svgSelector r = None ->
  fragmentSelector r = Some (x, y, w, h) ->
  (w < 0 /\ isDouble (x + w)) \/ (h < 0 /\ isDouble (y + h)) ->
  forall canvas point,
    isAnnotationAtPoint svgPaths isPointInPath props r canvas point = false.
Proof.
  intros Hsvg Hfrag Hneg canvas point.
  destruct (isAnnotationAtPoint svgPaths isPointInPath props r canvas point) eqn:Hhit;
    [| reflexivity].
  destruct (canvasToWorldCoordinates (canvasWorld props) (canvas_id canvas))
    as [[[cx cy] cw] ch] eqn:Hworld.
  destruct (proj1 (isAnnotationAtPoint_fragment svgPaths isPointInPath props r canvas
                     point Hsvg Hfrag Hworld) Hhit) as [[Hx1 Hx2] [Hy1 Hy2]].
  unfold add in Hx2, Hy2.
  destruct Hneg as [[Hw Hexact] | [Hh Hexact]]; unfold isDouble in Hexact.
  - rewrite Hexact in Hx2. lra.
  - rewrite Hexact in Hy2. lra.
Qed.

Section Scores.
Variable props : Props Layers.
Variable canvas : Canvas.
Variable point : Point.

Local Abbreviation clickScore r a :=
  (score (annosWithClickScore svgPaths isPointInPath props canvas point r a)).

Lemma clickScore_eq (r : Z) (a : Resource) :
  clickScore r a = localityScore svgPaths isPointInPath props canvas point r a.
Proof. rewrite annosWithClickScore_spec. reflexivity. Qed.

(** X9.  The score of a candidate at radius [r] is at least 0 and at most
    [(2 r + 1)^2], the number of sample points. *)
Theorem clickScore_bounds (r : Z) (a : Resource) :
  (0 <= r)%Z ->
  (0 <= clickScore r a <= (2 * r + 1) ^ 2)%Z.
Proof.
  intros Hr. rewrite clickScore_eq. unfold localityScore. split; [lia|].
  pose proof (filter_length_bound
                (fun d => isAnnotationAtPoint svgPaths isPointInPath props a canvas
                            (offsetBy point d)) (sampleGrid r)) as Hle.
  unfold sampleGrid in Hle at 2. rewrite length_prod, !length_Zrange in Hle.
  replace (r - - r + 1)%Z with (2 * r + 1)%Z in Hle by lia.
  nia.
Qed.

(** X10.  A rectangle that contains the clicked point scores at least 1 at
    every radius: the clicked point itself is one of the sample points (its
    coordinates are doubles, so adding the offset 0 gives them back). *)
Theorem clickScore_positive (r : Z) (a : Resource) :
  (0 <= r)%Z ->
  isDouble (point_x point) ->
  isDouble (point_y point) ->
  svgSelector a = None ->
  isAnnotationAtPoint svgPaths isPointInPath props a canvas point = true ->
  (1 <= clickScore r a)%Z.
Proof.
  intros Hr Hdx Hdy Hsvg Hhit. rewrite clickScore_eq. unfold localityScore.
  assert (Hin : In (0, 0)%Z
                   (filter (fun d => isAnnotationAtPoint svgPaths isPointInPath props a
                                       canvas (offsetBy point d)) (sampleGrid r))).
  { apply filter_In. split.
    - apply (proj2 (sampleGrid_spec r)). lia.
    - rewrite <- Hhit.
      destruct (canvasToWorldCoordinates (canvasWorld props) (canvas_id canvas))
        as [[[cx cy] cw] ch] eqn:Hworld.
      unfold isAnnotationAtPoint. rewrite Hworld, Hsvg.
      destruct (fragmentSelector a) as [[[[x y] w] h]|]; [| reflexivity].
      assert (Hx : sub (point_x (offsetBy point (0, 0)%Z)) cx == sub (point_x point) cx).
      { unfold offsetBy, sub, add. cbn [point_x fst]. apply toDouble_comp.
        assert (H0 : toDouble (point_x point + inject_Z 0) == point_x point).
        { apply (Qeq_trans _ (toDouble (point_x point)) _); [| exact Hdx].
          apply toDouble_comp. change (inject_Z 0) with 0. ring. }
        rewrite H0. reflexivity. }
      assert (Hy : sub (point_y (offsetBy point (0, 0)%Z)) cy == sub (point_y point) cy).
      { unfold offsetBy, sub, add. cbn [point_y snd]. apply toDouble_comp.
        assert (H0 : toDouble (point_y point + inject_Z 0) == point_y point).
        { apply (Qeq_trans _ (toDouble (point_y point)) _); [| exact Hdy].
          apply toDouble_comp. change (inject_Z 0) with 0. ring. }
        rewrite H0. reflexivity. }
      rewrite (Qle_bool_ext (Qeq_refl x) Hx), (Qle_bool_ext Hx (Qeq_refl (add x w))),
        (Qle_bool_ext (Qeq_refl y) Hy), (Qle_bool_ext Hy (Qeq_refl (add y h))).
      reflexivity. }
  destruct (filter _ (sampleGrid r)); [destruct Hin | simpl; lia].
Qed.

(** X11.  The score does not go down as the radius goes up. *)
Theorem clickScore_monotone (r r' : Z) (a : Resource) :
  (r <= r')%Z ->
  (clickScore r a <= clickScore r' a)%Z.
Proof.
  intros Hr. rewrite !clickScore_eq. unfold localityScore.
  apply inj_le. apply NoDup_incl_length.
  - apply NoDup_filter. apply (proj1 (sampleGrid_spec r)).
  - intros [dx dy] Hin. apply filter_In in Hin as [Hgrid Hhit].
    apply filter_In. split; [| exact Hhit].
    apply (proj2 (sampleGrid_spec r')). apply (proj2 (sampleGrid_spec r)) in Hgrid. lia.
Qed.

End Scores.

Variable pointFromPixel : Point -> Point.

(** X12.  What a click does.  Off every canvas, or where no annotation is
    hit, nothing is called.  Otherwise the default action is prevented and
    one annotation is toggled: a resource of the lists that targets the
    clicked canvas and contains the clicked point, deselected when it is the
    selected annotation and selected when it is not. *)
Theorem onCanvasClick_outcome (props : Props Layers) (webPosition : Point) :
  let point := pointFromPixel webPosition in
  let effects := onCanvasClick svgPaths isPointInPath pointFromPixel props webPosition in
  (canvasAtPoint (canvasWorld props) point = None /\ effects = []) \/
  (exists canvas,
      canvasAtPoint (canvasWorld props) point = Some canvas /\
      annotationsAtPoint svgPaths isPointInPath props canvas point = [] /\
      effects = []) \/
  (exists canvas a,
      canvasAtPoint (canvasWorld props) point = Some canvas /\
      In a (allResources props) /\
      res_targetId a = canvas_id canvas /\
      isAnnotationAtPoint svgPaths isPointInPath props a canvas point = true /\
      effects
      = [PreventDefaultAction;
         if eqb_undefinable (selectedAnnotationId props) (Some (res_id a))
         then DeselectAnnotation (windowId props) (res_targetId a) (res_id a)
         else SelectAnnotation (windowId props) (res_targetId a) (res_id a)]).
Proof.
  intros point effects.
  destruct (canvasAtPoint (canvasWorld props) point) as [canvas|] eqn:Hcanvas.
  - right.
    destruct (annotationsAtPoint svgPaths isPointInPath props canvas point)
      as [|a1 rest] eqn:Hhits.
    + left. exists canvas. split; [reflexivity|]. split; [exact Hhits|].
      subst effects. unfold onCanvasClick. cbv zeta. fold point.
      rewrite Hcanvas, Hhits. reflexivity.
    + right.
      assert (Hsel : exists a,
                 In a (a1 :: rest) /\
                 effects = PreventDefaultAction
                           :: toggleAnnotation props (res_targetId a) (res_id a)).
      { destruct rest as [|a2 rest'].
        - exists a1. split; [left; reflexivity|].
          subst effects. unfold onCanvasClick. cbv zeta. fold point.
          rewrite Hcanvas, Hhits. reflexivity.
        - destruct (onCanvasClick_selected svgPaths isPointInPath pointFromPixel props
                      webPosition Hcanvas Hhits) as (a & Hlow & Hclick);
            [simpl; lia|].
          exists a. split; [| exact Hclick].
          apply (lowestScoring_lowest _ _ Hlow). }
      destruct Hsel as (a & Hin & Heff). exists canvas, a.
      rewrite <- Hhits in Hin. apply annotationsAtPoint_In in Hin as (Hres & Htarget & Hhit).
      split; [reflexivity|]. split; [exact Hres|]. split; [symmetry; exact Htarget|].
      split; [exact Hhit|]. rewrite Heff, toggleAnnotation_cases. reflexivity.
  - left. split; [reflexivity|]. subst effects. unfold onCanvasClick. cbv zeta.
    fold point. rewrite Hcanvas. reflexivity.
Qed.

End MoreHitTesting.

(** ** More on viewport synchronisation *)

Lemma round_half_up_integer (x : Q) (n : Z) : x == inject_Z n -> round_half_up x = n.
Proof.
  intros Hx. destruct (round_half_up_bounds x) as [Hlo Hhi].
  set (m := round_half_up x) in *.
  destruct (Z.lt_trichotomy m n) as [Hlt | [Heq | Hgt]]; [| exact Heq |].
  - exfalso. assert (Hm : inject_Z (m + 1) <= inject_Z n) by (rewrite <- Zle_Qle; lia).
    rewrite inject_Z_plus in Hm. change (inject_Z 1) with 1 in Hm. lra.
  - exfalso. assert (Hm : inject_Z (n + 1) <= inject_Z m) by (rewrite <- Zle_Qle; lia).
    rewrite inject_Z_plus in Hm. change (inject_Z 1) with 1 in Hm. lra.
Qed.

Lemma Math_round_idempotent (x : number) : Math_round (Math_round x) = Math_round x.
Proof.
  unfold Math_round. f_equal. apply round_half_up_integer. reflexivity.
Qed.

Lemma filter_isViewportCommand_redraw (c : bool) (rest : list Effect) :
  filter isViewportCommand ((if c then [ResetUpdateCanvas; ForceRedraw] else []) ++ rest)
  = filter isViewportCommand rest.
Proof. destruct c; reflexivity. Qed.

Section MoreViewportSync.
Variable svgPaths : string -> list string.
Variable isPointInPath : string -> number -> number -> bool.
Variable pointFromPixel : Point -> Point.
Variable Layers : Type.
Variable isEqual_layers : Layers -> Layers -> bool.

Local Abbreviation dispatch' := (dispatch svgPaths isPointInPath pointFromPixel isEqual_layers).
Local Abbreviation run' := (run svgPaths isPointInPath pointFromPixel isEqual_layers).

(** X13.  Forwarding is idempotent: for a viewer whose spring targets are
    the values that were forwarded, [onViewportChange] forwards those same
    values. *)
Theorem onViewportChange_idempotent (props : Props Layers) (viewport : OsdViewport) :
  let v := forwardedState viewport in
  onViewportChange props viewport = [UpdateViewport (windowId props) v] /\
  onViewportChange props
    {| centerSpringX := vp_x v; centerSpringY := vp_y v; zoomSpring := vp_zoom v |}
  = [UpdateViewport (windowId props) v].
Proof.
  intros v. split; [reflexivity|].
  unfold onViewportChange, v, forwardedState. simpl.
  rewrite !Math_round_idempotent. reflexivity.
Qed.

(** X14.  What the rounding brings about.  Once the application holds the
    state that [onViewportChange] forwarded for a pose, an update of the idle
    component (sources and layers as before) never zooms, and it pans the
    viewer, to the rounded centre, exactly when a coordinate of the centre of
    the pose is not an integer. *)
Theorem componentDidUpdate_after_forwarding (props prevProps : Props Layers)
    (this : Component) (viewport : OsdViewport) :
  infoResponsesMatch props (infoResponses prevProps) = true ->
  nonTiledImagedMatch props (nonTiledImages prevProps) = true ->
  isEqual_layers (layers (canvasWorld props)) (layers (canvasWorld prevProps)) = true ->
  osdUpdating this = false ->
  viewer props = Some (forwardedState viewport) ->
  filter isViewportCommand
    (componentDidUpdate isEqual_layers props this viewport prevProps)
  = if isInteger (centerSpringX viewport) && isInteger (centerSpringY viewport)
    then []
    else [PanTo (forwardedState viewport) false].
Proof.
  intros Hinfo Himages Hlayers Hidle Hviewer.
  unfold componentDidUpdate. cbv zeta.
  rewrite filter_isViewportCommand_redraw, Hinfo, Himages, Hlayers, Hviewer, Hidle.
  simpl. unfold isInteger. rewrite (proj2 (Qeq_bool_iff _ _) (Qeq_refl (zoomSpring viewport))).
  simpl. rewrite app_nil_r.
  destruct (Qeq_bool (Math_round (centerSpringX viewport)) (centerSpringX viewport));
    destruct (Qeq_bool (Math_round (centerSpringY viewport)) (centerSpringY viewport));
    reflexivity.
Qed.

Lemma run_flag (this : Component) (events : list (Props Layers * Event Layers)) :
  osdUpdating (fst (run' this events)) = flagAfter (osdUpdating this) events.
Proof.
  revert this. induction events as [|[props e] events IH]; intros this; [reflexivity|].
  simpl. unfold flagAfter. simpl.
  assert (Hstep : osdUpdating (fst (dispatch' this props e))
                  = match e with
                    | AnimationStart => true
                    | AnimationFinish _ => false
                    | _ => osdUpdating this
                    end)
    by (destruct e; reflexivity).
  destruct (dispatch' this props e) as [this' effects].
  specialize (IH this'). destruct (run' this' events) as [final log].
  simpl in *. rewrite IH, Hstep. reflexivity.
Qed.

Lemma flagAfter_app (flag : bool) (l1 l2 : list (Props Layers * Event Layers)) :
  flagAfter flag (l1 ++ l2) = flagAfter (flagAfter flag l1) l2.
Proof. unfold flagAfter. apply fold_left_app. Qed.

Lemma flagAfter_no_start (events : list (Props Layers * Event Layers)) :
  Forall (fun pe => snd pe <> AnimationStart) events ->
  flagAfter false events = false.
Proof.
  induction 1 as [|[props e] events He Hall IH]; [reflexivity|].
  unfold flagAfter. simpl. destruct e; try exact IH. exfalso. apply He. reflexivity.
Qed.

(** X15.  Reconciliation resumes when the animation is over.  After an
    [animation-finish] and any events other than [animation-start] the flag
    is clear, and an update (sources and layers as before) whose viewport
    state has another [x] than the viewer pans the viewer to it. *)
Theorem componentDidUpdate_resumes_after_finish (this0 : Component)
    (before during : list (Props Layers * Event Layers))
    (finishProps props prevProps : Props Layers) (pose viewport : OsdViewport)
    (v : ViewportState) :
  Forall (fun pe => snd pe <> AnimationStart) during ->
  infoResponsesMatch props (infoResponses prevProps) = true ->
  nonTiledImagedMatch props (nonTiledImages prevProps) = true ->
  isEqual_layers (layers (canvasWorld props)) (layers (canvasWorld prevProps)) = true ->
  viewer props = Some v ->
  ~ vp_x v == centerSpringX viewport ->
  let this :=
    fst (run' this0 (before ++ (finishProps, AnimationFinish pose) :: during)) in
  osdUpdating this = false /\
  In (PanTo v false) (componentDidUpdate isEqual_layers props this viewport prevProps).
Proof.
  intros Hduring Hinfo Himages Hlayers Hviewer Hx this.
  assert (Hflag : osdUpdating this = false).
  { subst this. rewrite run_flag, flagAfter_app.
    change (flagAfter (flagAfter (osdUpdating this0) before)
              ((finishProps, AnimationFinish pose) :: during))
      with (flagAfter false during).
    apply flagAfter_no_start. exact Hduring. }
  split; [exact Hflag|].
  unfold componentDidUpdate. cbv zeta.
  rewrite Hinfo, Himages, Hlayers, Hviewer, Hflag. simpl.
  apply in_or_app. right. apply in_or_app. left.
  destruct (Qeq_bool (vp_x v) (centerSpringX viewport)) eqn:Heq.
  - apply Qeq_bool_iff in Heq. contradiction.
  - simpl. left. reflexivity.
Qed.

Lemma onCanvasClick_toggles (props : Props Layers) (webPosition : Point) :
  onCanvasClick svgPaths isPointInPath pointFromPixel props webPosition = [] \/
  exists a,
    onCanvasClick svgPaths isPointInPath pointFromPixel props webPosition
    = PreventDefaultAction :: toggleAnnotation props (res_targetId a) (res_id a).
Proof.
  destruct (canvasAtPoint (canvasWorld props) (pointFromPixel webPosition))
    as [canvas|] eqn:Hcanvas.
  - destruct (annotationsAtPoint svgPaths isPointInPath props canvas
                (pointFromPixel webPosition)) as [|a1 [|a2 rest]] eqn:Hhits.
    + left. unfold onCanvasClick. cbv zeta. rewrite Hcanvas, Hhits. reflexivity.
    + right. exists a1. unfold onCanvasClick. cbv zeta. rewrite Hcanvas, Hhits.
      reflexivity.
    + right.
      destruct (onCanvasClick_selected svgPaths isPointInPath pointFromPixel props
                  webPosition Hcanvas Hhits) as (a & _ & Hclick); [simpl; lia|].
      exists a. exact Hclick.
  - left. unfold onCanvasClick. cbv zeta. rewrite Hcanvas. reflexivity.
Qed.

Lemma componentDidUpdate_commands (props prevProps : Props Layers) (this : Component)
    (viewport : OsdViewport) (c : Effect) :
  In c (componentDidUpdate isEqual_layers props this viewport prevProps) ->
  setsViewport c = true ->
  exists v, viewer props = Some v /\ (c = PanTo v false \/ c = ZoomTo (vp_zoom v) v false).
Proof.
  unfold componentDidUpdate. cbv zeta. intros Hin Hc.
  apply in_app_or in Hin as [Hin | Hin].
  - exfalso.
    match type of Hin with In _ (if ?b then _ else _) => destruct b end;
      [| destruct Hin].
    destruct Hin as [<- | [<- | []]]; discriminate Hc.
  - match type of Hin with In _ (if ?b then _ else _) => destruct b end.
    { exfalso. destruct Hin as [<- | [<- | []]]; discriminate Hc. }
    match type of Hin with In _ (if ?b then _ else _) => destruct b end.
    { exfalso. destruct Hin as [<- | []]. discriminate Hc. }
    destruct (viewer props) as [v|]; [| destruct Hin].
    exists v. split; [reflexivity|].
    destruct (negb (osdUpdating this)); [| destruct Hin].
    apply in_app_or in Hin as [Hin | Hin];
      match type of Hin with In _ (if ?b then _ else _) => destruct b end;
      try destruct Hin as [<- | []]; try (destruct Hin; fail); tauto.
Qed.

(** X16.  Of [componentDidMount], [componentDidUpdate],
    [componentWillUnmount], [zoomToWorld] and the handlers of
    [update-viewport], [animation-start], [animation-finish], [canvas-click]
    and of pointer moves, only [componentDidMount], [componentDidUpdate] and
    [zoomToWorld] set the viewport of the viewer.  [componentDidMount] pans
    and zooms at once, to the viewport state when there is one (and a
    [ref]); [componentDidUpdate] pans or zooms to it, animated, and calls
    nothing else on the viewport; [zoomToWorld] fits the bounds of the
    world; the others call neither [panTo] nor [zoomTo] nor [fitBounds]. *)
Theorem setsViewport_by_entry_point (this : Component) (props : Props Layers)
    (e : Event Layers) :
  match e with
  | Mount refCurrent =>
      filter setsViewport (snd (dispatch' this props e))
      = match viewer props with
        | Some v => if refCurrent then [PanTo v true; ZoomTo (vp_zoom v) v true] else []
        | None => []
        end
  | DidUpdate _ _ =>
      forall c, In c (snd (dispatch' this props e)) -> setsViewport c = true ->
                exists v, viewer props = Some v /\
                          (c = PanTo v false \/ c = ZoomTo (vp_zoom v) v false)
  | ZoomToWorld immediately =>
      exists x y w h b,
        worldBounds (canvasWorld props) = (x, y, w, h) /\
        snd (dispatch' this props e) = [FitBounds x y w h b] /\
        b = match immediately with Some b' => b' | None => true end
  | AnimationStart | AnimationFinish _ | CanvasClick _ | MouseMove _
  | UpdateViewportFired | Unmount =>
      filter setsViewport (snd (dispatch' this props e)) = []
  end.
Proof.
  destruct e as [| viewport | webPosition | webPosition | viewport prevProps
                 | refCurrent | immediately | |]; simpl.
  - reflexivity.
  - reflexivity.
  - destruct (onCanvasClick_toggles props webPosition) as [-> | (a & ->)];
      [reflexivity|].
    rewrite toggleAnnotation_cases. simpl.
    destruct (eqb_undefinable _ _); reflexivity.
  - unfold onCanvasMouseMove.
    destruct (canvasAtPoint _ _); [| reflexivity].
    match goal with |- filter _ (if ?c then _ else _) = _ => destruct c end;
      reflexivity.
  - intros c Hin Hc. exact (componentDidUpdate_commands _ _ _ _ _ Hin Hc).
  - unfold componentDidMount. destruct refCurrent; destruct (viewer props); reflexivity.
  - unfold zoomToWorld.
    destruct (worldBounds (canvasWorld props)) as [[[x y] w] h].
    exists x, y, w, h, (match immediately with Some b' => b' | None => true end).
    repeat split.
  - reflexivity.
  - reflexivity.
Qed.

End MoreViewportSync.

(** ** The reducer of the windows *)

Section WindowsFacts.
Import Js Windows.

Lemma setWindow_same (w : string) (o : Obj) (state : State) :
  setWindow w o state w = Some o.
Proof. unfold setWindow. rewrite String.eqb_refl. reflexivity. Qed.

Lemma setWindow_other (w w' : string) (o : Obj) (state : State) :
  w' <> w -> setWindow w o state w' = state w'.
Proof.
  intros Hne. unfold setWindow. apply String.eqb_neq in Hne. rewrite Hne. reflexivity.
Qed.

Lemma spread_setWindow (w : string) (o : Obj) (state : State) :
  spread (setWindow w o state) w = o.
Proof. unfold spread. rewrite setWindow_same. reflexivity. Qed.

Lemma setField_same (k : string) (v : Value) (o : Obj) : setField k v o k = v.
Proof. unfold setField. rewrite String.eqb_refl. reflexivity. Qed.

Lemma setField_other (k k' : string) (v : Value) (o : Obj) :
  k' <> k -> setField k v o k' = o k'.
Proof.
  intros Hne. unfold setField. apply String.eqb_neq in Hne. rewrite Hne. reflexivity.
Qed.

Lemma merge_other (orig : Obj) (payload : list (string * Value)) (k : string) :
  ~ In k (map fst payload) -> merge orig payload k = orig k.
Proof.
  unfold merge. revert orig. induction payload as [|[k' v] payload IH]; intros orig Hnot;
    simpl; [reflexivity|].
  rewrite IH by (intros Hin; apply Hnot; right; exact Hin).
  apply setField_other. intros ->. apply Hnot. left. reflexivity.
Qed.

Ltac reducer_cases :=
  repeat match goal with
         | H : Returns _ = Returns _ |- _ => injection H as <-
         | H : Throws = Returns _ |- _ => discriminate H
         | H : Some _ = Some _ |- _ => injection H as <-
         | H : None = Some _ |- _ => discriminate H
         | H : context [match ?x with _ => _ end] |- _ =>
             let E := fresh "E" in destruct x eqn:E
         | H : context [if ?c then _ else _] |- _ =>
             let E := fresh "E" in destruct c eqn:E
         end.

(** X17.  An action changes the window it names and no other: apart from an
    import of a whole state, whatever the reducer returns has every other
    window as it was. *)
Theorem windowsReducer_other_windows (state state' : State) (a : Action) (w : string) :
  windowsReducer state a = Returns state' ->
  (forall imported, a <> IMPORT_MIRADOR_STATE imported) ->
  target a <> Some w ->
  state' w = state w.
Proof.
  intros Hreturn Himport Htarget.
  destruct a; simpl in Hreturn, Htarget; reducer_cases;
    try reflexivity;
    try (apply setWindow_other; congruence);
    try (exfalso; eapply Himport; reflexivity).
  unfold removeIn.
  match goal with
  | |- (if String.eqb ?x ?y then _ else _) = _ => destruct (String.eqb_spec x y)
  end; [congruence | reflexivity].
Qed.

(** X18.  An action writes its own fields and no other: in the window it
    names, every field outside the ones the action sets (for an update, the
    fields of its payload) reads as before. *)
Theorem windowsReducer_other_fields (state state' : State) (a : Action) (w : string)
    (fields : list string) (k : string) :
  windowsReducer state a = Returns state' ->
  target a = Some w ->
  written a = Some fields ->
  ~ In k fields ->
  spread state' w k = spread state w k.
Proof.
  intros Hreturn Htarget Hwritten Hk.
  destruct a; simpl in Hreturn, Htarget, Hwritten; try discriminate;
    injection Htarget as <-; injection Hwritten as <-;
    reducer_cases; try reflexivity;
    rewrite ?spread_setWindow;
    repeat (rewrite setField_other by (intros ->; apply Hk; simpl; tauto));
    try reflexivity;
    try (unfold spread; rewrite E; reflexivity).
  all: try (rewrite merge_other by exact Hk; unfold spread; rewrite E; reflexivity).
  destruct (isString "left" position);
    repeat (rewrite setField_other by (intros ->; apply Hk; simpl; tauto));
    unfold spread; rewrite E; reflexivity.
Qed.

End WindowsFacts.

Section WindowsSequences.
Import Js Windows.


(** X20.  Selecting an annotation and then deselecting: after the first
    action the window's [selectedAnnotationId] is the id, after the second it
    is undefined; every other field of the window, and every other window,
    is as before. *)
Theorem select_then_deselect (state : State) (w : string) (annotationId : Value) :
  exists selected deselected,
    windowsReducer state (SELECT_ANNOTATION w annotationId) = Returns selected /\
    reduceAll state [SELECT_ANNOTATION w annotationId; DESELECT_ANNOTATION w]
    = Returns deselected /\
    spread selected w "selectedAnnotationId"%string = annotationId /\
    spread deselected w "selectedAnnotationId"%string = VUndefined /\
    (forall k, k <> "selectedAnnotationId"%string ->
               spread deselected w k = spread state w k) /\
    (forall w', w' <> w -> deselected w' = state w').
Proof.
  eexists. eexists. split; [reflexivity|]. split; [reflexivity|].
  rewrite !spread_setWindow. split; [apply setField_same|].
  split; [apply setField_same|]. split.
  - intros k Hk. rewrite !setField_other by exact Hk. reflexivity.
  - intros w' Hw'. rewrite !setWindow_other by exact Hw'. reflexivity.
Qed.

(** X21.  Toggling twice gives back the flag as a boolean: after two
    [TOGGLE_WINDOW_SIDE_BAR] the window's [sideBarOpen] is [true] or [false]
    as the former value was truthy or not, so a boolean is restored and an
    undefined becomes [false]; the same holds of [TOGGLE_ANNOTATION_DISPLAY]
    and [highlightAllAnnotations]. *)
Theorem toggle_twice (state : State) (w : string) (o : Obj) :
  state w = Some o ->
  (exists state',
      reduceAll state [TOGGLE_WINDOW_SIDE_BAR w; TOGGLE_WINDOW_SIDE_BAR w]
      = Returns state' /\
      spread state' w "sideBarOpen"%string = VBool (truthy (o "sideBarOpen"%string)) /\
      forall k, k <> "sideBarOpen"%string -> spread state' w k = o k) /\
  (exists state',
      reduceAll state [TOGGLE_ANNOTATION_DISPLAY w; TOGGLE_ANNOTATION_DISPLAY w]
      = Returns state' /\
      spread state' w "highlightAllAnnotations"%string
      = VBool (truthy (o "highlightAllAnnotations"%string)) /\
      forall k, k <> "highlightAllAnnotations"%string -> spread state' w k = o k).
Proof.
  intros Hw. split.
  - simpl. rewrite Hw, setWindow_same. eexists. split; [reflexivity|].
    rewrite spread_setWindow, !setField_same. simpl. rewrite negb_involutive.
    split; [reflexivity|]. intros k Hk. rewrite !setField_other by exact Hk. reflexivity.
  - simpl. rewrite Hw, setWindow_same. eexists. split; [reflexivity|].
    rewrite spread_setWindow, !setField_same. simpl. rewrite negb_involutive.
    split; [reflexivity|]. intros k Hk. rewrite !setField_other by exact Hk. reflexivity.
Qed.

Lemma filter_not_id_app (id : string) (l : list Value) :
  filter (fun i => negb (isString id i)) (l ++ [VString id])
  = filter (fun i => negb (isString id i)) l.
Proof.
  rewrite filter_app. simpl. rewrite String.eqb_refl. simpl. apply app_nil_r.
Qed.

(** X22.  Adding a companion window and then removing it: the window's
    [companionWindowIds] is the former array without any entry equal to the
    id, and so the former array itself when the id was not in it. *)
Theorem add_then_remove_companion (state : State) (w id : string) (o : Obj)
    (ids : list Value) (position content : Value) :
  state w = Some o ->
  o "companionWindowIds"%string = VArray ids ->
  exists state',
    reduceAll state [ADD_COMPANION_WINDOW w id position content;
                     REMOVE_COMPANION_WINDOW w id]
    = Returns state' /\
    spread state' w "companionWindowIds"%string
    = VArray (filter (fun i => negb (isString id i)) ids) /\
    (~ In (VString id) ids -> spread state' w "companionWindowIds"%string = VArray ids).
Proof.
  intros Hw Hids. simpl. rewrite Hw, Hids. simpl. rewrite setWindow_same.
  assert (Hread : (if isString "left" position
                   then setField "sideBarPanel" content
                          (setField "companionAreaOpen" (VBool true)
                             (setField "companionWindowIds"%string
                                (VArray (ids ++ [VString id])) o))
                   else setField "companionWindowIds" (VArray (ids ++ [VString id])) o)
                  "companionWindowIds"%string
                  = VArray (ids ++ [VString id]))
    by (destruct (isString "left" position); reflexivity).
  rewrite Hread. simpl. eexists. split; [reflexivity|].
  rewrite spread_setWindow, setField_same, filter_not_id_app.
  split; [reflexivity|]. intros Hnot. f_equal.
  clear - Hnot. induction ids as [|i ids IH]; [reflexivity|]. simpl.
  assert (Hi : isString id i = false).
  { destruct i; try reflexivity. simpl. apply String.eqb_neq. intros ->.
    apply Hnot. left. reflexivity. }
  rewrite Hi. simpl. f_equal. apply IH. intros Hin. apply Hnot. right. exact Hin.
Qed.

Lemma windowsReducer_keeps_companion_ids (state : State) (a : Action) (w : string) :
  hasCompanionIds state w ->
  writesFieldsOf w a = true ->
  exists state', windowsReducer state a = Returns state' /\ hasCompanionIds state' w.
Proof.
  intros (o & ids & Hw & Hids) Hwrites.
  destruct a; simpl in Hwrites; try discriminate;
    try (apply String.eqb_eq in Hwrites; subst);
    simpl; unfold spread; rewrite ?Hw, ?Hids; simpl;
    try (eexists; split; [reflexivity|]; eexists; eexists;
         split; [apply setWindow_same | exact Hids]).
  - destruct (isString "left" position); eexists; (split; [reflexivity|]);
      eexists; eexists; (split; [apply setWindow_same | reflexivity]).
  - destruct (negb (isString "left" position)); eexists; (split; [reflexivity|]).
    + exists o, ids. split; assumption.
    + eexists; eexists; split; [apply setWindow_same | exact Hids].
  - eexists. split; [reflexivity|]. eexists; eexists.
    split; [apply setWindow_same | reflexivity].
  - eexists. split; [reflexivity|]. exists o, ids. split; assumption.
Qed.

(** X23.  On a window that is there with an array of companion window ids,
    no sequence of actions that write fields of that window raises, and the
    window is still there with an array of companion window ids after it:
    the array the companion actions need is kept by every such action. *)
Theorem reduceAll_never_throws (state : State) (actions : list Action) (w : string) :
  hasCompanionIds state w ->
  forallb (writesFieldsOf w) actions = true ->
  exists state', reduceAll state actions = Returns state' /\ hasCompanionIds state' w.
Proof.
  revert state. induction actions as [|a actions IH]; intros state Hids Hall; simpl.
  - exists state. split; [reflexivity | exact Hids].
  - simpl in Hall. apply andb_true_iff in Hall as [Ha Hall].
    destruct (windowsReducer_keeps_companion_ids a Hids Ha) as (state1 & -> & Hids1).
    apply IH; assumption.
Qed.

End WindowsSequences.

(** ** MiradorCanvas *)

Section MiradorCanvasFacts.
Import Js.

Lemma filter_map_uris_strings (items : list Value) :
  Forall (fun i => exists s, i = VString s /\ s <> ""%string) items ->
  map MiradorCanvas.uriOfRef (filter MiradorCanvas.isAnnotationListRef items) = items.
Proof.
  induction 1 as [|i items (s & -> & Hs) Hall IH]; [reflexivity|].
  assert (Hkeep : MiradorCanvas.isAnnotationListRef (VString s) = true).
  { unfold MiradorCanvas.isAnnotationListRef, truthy.
    apply String.eqb_neq in Hs. rewrite Hs. reflexivity. }
  cbn [filter]. rewrite Hkeep. cbn [map]. rewrite IH. reflexivity.
Qed.

(** X24.  [annotationListUris] takes one reference as it takes an array of
    one: for an [otherContent] that is neither a number nor an array, the
    URIs are those of the one-element array holding it.  Without
    [otherContent] (undefined or null) there are none, and an array of
    non-empty strings is returned as it is. *)
Theorem annotationListUris_one_or_many (c c' : MiradorCanvas.Wrapped) :
  (MiradorCanvas.jsonld_otherContent c'
   = VArray [MiradorCanvas.jsonld_otherContent c] ->
   (forall n, MiradorCanvas.jsonld_otherContent c <> VNumber n) ->
   (forall items, MiradorCanvas.jsonld_otherContent c <> VArray items) ->
   MiradorCanvas.annotationListUris c' = MiradorCanvas.annotationListUris c) /\
  (MiradorCanvas.jsonld_otherContent c = VUndefined \/
   MiradorCanvas.jsonld_otherContent c = VNull ->
   MiradorCanvas.annotationListUris c = Some []) /\
  (forall items,
      MiradorCanvas.jsonld_otherContent c = VArray items ->
      Forall (fun i => exists s, i = VString s /\ s <> ""%string) items ->
      MiradorCanvas.annotationListUris c = Some items).
Proof.
  unfold MiradorCanvas.annotationListUris. split; [| split].
  - intros -> Hnumber Harray.
    destruct (MiradorCanvas.jsonld_otherContent c) as [| | b | n | s | items | fields];
      try reflexivity.
    + exfalso. exact (Hnumber n eq_refl).
    + exfalso. exact (Harray items eq_refl).
  - intros [-> | ->]; reflexivity.
  - intros items -> Hall. simpl. rewrite app_nil_r, filter_map_uris_strings by exact Hall.
    reflexivity.
Qed.

(** X25.  [processAnnotations] calls back for this canvas only, and what it
    hands to [receiveAnnotation] is always an [AnnotationPage] of the
    canvas's own [annotations] with its [items] embedded, under the page's
    own id; when both getters return, there is one call for each URI and one
    for each page. *)
Theorem processAnnotations_calls (c : MiradorCanvas.Wrapped) :
  (forall call, In call (fst (MiradorCanvas.processAnnotations c)) ->
     MiradorCanvas.callCanvas call = MiradorCanvas.mc_id c) /\
  (forall canvasId id annotation,
     In (MiradorCanvas.ReceiveAnnotation canvasId id annotation)
        (fst (MiradorCanvas.processAnnotations c)) ->
     exists pages,
       MiradorCanvas.canvasAnnotationPages c = Some pages /\
       In annotation pages /\
       MiradorCanvas.isAnnotationPage annotation = true /\
       truthy (prop annotation "items") = true /\
       id = prop annotation "id") /\
  (forall uris pages,
     MiradorCanvas.annotationListUris c = Some uris ->
     MiradorCanvas.canvasAnnotationPages c = Some pages ->
     snd (MiradorCanvas.processAnnotations c) = true /\
     List.length (fst (MiradorCanvas.processAnnotations c))
     = (List.length uris + List.length pages)%nat).
Proof.
  unfold MiradorCanvas.processAnnotations.
  destruct (MiradorCanvas.annotationListUris c) as [uris|];
    [| split; [intros call [] | split; [intros ? ? ? [] | discriminate]]].
  destruct (MiradorCanvas.canvasAnnotationPages c) as [pages|] eqn:Hpages; simpl.
  - split; [| split].
    + intros call Hin. apply in_app_or in Hin as [Hin | Hin];
        apply in_map_iff in Hin as (x & <- & _); [reflexivity|].
      unfold MiradorCanvas.processPage. destruct (negb _); reflexivity.
    + intros canvasId id annotation Hin. apply in_app_or in Hin as [Hin | Hin];
        apply in_map_iff in Hin as (x & Heq & Hx); [discriminate|].
      unfold MiradorCanvas.processPage in Heq.
      destruct (truthy (prop x "items")) eqn:Hitems; simpl in Heq; [| discriminate].
      injection Heq as _ <- <-. exists pages. split; [reflexivity|]. split; [exact Hx|].
      split; [| split; [exact Hitems | reflexivity]].
      unfold MiradorCanvas.canvasAnnotationPages in Hpages.
      destruct (newArray (MiradorCanvas.jsonld_annotations c)) as [array|];
        [| discriminate].
      simpl in Hpages. injection Hpages as <-. apply filter_In in Hx as [_ Hx]. exact Hx.
    + intros uris' pages' [= <-] [= <-]. split; [reflexivity|].
      rewrite length_app, !length_map. reflexivity.
  - split; [| split].
    + intros call Hin. apply in_map_iff in Hin as (x & <- & _). reflexivity.
    + intros canvasId id annotation Hin. apply in_map_iff in Hin as (x & Heq & _).
      discriminate.
    + intros uris' pages' _ Hnone. discriminate.
Qed.

Lemma firstServiceIds_filtered (rs : list MiradorCanvas.ImageResource) :
  exists ids,
    MiradorCanvas.firstServiceIds (filter MiradorCanvas.hasServiceId rs) = Some ids /\
    List.length ids = List.length (filter MiradorCanvas.hasServiceId rs) /\
    Forall (fun id => truthy id = true) ids.
Proof.
  induction rs as [|r rs (ids & Hids & Hlen & Hall)]; simpl.
  - exists []. repeat split. constructor.
  - destruct (MiradorCanvas.hasServiceId r) eqn:Hr; [| exists ids; repeat split; assumption].
    unfold MiradorCanvas.hasServiceId in Hr. simpl.
    destruct (MiradorCanvas.services r) as [|s rest]; [discriminate|].
    rewrite Hids. exists (MiradorCanvas.svc_id s :: ids).
    split; [reflexivity|]. split; [simpl; rewrite Hlen; reflexivity|].
    constructor; assumption.
Qed.

(** X26.  [imageServiceIds] never raises: it reads the first service of
    resources that have one only.  It gives one id for each of the
    [iiifImageResources], which are at most as many as the image resources,
    and every id it gives is truthy. *)
Theorem imageServiceIds_defined (c : MiradorCanvas.Wrapped) :
  exists ids,
    MiradorCanvas.imageServiceIds c = Some ids /\
    List.length ids = List.length (MiradorCanvas.iiifImageResources c) /\
    (List.length ids <= List.length (MiradorCanvas.mc_imageResources c))%nat /\
    Forall (fun id => truthy id = true) ids.
Proof.
  unfold MiradorCanvas.imageServiceIds, MiradorCanvas.iiifImageResources.
  destruct (firstServiceIds_filtered (MiradorCanvas.mc_imageResources c))
    as (ids & Hids & Hlen & Hall).
  exists ids. split; [exact Hids|]. split; [exact Hlen|]. split; [| exact Hall].
  rewrite Hlen. apply filter_length_bound.
Qed.

End MiradorCanvasFacts.

(** ** CompanionWindow *)

Section CompanionWindowFacts.
Import CompanionWindow.

Lemma positionIs_true (p : string) (position : option string) :
  positionIs p position = true <-> position = Some p.
Proof.
  destruct position as [q|]; simpl; [| split; discriminate].
  rewrite String.eqb_eq. split; congruence.
Qed.

(** X27.  The buttons of a companion window.  A button that moves the
    window is there only when [updateCompanionWindow] is given; it asks for
    this window and this companion window, for the right or the bottom and
    never for the left, and never for the position the window has.  The
    button that closes is there exactly when the window is not on the
    left. *)
Theorem companionWindow_buttons (props : Props) :
  (forall b, In b (buttons (render props)) ->
     match onClick b with
     | UpdateCompanionWindow w i p =>
         w = cw_windowId props /\ i = cw_id props /\
         cw_updateCompanionWindow props = true /\
         (p = "right"%string \/ p = "bottom"%string) /\
         cw_position props <> Some p
     | OnCloseClick => cw_position props <> Some "left"%string
     end) /\
  (cw_position props <> Some "left"%string ->
   In {| ariaLabel := "closeCompanionWindow"; onClick := OnCloseClick |}
      (buttons (render props))).
Proof.
  unfold render. simpl.
  destruct (positionIs "left" (cw_position props)) eqn:Hleft.
  - apply positionIs_true in Hleft. split; [| congruence].
    destruct (cw_updateCompanionWindow props) eqn:Hupdate; intros b Hb; simpl in Hb;
      [destruct Hb as [<- | []] | destruct Hb].
    simpl. repeat split; [left; reflexivity|]. rewrite Hleft. discriminate.
  - assert (Hnot : cw_position props <> Some "left"%string).
    { intros H. apply positionIs_true in H. congruence. }
    split; [| intros _; apply in_or_app; right; left; reflexivity].
    destruct (positionIs "bottom" (cw_position props)) eqn:Hbottom;
      destruct (cw_updateCompanionWindow props) eqn:Hupdate;
      intros b Hb; simpl in Hb.
    + destruct Hb as [<- | [<- | []]]; simpl; [| exact Hnot].
      repeat split; [left; reflexivity|].
      apply positionIs_true in Hbottom. rewrite Hbottom. discriminate.
    + destruct Hb as [<- | []]. exact Hnot.
    + destruct Hb as [<- | [<- | []]]; simpl; [| exact Hnot].
      repeat split; [right; reflexivity|].
      intros H. apply positionIs_true in H. congruence.
    + destruct Hb as [<- | []]. exact Hnot.
Qed.

(** X28.  Moving there and back.  With [updateCompanionWindow] given, the
    button of a window on the right asks for the bottom and the button of a
    window at the bottom asks for the right: pressing the button, and then
    the button of the window so moved, asks for the position the window
    had. *)
Theorem companionWindow_move_back (props : Props) (p : string) :
  cw_updateCompanionWindow props = true ->
  cw_position props = Some p ->
  p = "right"%string \/ p = "bottom"%string ->
  exists b p' b',
    In b (buttons (render props)) /\
    onClick b = UpdateCompanionWindow (cw_windowId props) (cw_id props) p' /\
    p' <> p /\
    In b' (buttons (render (moved props p'))) /\
    onClick b' = UpdateCompanionWindow (cw_windowId props) (cw_id props) p.
Proof.
  intros Hupdate Hposition [-> | ->]; unfold render, moved; simpl;
    rewrite Hposition, Hupdate; simpl.
  - eexists; exists "bottom"%string; eexists.
    split; [left; reflexivity|]. split; [reflexivity|]. split; [discriminate|].
    split; [left; reflexivity | reflexivity].
  - eexists; exists "right"%string; eexists.
    split; [left; reflexivity|]. split; [reflexivity|]. split; [discriminate|].
    split; [left; reflexivity | reflexivity].
Qed.

End CompanionWindowFacts.

(** ** The further properties at the sample data *)

Lemma componentDidUpdate_without_change_witness :
  componentDidUpdate (fun _ _ : unit => true) Sample.nested {| osdUpdating := false |}
    Sample2.restPose (withHovered Sample.nested [])
  = [].
Proof.
  apply (componentDidUpdate_without_change (fun _ _ : unit => true) Sample.nested
           {| osdUpdating := false |} Sample2.restPose []).
  - intros i. reflexivity.
  - reflexivity.
  - left. reflexivity.
  - simpl. right. repeat split; vm_compute; reflexivity.
Defined.

Lemma componentDidUpdate_closes_without_json_witness :
  exists redraw zoomAfterAdd,
    componentDidUpdate (fun _ _ : unit => true) Sample2.loading {| osdUpdating := false |}
      Sample2.restPose Sample2.loading
    = redraw ++ [ViewerClose; AddAllImageSources zoomAfterAdd] /\
    (redraw = [] \/ redraw = [ResetUpdateCanvas; ForceRedraw]).
Proof.
  apply (componentDidUpdate_closes_without_json (fun _ _ : unit => true) Sample2.loading
           {| osdUpdating := false |} Sample2.restPose Sample2.loading).
  - simpl. discriminate.
  - intros r [<- | []]. reflexivity.
Defined.

Lemma isAnnotationAtPoint_translation_witness :
  isAnnotationAtPoint Sample.svgPaths Sample.isPointInPath Sample2.movedProps
    Sample.small Sample.page Sample2.movedCentre
  = isAnnotationAtPoint Sample.svgPaths Sample.isPointInPath Sample.nested
      Sample.small Sample.page Sample.centre.
Proof.
  apply (isAnnotationAtPoint_translation Sample.svgPaths Sample.isPointInPath
           Sample.nested Sample2.movedProps Sample.small Sample.page Sample.centre
           Sample2.movedCentre
           (cx := 0) (cy := 0) (cw := 1000) (ch := 1000)
           (cx' := 300) (cy' := 200) (cw' := 1000) (ch' := 1000)).
  - reflexivity.
  - reflexivity.
  - reflexivity.
  - vm_compute. reflexivity.
  - vm_compute. reflexivity.
Defined.

Lemma isAnnotationAtPoint_negative_extent_witness :
  isAnnotationAtPoint Sample.svgPaths Sample.isPointInPath Sample.nested
    Sample2.inverted Sample.page Sample.centre = false.
Proof.
  apply (isAnnotationAtPoint_negative_extent Sample.svgPaths Sample.isPointInPath
           Sample.nested Sample2.inverted
           (x := 60) (y := 40) (w := inject_Z (-20)) (h := 20)).
  - reflexivity.
  - reflexivity.
  - left. split; vm_compute; reflexivity.
Defined.

(** Where the sum rounds, the border can come back to [x]: at [2 ^ 54] the
    doubles are 4 apart, [2 ^ 54 - 1] rounds to [2 ^ 54], and the rectangle
    [[2 ^ 54, 0, -1, 10]] contains the points of its left border. *)
Example negative_extent_rounded_away :
  add 18014398509481984 (-1) == 18014398509481984 /\
  isAnnotationAtPoint Sample.svgPaths Sample.isPointInPath Sample.nested
    Sample2.collapsed Sample.page Sample2.onTheBorder = true.
Proof. split; vm_compute; reflexivity. Qed.

Lemma clickScore_bounds_witness :
  (0 <= score (annosWithClickScore Sample.svgPaths Sample.isPointInPath Sample.nested
                 Sample.page Sample.centre 50 Sample.small)
   <= (2 * 50 + 1) ^ 2)%Z.
Proof.
  apply (clickScore_bounds Sample.svgPaths Sample.isPointInPath Sample.nested
           Sample.page Sample.centre (r := 50) Sample.small).
  lia.
Defined.

Lemma clickScore_positive_witness :
  (1 <= score (annosWithClickScore Sample.svgPaths Sample.isPointInPath Sample.nested
                 Sample.page Sample.centre 500 Sample.small))%Z.
Proof.
  apply (clickScore_positive Sample.svgPaths Sample.isPointInPath Sample.nested
           Sample.page Sample.centre (r := 500) Sample.small).
  - lia.
  - vm_compute. reflexivity.
  - vm_compute. reflexivity.
  - reflexivity.
  - vm_compute. reflexivity.
Defined.

Lemma clickScore_monotone_witness :
  (score (annosWithClickScore Sample.svgPaths Sample.isPointInPath Sample.nested
            Sample.page Sample.centre 50 Sample.big)
   <= score (annosWithClickScore Sample.svgPaths Sample.isPointInPath Sample.nested
               Sample.page Sample.centre 150 Sample.big))%Z.
Proof.
  apply (clickScore_monotone Sample.svgPaths Sample.isPointInPath Sample.nested
           Sample.page Sample.centre (r := 50) (r' := 150) Sample.big).
  lia.
Defined.

Lemma componentDidUpdate_after_forwarding_witness :
  filter isViewportCommand
    (componentDidUpdate (fun _ _ : unit => true) Sample2.forwarded
       {| osdUpdating := false |} Sample.pose Sample2.forwarded)
  = [PanTo {| vp_x := 4; vp_y := 20; vp_zoom := 1 # 3 |} false].
Proof.
  apply (componentDidUpdate_after_forwarding (fun _ _ : unit => true) Sample2.forwarded
           Sample2.forwarded {| osdUpdating := false |} (viewport := Sample.pose));
    reflexivity.
Defined.

Lemma componentDidUpdate_resumes_after_finish_witness :
  let this :=
    fst (run Sample.svgPaths Sample.isPointInPath Sample.pointFromPixel
           (fun _ _ : unit => true) {| osdUpdating := true |}
           ([] ++ (Sample.nested, AnimationFinish Sample.pose)
               :: [(Sample.nested, MouseMove Sample.centre)])) in
  osdUpdating this = false /\
  In (PanTo {| vp_x := 10; vp_y := 20; vp_zoom := 1 # 2 |} false)
     (componentDidUpdate (fun _ _ : unit => true) Sample.nested this Sample.pose
        Sample.nested).
Proof.
  apply (componentDidUpdate_resumes_after_finish Sample.svgPaths Sample.isPointInPath
           Sample.pointFromPixel (fun _ _ : unit => true) {| osdUpdating := true |} []
           (during := [(Sample.nested, MouseMove Sample.centre)])
           Sample.nested Sample.nested Sample.nested Sample.pose Sample.pose
           (v := {| vp_x := 10; vp_y := 20; vp_zoom := 1 # 2 |})).
  - constructor; [| constructor]. simpl. discriminate.
  - reflexivity.
  - reflexivity.
  - reflexivity.
  - reflexivity.
  - simpl. intros H. vm_compute in H. discriminate H.
Defined.

Lemma windowsReducer_other_windows_witness :
  Windows.setWindow "window-2"
    (Windows.setField "maximized" (Js.VBool true)
       (Windows.spread Sample2.workspace "window-2"))
    Sample2.workspace "window-1"%string
  = Sample2.workspace "window-1"%string.
Proof.
  apply (windowsReducer_other_windows Sample2.workspace
           (a := Windows.MAXIMIZE_WINDOW "window-2") (w := "window-1")).
  - reflexivity.
  - intros imported. discriminate.
  - simpl. discriminate.
Defined.

Lemma windowsReducer_other_fields_witness :
  Windows.spread
    (Windows.setWindow "window-1"
       (Windows.setField "maximized" (Js.VBool true)
          (Windows.spread Sample2.workspace "window-1"))
       Sample2.workspace)
    "window-1" "sideBarOpen"%string
  = Windows.spread Sample2.workspace "window-1" "sideBarOpen"%string.
Proof.
  apply (windowsReducer_other_fields Sample2.workspace
           (Windows.MAXIMIZE_WINDOW "window-1") (w := "window-1")
           (fields := ["maximized"%string]) "sideBarOpen").
  - reflexivity.
  - reflexivity.
  - reflexivity.
  - simpl. intros [H | []]. discriminate H.
Defined.


Lemma toggle_twice_witness :
  exists state',
    Windows.reduceAll Sample2.workspace
      [Windows.TOGGLE_WINDOW_SIDE_BAR "window-1"; Windows.TOGGLE_WINDOW_SIDE_BAR "window-1"]
    = Windows.Returns state' /\
    Windows.spread state' "window-1" "sideBarOpen"%string = Js.VBool true.
Proof.
  destruct (toggle_twice Sample2.workspace "window-1" (o := Sample2.window1) eq_refl)
    as [(state' & Hrun & Hflag & _) _].
  exists state'. split; [exact Hrun | exact Hflag].
Defined.

Lemma add_then_remove_companion_witness :
  exists state',
    Windows.reduceAll Sample2.workspace
      [Windows.ADD_COMPANION_WINDOW "window-1" "cw-2" (Js.VString "left")
         (Js.VString "info");
       Windows.REMOVE_COMPANION_WINDOW "window-1" "cw-2"]
    = Windows.Returns state' /\
    Windows.spread state' "window-1" "companionWindowIds"%string
    = Js.VArray [Js.VString "cw-1"].
Proof.
  destruct (add_then_remove_companion Sample2.workspace "window-1" "cw-2"
              (o := Sample2.window1) (ids := [Js.VString "cw-1"])
              (Js.VString "left") (Js.VString "info") eq_refl eq_refl)
    as (state' & Hrun & _ & Hsame).
  exists state'. split; [exact Hrun|]. apply Hsame.
  intros [H | []]. discriminate H.
Defined.

Lemma reduceAll_never_throws_witness :
  exists state',
    Windows.reduceAll Sample2.workspace
      [Windows.REMOVE_COMPANION_WINDOW "window-1" "cw-1";
       Windows.TOGGLE_WINDOW_SIDE_BAR "window-1";
       Windows.ADD_COMPANION_WINDOW "window-1" "cw-3" (Js.VString "right") Js.VUndefined]
    = Windows.Returns state' /\
    Windows.hasCompanionIds state' "window-1".
Proof.
  apply (reduceAll_never_throws (state := Sample2.workspace)
           [Windows.REMOVE_COMPANION_WINDOW "window-1" "cw-1";
            Windows.TOGGLE_WINDOW_SIDE_BAR "window-1";
            Windows.ADD_COMPANION_WINDOW "window-1" "cw-3" (Js.VString "right")
              Js.VUndefined]
           (w := "window-1")).
  - exists Sample2.window1, [Js.VString "cw-1"]. split; reflexivity.
  - reflexivity.
Defined.

Lemma companionWindow_move_back_witness :
  exists b p' b',
    In b (CompanionWindow.buttons (CompanionWindow.render Sample2.companion)) /\
    CompanionWindow.onClick b
    = CompanionWindow.UpdateCompanionWindow "window-1" "cw-1" p' /\
    p' <> "right"%string /\
    In b' (CompanionWindow.buttons
             (CompanionWindow.render (CompanionWindow.moved Sample2.companion p'))) /\
    CompanionWindow.onClick b'
    = CompanionWindow.UpdateCompanionWindow "window-1" "cw-1" "right".
Proof.
  apply (companionWindow_move_back Sample2.companion (p := "right")).
  - reflexivity.
  - reflexivity.
  - left. reflexivity.
Defined.
